(** * scalpernew: the per-cycle orchestration engine, embedded in Rocq

    A shallow embedding of [health_monitor.py], [core/data_manager.py],
    [exchange_apis.py], [config/config_manager.py] and the engine classes of
    [bot.py], followed by the properties of the specification that can be
    stated over it.

    Conventions of the embedding.
    - A Python object is a record, a method is a function that takes the
      object and returns the updated object; a mutation that happened before
      an exception was raised is kept, as in Python.
    - A call either returns, raises, or never returns ([res]).
    - Wall-clock readings are integers in microseconds since the epoch:
      [datetime] arithmetic is exact at that resolution, and [time.time()] is
      read as the same clock.
    - Prices and indicator values are binary64 floats ([PrimFloat.float]).
    - Libraries outside the repository (TA-Lib, Python's [int] parser, the
      random generator, SQLite on a statement text that is not the intended
      one) are parameters, gathered in [Extern] and [Env]. *)

From Stdlib Require Import ZArith Lia PrimFloat Ascii.
From stdpp Require Import gmap strings list sorting.

#[local] Set Warnings "-inexact-float".

Local Open Scope Z_scope.

(** ** Python control flow *)

Module Py.

Inductive exn : Type :=
| AttributeError (attr : string)
| KeyError (key : string)
| ValueError
| ZeroDivisionError
| QueueFull
| Exception (msg : string).

(** The three ways a call can end. [Hang] is a call that blocks for ever
    (a blocking [Queue.put] on a full queue); no handler catches it. *)
Inductive res (A : Type) : Type :=
| Ok (a : A)
| Err (e : exn)
| Hang.
Arguments Ok {A} a.
Arguments Err {A} e.
Arguments Hang {A}.

Definition bind {A B} (m : res A) (k : A -> res B) : res B :=
  match m with
  | Ok a => k a
  | Err e => Err e
  | Hang => Hang
  end.

#[global] Instance res_ret : MRet res := @Ok.
#[global] Instance res_bind : MBind res := fun A B k m => bind m k.

(** [d[k]] on a dict whose insertion order matters. *)
Fixpoint assoc {V} (d : list (string * V)) (k : string) : option V :=
  match d with
  | [] => None
  | (k', v) :: d' => if String.eqb k' k then Some v else assoc d' k
  end.

(** [x > y] and [x < y] on floats: false as soon as one side is NaN. *)
Definition gt (x y : float) : bool := PrimFloat.ltb y x.
Definition lt (x y : float) : bool := PrimFloat.ltb x y.

End Py.
Export Py.

(** ** config/config_manager.py *)

Module Config.

(** A per-strategy parameter bundle; [None] is a key the dict lacks, which
    [config.get(key, default)] replaces by the default. *)
Record StrategyConf : Type := {
  conf_ema50_period : option Z;
  conf_ema200_period : option Z;
  conf_cci1_length : option Z;
  conf_cci_long_level : option float;
  conf_cci_short_level : option float
}.

(** The attributes of class [Config] the engine reads. [AUTO_TRADING] is
    read by [TradingEngine.execute_trades] but the class does not define
    it: [None] is the attribute being absent, [Some b] its value once some
    code has assigned it. *)
Record t : Type := {
  SETTINGS_PASSWORD : string;
  SELECTED_EXCHANGE : string;
  ACTIVE_STRATEGIES : list string;
  DISPLAY_STRATEGY : string;
  STRATEGIES : list (string * StrategyConf);
  REFRESH_INTERVAL : Z;
  CURRENT_TIMEFRAME : string;
  MIN_CANDLES_FOR_TRADING : Z;
  DATA_FRESHNESS_CHECK_ENABLED : bool;
  MAX_DATA_AGE_SECONDS : Z;
  AUTO_TRADING : option bool
}.

Definition main_strategy_conf : StrategyConf :=
  {| conf_ema50_period := Some 50; conf_ema200_period := Some 200;
     conf_cci1_length := Some 100;
     conf_cci_long_level := Some 100%float;
     conf_cci_short_level := Some (-100)%float |}.

Definition no_conf : StrategyConf :=
  {| conf_ema50_period := None; conf_ema200_period := None;
     conf_cci1_length := None; conf_cci_long_level := None;
     conf_cci_short_level := None |}.

(** The class as the repository ships it. *)
Definition shipped : t :=
  {| SETTINGS_PASSWORD := "admin123";
     SELECTED_EXCHANGE := "coindcx";
     ACTIVE_STRATEGIES := ["main_strategy"; "trf_strategy"];
     DISPLAY_STRATEGY := "main_strategy";
     STRATEGIES := [("main_strategy", main_strategy_conf);
                    ("rsi_cci_strategy", no_conf);
                    ("trf_strategy", no_conf)];
     REFRESH_INTERVAL := 15;
     CURRENT_TIMEFRAME := "5m";
     MIN_CANDLES_FOR_TRADING := 200;
     DATA_FRESHNESS_CHECK_ENABLED := true;
     MAX_DATA_AGE_SECONDS := 300;
     AUTO_TRADING := None |}.

Definition set_AUTO_TRADING (b : option bool) (c : t) : t :=
  {| SETTINGS_PASSWORD := SETTINGS_PASSWORD c;
     SELECTED_EXCHANGE := SELECTED_EXCHANGE c;
     ACTIVE_STRATEGIES := ACTIVE_STRATEGIES c;
     DISPLAY_STRATEGY := DISPLAY_STRATEGY c;
     STRATEGIES := STRATEGIES c;
     REFRESH_INTERVAL := REFRESH_INTERVAL c;
     CURRENT_TIMEFRAME := CURRENT_TIMEFRAME c;
     MIN_CANDLES_FOR_TRADING := MIN_CANDLES_FOR_TRADING c;
     DATA_FRESHNESS_CHECK_ENABLED := DATA_FRESHNESS_CHECK_ENABLED c;
     MAX_DATA_AGE_SECONDS := MAX_DATA_AGE_SECONDS c;
     AUTO_TRADING := b |}.

Definition set_CURRENT_TIMEFRAME (tf : string) (c : t) : t :=
  {| SETTINGS_PASSWORD := SETTINGS_PASSWORD c;
     SELECTED_EXCHANGE := SELECTED_EXCHANGE c;
     ACTIVE_STRATEGIES := ACTIVE_STRATEGIES c;
     DISPLAY_STRATEGY := DISPLAY_STRATEGY c;
     STRATEGIES := STRATEGIES c;
     REFRESH_INTERVAL := REFRESH_INTERVAL c;
     CURRENT_TIMEFRAME := tf;
     MIN_CANDLES_FOR_TRADING := MIN_CANDLES_FOR_TRADING c;
     DATA_FRESHNESS_CHECK_ENABLED := DATA_FRESHNESS_CHECK_ENABLED c;
     MAX_DATA_AGE_SECONDS := MAX_DATA_AGE_SECONDS c;
     AUTO_TRADING := AUTO_TRADING c |}.

Definition set_DATA_FRESHNESS_CHECK_ENABLED (b : bool) (c : t) : t :=
  {| SETTINGS_PASSWORD := SETTINGS_PASSWORD c;
     SELECTED_EXCHANGE := SELECTED_EXCHANGE c;
     ACTIVE_STRATEGIES := ACTIVE_STRATEGIES c;
     DISPLAY_STRATEGY := DISPLAY_STRATEGY c;
     STRATEGIES := STRATEGIES c;
     REFRESH_INTERVAL := REFRESH_INTERVAL c;
     CURRENT_TIMEFRAME := CURRENT_TIMEFRAME c;
     MIN_CANDLES_FOR_TRADING := MIN_CANDLES_FOR_TRADING c;
     DATA_FRESHNESS_CHECK_ENABLED := b;
     MAX_DATA_AGE_SECONDS := MAX_DATA_AGE_SECONDS c;
     AUTO_TRADING := AUTO_TRADING c |}.

End Config.

(** ** What the program emits: [logging] records and dashboard log lines *)

Inductive event : Type :=
| LogInfo (msg : string)
| LogWarning (msg : string)
| LogError (msg : string)
| DisplayLog (msg : string).

(** A warning of [logging] or a line on the dashboard: the two channels
    through which the health monitor speaks. *)
Definition is_warning (e : event) : bool :=
  match e with
  | LogWarning _ | DisplayLog _ => true
  | LogInfo _ | LogError _ => false
  end.

(** No event of the list is one of those. *)
Definition quiet (ev : list event) : Prop := Forall (fun e => is_warning e = false) ev.

(** ** health_monitor.py *)

Module HealthMonitor.

Record t : Type := mk {
  api_failures : gmap string Z;
  db_failures : Z;
  last_successful_cycle : Z;
  pair_blacklist : gset string;
  (** [self.bot] is set and has a [display] *)
  bot : bool
}.

(** [__init__], the clock read by [time.time()] being [now]. *)
Definition init (now : Z) : t :=
  {| api_failures := ∅; db_failures := 0; last_successful_cycle := now;
     pair_blacklist := ∅; bot := false |}.

Definition set_bot (hm : t) : t :=
  mk (api_failures hm) (db_failures hm) (last_successful_cycle hm)
     (pair_blacklist hm) true.

Definition blacklist_pair (pair : string) (hm : t) : t * list event :=
  if decide (pair ∈ pair_blacklist hm) then (hm, [])
  else
    (mk (api_failures hm) (db_failures hm) (last_successful_cycle hm)
        ({[pair]} ∪ pair_blacklist hm) (bot hm),
     LogWarning ("Blacklisting pair " +:+ pair +:+ " due to repeated API failures.")
     :: (if bot hm then [DisplayLog ("Pair " +:+ pair +:+ " blacklisted.")] else [])).

Definition record_api_failure (pair : string) (hm : t) : t * list event :=
  let n := default 0 (api_failures hm !! pair) + 1 in
  let hm1 := mk (<[pair := n]> (api_failures hm)) (db_failures hm)
                (last_successful_cycle hm) (pair_blacklist hm) (bot hm) in
  if 5 <? n then blacklist_pair pair hm1 else (hm1, []).

Definition record_db_failure (hm : t) : t :=
  mk (api_failures hm) (db_failures hm + 1) (last_successful_cycle hm)
     (pair_blacklist hm) (bot hm).

Definition record_successful_cycle (now : Z) (hm : t) : t :=
  mk (api_failures hm) (db_failures hm) now (pair_blacklist hm) (bot hm).

Definition is_pair_blacklisted (pair : string) (hm : t) : bool :=
  bool_decide (pair ∈ pair_blacklist hm).

Definition check_blacklist (hm : t) : t := hm.

(** [refresh_interval] is in seconds, the clock in microseconds. *)
Definition check_process_health (refresh_interval now : Z) (hm : t) : list event :=
  let time_since_success := now - last_successful_cycle hm in
  if refresh_interval * 5 * 1000000 <? time_since_success then
    LogWarning "Bot has not had a successful cycle in 5 intervals. Possible issue."
    :: (if bot hm then [DisplayLog "Warning: Bot may be stuck or experiencing issues."] else [])
  else [].

(** The number of failures recorded for [pair]. *)
Definition failure_count (pair : string) (hm : t) : Z :=
  default 0 (api_failures hm !! pair).

(** The invariant of the class: a pair with more than five recorded
    failures is in the blacklist. *)
Definition counted_out (hm : t) : Prop :=
  forall p, 5 < failure_count p hm -> p ∈ pair_blacklist hm.

(** The monitors a run of the program can hold: built by [__init__] and
    changed by the methods of the class only. *)
Inductive reachable : t -> Prop :=
| reach_init now : reachable (init now)
| reach_set_bot hm : reachable hm -> reachable (set_bot hm)
| reach_api_failure pair hm :
    reachable hm -> reachable (record_api_failure pair hm).1
| reach_db_failure hm : reachable hm -> reachable (record_db_failure hm)
| reach_successful_cycle now hm :
    reachable hm -> reachable (record_successful_cycle now hm)
| reach_blacklist_pair pair hm :
    reachable hm -> reachable (blacklist_pair pair hm).1.

End HealthMonitor.

(** ** Candles and data frames *)

(** One row of the six-column frame an exchange client builds:
    [open_time] in integer milliseconds, then the OHLCV floats. *)
Module Bar.
Record t : Type := mk {
  open_time : Z;
  open : float;
  high : float;
  low : float;
  close : float;
  volume : float
}.
End Bar.

(** One row of table [candles]; its primary key is
    [(pair, interval, open_time)]. *)
Module Row.
Record t : Type := mk {
  pair : string;
  interval : string;
  bar : Bar.t
}.

Definition open_time (r : t) : Z := Bar.open_time (bar r).
Definition close (r : t) : float := Bar.close (bar r).
Definition high (r : t) : float := Bar.high (bar r).
Definition low (r : t) : float := Bar.low (bar r).

(** Same primary key. *)
Definition has_key (p i : string) (ot : Z) (r : t) : bool :=
  String.eqb (pair r) p && String.eqb (interval r) i && (open_time r =? ot).
End Row.

(** A pandas frame over the columns of [candles], with the three indicator
    columns a strategy may add ([None]: the frame has no such column). *)
Module DataFrame.
Record t : Type := mk {
  rows : list Row.t;
  ema50 : option (list float);
  ema200 : option (list float);
  cci1 : option (list float)
}.

Definition of_rows (l : list Row.t) : t := mk l None None None.

Definition empty (df : t) : bool :=
  match rows df with [] => true | _ :: _ => false end.

Definition len (df : t) : Z := Z.of_nat (length (rows df)).

(** [df[col] = values]: pandas refuses a column of another length. *)
Definition check_length (df : t) (values : list float) : res (list float) :=
  if decide (length values = length (rows df)) then Ok values else Err ValueError.

(** [df['pair'] = symbol] *)
Definition set_pair (symbol : string) (df : t) : t :=
  mk (map (fun r => Row.mk symbol (Row.interval r) (Row.bar r)) (rows df))
     (ema50 df) (ema200 df) (cci1 df).

(** [df.iloc[-1]], as the fields the strategies read. *)
Record LatestRow : Type := mk_latest {
  latest_pair : string;
  latest_close : float;
  latest_ema200 : option float;
  latest_cci1 : option float
}.

Definition iloc_last (df : t) : option LatestRow :=
  match last (rows df) with
  | None => None
  | Some r =>
      Some (mk_latest (Row.pair r) (Row.close r)
              (ema200 df ≫= last) (cci1 df ≫= last))
  end.
(** The call returned a frame that has the three indicator columns. *)
Definition is_enriched (r : res t) : bool :=
  match r with
  | Ok df =>
      match ema50 df, ema200 df, cci1 df with
      | Some _, Some _, Some _ => true
      | _, _, _ => false
      end
  | _ => false
  end.

End DataFrame.

(** ** What lies outside the repository *)

(** TA-Lib: each function returns an array, or raises ([None]). *)
Record Talib : Type := {
  EMA : list float -> Z -> option (list float);
  CCI : list float -> list float -> list float -> Z -> option (list float)
}.

Record Extern : Type := {
  (** the module [talib], [None] when the import failed *)
  talib : option Talib;
  (** Python's [int(s)] on a string, [None] when it raises [ValueError] *)
  py_int : string -> option Z;
  (** What SQLite does with the text of [save_candle_data]'s statement when
      the pair or the interval spliced into it contains a quote, so that the
      text is no longer the intended statement: the new table, or [None]
      when the statement is rejected. *)
  sqlite_spliced : string -> string -> list Bar.t -> list Row.t -> option (list Row.t)
}.

(** What one call reads from its environment. *)
Record Env : Type := {
  (** [datetime.now(timezone.utc)], microseconds *)
  utcnow : Z;
  (** [time.time()], microseconds *)
  time_time : Z;
  (** the i-th draw of [np.random.randn] *)
  randn : nat -> float;
  (** the k-th call of [np.random.uniform(lo, hi)] *)
  uniform : nat -> float -> float -> float
}.

(** ** core/data_manager.py *)

Module DatabaseConnectionPool.

(** A connection is known by the rank of the [sqlite3.connect] call that
    made it. *)
Definition Conn : Type := nat.

Record t : Type := mk {
  max_connections : Z;
  timeout : Z;
  (** the queue, oldest first *)
  pool : list Conn;
  active_connections : Z
}.

Definition qsize (p : t) : Z := Z.of_nat (length (pool p)).

(** [queue.Queue(maxsize)] is bounded only when [maxsize > 0]. *)
Definition full (p : t) : bool :=
  (0 <? max_connections p) && (max_connections p <=? qsize p).

(** [self.pool.put(conn, block=False)] *)
Definition put_nowait (conn : Conn) (p : t) : res unit * t :=
  if full p then (Err QueueFull, p)
  else (Ok (), mk (max_connections p) (timeout p) (pool p ++ [conn]) (active_connections p)).

(** One turn of the loop of [_initialize_pool]; [connect i] tells whether
    the [i]-th [_create_optimized_connection] succeeds. *)
Definition initialize_step (connect : nat -> bool) (i : nat) (p : t) : t * list event :=
  if connect i then
    match put_nowait i p with
    | (Ok _, p1) =>
        (mk (max_connections p1) (timeout p1) (pool p1) (active_connections p1 + 1), [])
    | (_, p1) => (p1, [LogError "Error initializing connection pool"])
    end
  else (p, [LogError "Error initializing connection pool"]).

Fixpoint initialize_loop (connect : nat -> bool) (todo : list nat) (p : t) : t * list event :=
  match todo with
  | [] => (p, [])
  | i :: todo' =>
      let '(p1, ev1) := initialize_step connect i p in
      let '(p2, ev2) := initialize_loop connect todo' p1 in
      (p2, ev1 ++ ev2)
  end.

(** [for _ in range(min(3, self.max_connections))] *)
Definition _initialize_pool (connect : nat -> bool) (p : t) : t * list event :=
  initialize_loop connect (seq 0 (Z.to_nat (Z.min 3 (max_connections p)))) p.

(** [__init__(db_path, max_connections=50, timeout=15)] *)
Definition init (connect : nat -> bool) (max_connections timeout : Z) : t * list event :=
  _initialize_pool connect (mk max_connections timeout [] 0).

(** [self.pool.get(block=True, timeout=self.timeout)], then the handler.
    [released] is the connection, if any, that another thread returns to
    an empty queue before the timeout expires. *)
Definition get_connection (released : option Conn) (p : t) : res Conn * t :=
  if timeout p <? 0 then (Err ValueError, p)
  else
    match pool p with
    | c :: q => (Ok c, mk (max_connections p) (timeout p) q (active_connections p))
    | [] =>
        match released with
        | Some c => if timeout p =? 0 then (Err (Exception "Database connection timeout"), p)
                    else (Ok c, p)
        | None => (Err (Exception "Database connection timeout"), p)
        end
    end.

(** [self.pool.put(conn)] blocks while the queue is full. *)
Definition return_connection (conn : Conn) (p : t) : res unit * t :=
  if full p then (Hang, p)
  else (Ok (), mk (max_connections p) (timeout p) (pool p ++ [conn]) (active_connections p)).

(** A connection waits in the queue, the timeout is a valid one, and the
    queue has room to take back the connection it hands out. *)
Definition ready (p : t) : bool :=
  (0 <=? timeout p)
  && match pool p with
     | [] => false
     | _ :: q => negb ((0 <? max_connections p) && (max_connections p <=? Z.of_nat (length q)))
     end.

End DatabaseConnectionPool.

Module DatabaseManager.

Record t : Type := mk {
  pool : DatabaseConnectionPool.t;
  (** the rows of table [candles] in the database file *)
  candles : list Row.t
}.

(** [with self.pool.get_connection_context() as conn: body]. Only the
    thread of the event loop uses the pool, and no block awaits while it
    holds a connection: nothing is released by another thread. *)
Definition with_connection {A} (body : list Row.t -> res A * list Row.t) (db : t) : res A * t :=
  match DatabaseConnectionPool.get_connection None (pool db) with
  | (Ok conn, p1) =>
      let '(r, tbl) := body (candles db) in
      match DatabaseConnectionPool.return_connection conn p1 with
      | (Ok _, p2) => (r, mk p2 tbl)
      | (Err e, p2) => (Err e, mk p2 tbl)
      | (Hang, p2) => (Hang, mk p2 tbl)
      end
  | (Err e, p1) => (Err e, mk p1 (candles db))
  | (Hang, p1) => (Hang, mk p1 (candles db))
  end.

(** [CREATE TABLE IF NOT EXISTS], [CREATE INDEX IF NOT EXISTS] *)
Definition _initialize_db (db : t) : res unit * t :=
  with_connection (fun tbl => (Ok (), tbl)) db.

(** [__init__]; [disk] is what the database file holds. *)
Definition init (connect : nat -> bool) (disk : list Row.t) : (res unit * t) * list event :=
  let '(p, ev) := DatabaseConnectionPool.init connect 50 15 in
  (_initialize_db (mk p disk), ev).

(** [INSERT OR REPLACE] of one row: the row with the same primary key, if
    there is one, is deleted and the new row inserted. *)
Definition insert_or_replace (r : Row.t) (tbl : list Row.t) : list Row.t :=
  filter (fun r' => negb (Row.has_key (Row.pair r) (Row.interval r) (Row.open_time r) r')) tbl
    ++ [r].

(** [conn.executemany(sql, df_tuples)] for the intended statement *)
Definition executemany (pair interval : string) (df_tuples : list Bar.t) (tbl : list Row.t) : list Row.t :=
  foldl (fun acc b => insert_or_replace (Row.mk pair interval b) acc) tbl df_tuples.

(** The row has the primary key of a row the frame writes. *)
Definition in_frame (pair interval : string) (df : list Bar.t) (r : Row.t) : bool :=
  existsb (fun b => Row.has_key pair interval (Bar.open_time b) r) df.

(** The statement is built by splicing [pair] and [interval] between
    quotes: it is the intended one when neither contains a quote. *)
Fixpoint quote_free (s : string) : bool :=
  match s with
  | EmptyString => true
  | String c s' => negb (Ascii.eqb c "'"%char) && quote_free s'
  end.

Definition save_candle_data (ext : Extern) (df : list Bar.t) (pair interval : string) (db : t) : res unit * t * list event :=
  match df with
  | [] => (Ok (), db, [])
  | _ :: _ =>
      if quote_free pair && quote_free interval then
        (with_connection (fun tbl => (Ok (), executemany pair interval df tbl)) db, [])
      else
        match sqlite_spliced ext pair interval df (candles db) with
        | Some tbl' => (with_connection (fun _ => (Ok (), tbl')) db, [])
        | None =>
            let r := with_connection (fun tbl => (Ok (), tbl)) db in
            (r, match r.1 with
                | Ok _ => [LogError ("Error saving candle data for " +:+ pair +:+ " (" +:+ interval +:+ ")")]
                | _ => []
                end)
        end
  end.

(** [ORDER BY open_time DESC] and [sort_values('open_time')] *)
Definition newer_first (r1 r2 : Row.t) : Prop := Row.open_time r2 <= Row.open_time r1.
Definition older_first (r1 r2 : Row.t) : Prop := Row.open_time r1 <= Row.open_time r2.

#[global] Instance newer_first_dec : RelDecision newer_first :=
  fun r1 r2 => decide (Row.open_time r2 <= Row.open_time r1).
#[global] Instance older_first_dec : RelDecision older_first :=
  fun r1 r2 => decide (Row.open_time r1 <= Row.open_time r2).

(** [LIMIT ?]: a negative limit is no limit. *)
Definition sql_limit (limit : Z) (l : list Row.t) : list Row.t :=
  if limit <? 0 then l else take (Z.to_nat limit) l.

Definition select_candles (pair : string) (timeframe : option string) (limit : Z) (tbl : list Row.t) : list Row.t :=
  match timeframe with
  | None => []
  | Some interval =>
      sql_limit limit
        (merge_sort newer_first
           (filter (fun r => String.eqb (Row.pair r) pair && String.eqb (Row.interval r) interval) tbl))
  end.

Definition get_candle_data (pair : string) (limit : Z) (timeframe : option string) (db : t) : res DataFrame.t * t :=
  with_connection
    (fun tbl =>
       (Ok (DataFrame.of_rows (merge_sort older_first (select_candles pair timeframe limit tbl))), tbl))
    db.

(** [SELECT MAX(open_time)]; a result of 0 is falsy and reads as [None]. *)
Definition get_latest_candle_time (pair : string) (db : t) : res (option Z) * t :=
  with_connection
    (fun tbl =>
       let times := map Row.open_time (filter (fun r => String.eqb (Row.pair r) pair) tbl) in
       (Ok (match times with
            | [] => None
            | t0 :: ts => let m := foldl Z.max t0 ts in if m =? 0 then None else Some m
            end), tbl))
    db.

Definition clear_cache_for_pair (pair_symbol : string) (db : t) : res Z * t :=
  with_connection
    (fun tbl =>
       (Ok (Z.of_nat (length (filter (fun r => String.eqb (Row.pair r) pair_symbol) tbl))),
        filter (fun r => negb (String.eqb (Row.pair r) pair_symbol)) tbl))
    db.

End DatabaseManager.

(** ** exchange_apis.py *)

Module BaseExchangeAPI.

(** The texts of a report's [message], by their parameters:
    ["Data is {age:.0f}s old."] keeps the age, and the limit when the
    text goes on with [" (Stale, limit is {max_age_seconds}s)"]. *)
Inductive Message : Type :=
| ValidationDisabled
| NoDataAvailable
| DataIsOld (age_us : Z) (stale_limit : option Z).

Record FreshnessReport : Type := mk {
  is_fresh : bool;
  (** absent from the dict when no age was computed *)
  data_age_seconds : option Z;
  last_timestamp : option Z;
  message : Message
}.

(** [validate_data_freshness(data, pair_symbol, max_age_seconds=None)],
    [now] being the reading of [datetime.now(timezone.utc)] in
    microseconds. The timestamps of a frame read from the store are
    timezone-naive and taken as UTC; on such a frame nothing in the [try]
    block raises, so the handler is not reached. The age is a whole number
    of microseconds, for which [total_seconds() <= max_age_seconds]
    decides as the integers do, and [int(...)] truncates towards zero. *)
Definition validate_data_freshness (cfg : Config.t) (now : Z) (data : DataFrame.t)
    (pair_symbol : string) (max_age_seconds : option Z) : FreshnessReport :=
  if negb (Config.DATA_FRESHNESS_CHECK_ENABLED cfg) then
    mk true None None ValidationDisabled
  else
    let max_age_seconds := default (Config.MAX_DATA_AGE_SECONDS cfg) max_age_seconds in
    match last (DataFrame.rows data) with
    | None => mk false None None NoDataAvailable
    | Some r =>
        let latest_timestamp := Row.open_time r * 1000 in
        let data_age := now - latest_timestamp in
        let is_fresh := data_age <=? max_age_seconds * 1000000 in
        mk is_fresh (Some (Z.quot data_age 1000000)) (Some latest_timestamp)
           (DataIsOld data_age (if is_fresh then None else Some max_age_seconds))
    end.

End BaseExchangeAPI.

Module MockExchangeAPI.

(** [interval[:-1]] and the last character, [None] on the empty string. *)
Fixpoint split_last (s : string) : option (string * ascii) :=
  match s with
  | EmptyString => None
  | String c s' =>
      match split_last s' with
      | None => Some (EmptyString, c)
      | Some (init, l) => Some (String c init, l)
      end
  end.

Definition _interval_to_seconds (ext : Extern) (interval : string) : res (option Z) :=
  match split_last interval with
  | None => Ok None
  | Some (digits, unit) =>
      let scaled (k : Z) : res (option Z) :=
        match py_int ext digits with
        | Some n => Ok (Some (n * k))
        | None => Err ValueError
        end in
      if Ascii.eqb unit "m" then scaled 60
      else if Ascii.eqb unit "h" then scaled 3600
      else if Ascii.eqb unit "d" then scaled 86400
      else Ok None
  end.

(** [np.arange(start, stop, step)] on integers, [step] not zero:
    [ceil((stop - start) / step)] values, none when that is negative. *)
Definition arange (start stop step : Z) : list Z :=
  map (fun i => start + Z.of_nat i * step)
      (seq 0 (Z.to_nat (- ((- (stop - start)) / step)))).

(** [a.cumsum()], the running sum being [acc] so far. *)
Fixpoint cumsum_from (acc : float) (l : list float) : list float :=
  match l with
  | [] => []
  | x :: l' => let acc' := PrimFloat.add acc x in acc' :: cumsum_from acc' l'
  end.

Definition cumsum (l : list float) : list float :=
  match l with
  | [] => []
  | x :: l' => x :: cumsum_from x l'
  end.

(** Python's [max(a, b)] and [min(a, b)]: the first argument unless the
    second is strictly beyond it. *)
Definition py_max (a b : float) : float := if Py.gt b a then b else a.
Definition py_min (a b : float) : float := if Py.lt b a then b else a.

(** The body of the loop that fills [data], for index [i]. *)
Definition mock_bar (env : Env) (price : list float) (i : nat) (ts : Z) : Bar.t :=
  let close_p := default 0%float (price !! i) in
  let open_p := match i with
                | O => close_p
                | S j => default 0%float (price !! j)
                end in
  let high_p := PrimFloat.add (py_max open_p close_p) (uniform env (3 * i)%nat 0%float 0.5%float) in
  let low_p := PrimFloat.sub (py_min open_p close_p) (uniform env (3 * i + 1)%nat 0%float 0.5%float) in
  let volume := uniform env (3 * i + 2)%nat 100%float 1000%float in
  Bar.mk ts open_p high_p low_p close_p volume.

Definition mock_data (env : Env) (timestamps : list Z) : list Bar.t :=
  let price :=
    map (fun c => PrimFloat.add 100%float (PrimFloat.mul c 0.1%float))
        (cumsum (map (randn env) (seq 0 (length timestamps)))) in
  imap (mock_bar env price) timestamps.

(** The part of [get_historical_data] after the cache was declined. *)
Definition generate (ext : Extern) (env : Env) (pair interval : string) (limit : Z)
    (db : DatabaseManager.t) : res DataFrame.t * DatabaseManager.t * list event :=
  match _interval_to_seconds ext interval with
  | Err e => (Err e, db, [])
  | Hang => (Hang, db, [])
  | Ok None => (Ok (DataFrame.of_rows []), db, [])
  | Ok (Some interval_seconds) =>
      let now_ms := Z.quot (time_time env) 1000 in
      let step := interval_seconds * 1000 in
      if step =? 0 then (Err ZeroDivisionError, db, [])
      else
        let end_time := now_ms - now_ms `mod` step in
        let start_time := end_time - limit * interval_seconds * 1000 in
        let timestamps := arange start_time end_time step in
        let df := mock_data env timestamps in
        match DatabaseManager.save_candle_data ext df pair interval db with
        | (Ok _, db1, ev) =>
            let '(r, db2) := DatabaseManager.get_candle_data pair limit (Some interval) db1 in
            (r, db2, ev)
        | (Err e, db1, ev) => (Err e, db1, ev)
        | (Hang, db1, ev) => (Hang, db1, ev)
        end
  end.

(** [get_historical_data(pair, interval, limit=500, force_fresh=False)] *)
Definition get_historical_data (ext : Extern) (env : Env) (cfg : Config.t)
    (pair interval : string) (limit : Z) (force_fresh : bool)
    (db : DatabaseManager.t) : res DataFrame.t * DatabaseManager.t * list event :=
  if force_fresh then generate ext env pair interval limit db
  else
    match DatabaseManager.get_candle_data pair limit (Some interval) db with
    | (Ok data, db1) =>
        if negb (DataFrame.empty data)
           && BaseExchangeAPI.is_fresh
                (BaseExchangeAPI.validate_data_freshness cfg (utcnow env) data pair None)
        then (Ok data, db1, [])
        else generate ext env pair interval limit db1
    | (Err e, db1) => (Err e, db1, [])
    | (Hang, db1) => (Hang, db1, [])
    end.

End MockExchangeAPI.

(** ** bot.py: strategies *)

Inductive Direction : Type := long | short.

Module EMACCIStrategy.

Record t : Type := mk {
  ema50_period : Z;
  ema200_period : Z;
  cci1_length : Z;
  cci_long_level : float;
  cci_short_level : float
}.

(** [__init__(config)] *)
Definition init (config : Config.StrategyConf) : t :=
  {| ema50_period := default 50 (Config.conf_ema50_period config);
     ema200_period := default 200 (Config.conf_ema200_period config);
     cci1_length := default 100 (Config.conf_cci1_length config);
     cci_long_level := default 100%float (Config.conf_cci_long_level config);
     cci_short_level := default (-100)%float (Config.conf_cci_short_level config) |}.

(** A TA-Lib call and the assignment of its result to a column. *)
Definition column (df : DataFrame.t) (values : option (list float)) : res (list float) :=
  match values with
  | Some v => DataFrame.check_length df v
  | None => Err (Exception "talib")
  end.

Definition get_indicators (ext : Extern) (s : t) (df : DataFrame.t) : res DataFrame.t :=
  match talib ext with
  | None => Ok df
  | Some ta =>
      if DataFrame.empty df then Ok df
      else if DataFrame.len df <? ema200_period s then Ok df
      else
        let close := map Row.close (DataFrame.rows df) in
        let high := map Row.high (DataFrame.rows df) in
        let low := map Row.low (DataFrame.rows df) in
        e50 ← column df (EMA ta close (ema50_period s));
        e200 ← column df (EMA ta close (ema200_period s));
        c1 ← column df (CCI ta high low close (cci1_length s));
        Ok (DataFrame.mk (DataFrame.rows df) (Some e50) (Some e200) (Some c1))
  end.

(** [pd.isna(latest_row.get('ema200'))] *)
Definition isna (v : option float) : bool :=
  match v with
  | None => true
  | Some x => PrimFloat.is_nan x
  end.

(** [latest_row['cci1']] *)
Definition cci1_of (latest_row : DataFrame.LatestRow) : res float :=
  match DataFrame.latest_cci1 latest_row with
  | Some x => Ok x
  | None => Err (KeyError "cci1")
  end.

(** [check_signals(latest_row, active_trades)]: the value under
    ['signal_type'] of the dict it returns. *)
Definition check_signals {Trades : Type} (s : t) (latest_row : DataFrame.LatestRow)
    (active_trades : Trades) : res (option Direction) :=
  if isna (DataFrame.latest_ema200 latest_row) then Ok None
  else
    let close := DataFrame.latest_close latest_row in
    let ema200 := default nan (DataFrame.latest_ema200 latest_row) in
    if Py.gt close ema200 then
      c ← cci1_of latest_row;
      if Py.gt c (cci_long_level s) then Ok (Some long)
      else if Py.lt close ema200 then
        c' ← cci1_of latest_row;
        Ok (if Py.lt c' (cci_short_level s) then Some short else None)
      else Ok None
    else if Py.lt close ema200 then
      c ← cci1_of latest_row;
      Ok (if Py.lt c (cci_short_level s) then Some short else None)
    else Ok None.

(** The longest window of rows an indicator of the strategy looks back
    over. *)
Definition longest_lookback (s : t) : Z :=
  Z.max (ema50_period s) (Z.max (ema200_period s) (cci1_length s)).

End EMACCIStrategy.

Module TRFStrategy.
Definition get_indicators (df : DataFrame.t) : res DataFrame.t := Ok df.
Definition check_signals {Trades : Type} (latest_row : DataFrame.LatestRow)
    (active_trades : Trades) : res (option Direction) := Ok None.
End TRFStrategy.

Module Strategy.

Inductive t : Type :=
| EMACCI (s : EMACCIStrategy.t)
| TRF.

Definition get_indicators (ext : Extern) (s : t) (df : DataFrame.t) : res DataFrame.t :=
  match s with
  | EMACCI s' => EMACCIStrategy.get_indicators ext s' df
  | TRF => TRFStrategy.get_indicators df
  end.

Definition check_signals {Trades : Type} (s : t) (latest_row : DataFrame.LatestRow)
    (active_trades : Trades) : res (option Direction) :=
  match s with
  | EMACCI s' => EMACCIStrategy.check_signals s' latest_row active_trades
  | TRF => TRFStrategy.check_signals latest_row active_trades
  end.

(** [get_strategy(strategy_name, config)] *)
Definition get_strategy (strategy_name : string) (config : Config.StrategyConf) : option t :=
  if String.eqb strategy_name "main_strategy" then Some (EMACCI (EMACCIStrategy.init config))
  else if String.eqb strategy_name "trf_strategy" then Some TRF
  else None.

End Strategy.

(** ** bot.py: the trading engine, the kill switch and the scheduler *)

(** The dict [check_signals] fills and [execute_trades] reads; [{}] is
    [None] of [option Signals]. ['exchange'] is added by [process_pair]. *)
Module Signals.
Record t : Type := mk {
  signal_type : option Direction;
  pair : string;
  price : float;
  trigger_strategy : string;
  exchange : option string
}.

Definition set_exchange (e : string) (s : t) : t :=
  mk (signal_type s) (pair s) (price s) (trigger_strategy s) (Some e).
End Signals.

Module ActiveTrade.
Record t : Type := mk {
  entry_price : float;
  direction : option Direction
}.
End ActiveTrade.

Module TradingEngine.

Record t : Type := mk {
  (** in the order of [Config.STRATEGIES] *)
  strategies : list (string * Strategy.t);
  (** exchange, then strategy, then instrument *)
  active_trades : gmap string (gmap string (gmap string ActiveTrade.t));
  balance : float
}.

(** The comprehension that builds [self.strategies]. *)
Fixpoint load_strategies (active : list string) (confs : list (string * Config.StrategyConf))
    : list (string * Strategy.t) :=
  match confs with
  | [] => []
  | (name, conf) :: confs' =>
      match Strategy.get_strategy name conf with
      | Some s =>
          if bool_decide (name ∈ active) then (name, s) :: load_strategies active confs'
          else load_strategies active confs'
      | None => load_strategies active confs'
      end
  end.

(** [__init__]; [api_clients] are the names of the exchanges that have a
    client. *)
Definition init (cfg : Config.t) (api_clients : list string) : t :=
  let strategies := load_strategies (Config.ACTIVE_STRATEGIES cfg) (Config.STRATEGIES cfg) in
  let per_strategy : gmap string (gmap string ActiveTrade.t) :=
    list_to_map (map (fun ns => (ns.1, ∅)) strategies) in
  {| strategies := strategies;
     active_trades := list_to_map (map (fun e => (e, per_strategy)) api_clients);
     balance := 10000%float |}.

Fixpoint indicators_loop (ext : Extern) (df : DataFrame.t) (strats : list (string * Strategy.t))
    : res (list (string * DataFrame.t)) :=
  match strats with
  | [] => Ok []
  | (name, s) :: strats' =>
      d ← Strategy.get_indicators ext s df;
      ds ← indicators_loop ext df strats';
      Ok ((name, d) :: ds)
  end.

(** [process_data(data, pair_info)] *)
Definition process_data (ext : Extern) (eng : t) (data : DataFrame.t) (symbol : string)
    : res (option (list (string * DataFrame.t))) :=
  if DataFrame.empty data then Ok None
  else
    let df := DataFrame.set_pair symbol data in
    strategy_dfs ← indicators_loop ext df (strategies eng);
    Ok (Some strategy_dfs).

(** [self.active_trades.get(Config.SELECTED_EXCHANGE, {}).get(strat_name, {})] *)
Definition open_trades_of (cfg : Config.t) (eng : t) (strat_name : string) : gmap string ActiveTrade.t :=
  default ∅ (default ∅ (active_trades eng !! Config.SELECTED_EXCHANGE cfg) !! strat_name).

(** [check_signals(strategy_dfs)]: the first strategy with a signal wins. *)
Fixpoint check_signals (cfg : Config.t) (eng : t) (strategy_dfs : list (string * DataFrame.t))
    : res (option Signals.t) :=
  match strategy_dfs with
  | [] => Ok None
  | (strat_name, df) :: rest =>
      match DataFrame.iloc_last df with
      | None => check_signals cfg eng rest
      | Some latest_row =>
          match Py.assoc (strategies eng) strat_name with
          | None => Err (KeyError strat_name)
          | Some strat =>
              strat_signals ← Strategy.check_signals strat latest_row (open_trades_of cfg eng strat_name);
              match strat_signals with
              | Some d =>
                  Ok (Some (Signals.mk (Some d) (DataFrame.latest_pair latest_row)
                              (DataFrame.latest_close latest_row) strat_name None))
              | None => check_signals cfg eng rest
              end
          end
      end
  end.

(** [execute_trades(signals)]. The text logged is abridged: the source
    also prints the direction and the price. *)
Definition execute_trades (cfg : Config.t) (signals : Signals.t) (eng : t) : res bool * t * list event :=
  match Config.AUTO_TRADING cfg with
  | None => (Err (AttributeError "AUTO_TRADING"), eng, [])
  | Some false => (Ok false, eng, [])
  | Some true =>
      match Signals.exchange signals with
      | None => (Err (KeyError "exchange"), eng, [])
      | Some exchange =>
          let pair := Signals.pair signals in
          let strat_name := Signals.trigger_strategy signals in
          match active_trades eng !! exchange with
          | None => (Err (KeyError exchange), eng, [])
          | Some by_strategy =>
              match by_strategy !! strat_name with
              | None => (Err (KeyError strat_name), eng, [])
              | Some trades =>
                  match trades !! pair with
                  | None =>
                      let trade := ActiveTrade.mk (Signals.price signals) (Signals.signal_type signals) in
                      (Ok true,
                       mk (strategies eng)
                          (<[exchange := <[strat_name := <[pair := trade]> trades]> by_strategy]>
                             (active_trades eng))
                          (balance eng),
                       [LogInfo ("Executing trade for " +:+ pair +:+ " on " +:+ exchange)])
                  | Some _ => (Ok false, eng, [])
                  end
              end
          end
      end
  end.

(** The open trade, if any, under a key. *)
Definition trade_at (eng : t) (exchange strat_name pair : string) : option ActiveTrade.t :=
  match active_trades eng !! exchange with
  | None => None
  | Some by_strategy =>
      match by_strategy !! strat_name with
      | None => None
      | Some trades => trades !! pair
      end
  end.

(** Every open trade with its key. *)
Definition open_trades (eng : t) : list (string * string * string * ActiveTrade.t) :=
  '(exchange, by_strategy) ← map_to_list (active_trades eng);
  '(strat_name, trades) ← map_to_list by_strategy;
  '(symbol, trade) ← map_to_list trades;
  [(exchange, strat_name, symbol, trade)].

(** The open trades under one key. *)
Definition trades_under (eng : t) (exchange strat_name symbol : string)
    : list (string * string * string * ActiveTrade.t) :=
  filter (fun x => x.1 = (exchange, strat_name, symbol)) (open_trades eng).

(** The engine keeps a book of trades for this exchange and strategy, as
    [__init__] sets one up for every client and every loaded strategy. *)
Definition has_book (eng : t) (exchange strat_name : string) : bool :=
  match active_trades eng !! exchange with
  | None => false
  | Some by_strategy => bool_decide (is_Some (by_strategy !! strat_name))
  end.

End TradingEngine.

Module EmergencyKillSwitch.

Record t : Type := mk {
  (** [send_message] of the notification manager, when there is one *)
  notification_manager : option (string -> res unit);
  is_active : bool;
  trading_disabled : bool
}.

Definition init (notification_manager : option (string -> res unit)) : t :=
  mk notification_manager false false.

(** [authenticate_password(password)] *)
Definition authenticate_password (cfg : Config.t) (password : string) : bool :=
  String.eqb password (Config.SETTINGS_PASSWORD cfg).

(** The three nested loops: every entry of every innermost dict is
    deleted. *)
Definition close_all (trades : gmap string (gmap string (gmap string ActiveTrade.t)))
    : gmap string (gmap string (gmap string ActiveTrade.t)) :=
  (fun by_strategy : gmap string (gmap string ActiveTrade.t) =>
     (fun _ : gmap string ActiveTrade.t => (∅ : gmap string ActiveTrade.t)) <$> by_strategy)
  <$> trades.

(** [execute_emergency_exit()]; [Ok true] is [{'success': True}]. The
    closures are logged in the order of the traversal. *)
Definition execute_emergency_exit (ks : t) (eng : TradingEngine.t)
    : res bool * t * TradingEngine.t * list event :=
  let ks1 := mk (notification_manager ks) (is_active ks) true in
  let ev :=
    LogInfo "EMERGENCY KILL SWITCH ACTIVATED"
    :: map (fun k => LogInfo ("Closing position for " +:+ k.1.2 +:+ " via emergency exit."))
           (TradingEngine.open_trades eng) in
  let eng1 := TradingEngine.mk (TradingEngine.strategies eng)
                (close_all (TradingEngine.active_trades eng)) (TradingEngine.balance eng) in
  match notification_manager ks with
  | None => (Ok true, ks1, eng1, ev)
  | Some send_message =>
      match send_message "EMERGENCY EXIT EXECUTED! All positions closed. Trading disabled." with
      | Ok _ => (Ok true, ks1, eng1, ev)
      | Err e => (Err e, ks1, eng1, ev)
      | Hang => (Hang, ks1, eng1, ev)
      end
  end.

End EmergencyKillSwitch.

Module DisplayManager.

Record t : Type := mk {
  pair_data : gmap string DataFrame.t;
  last_update : Z;
  (** each line with the time it was added *)
  log_messages : list (Z * string)
}.

Definition add_log (now : Z) (message : string) (d : t) : t :=
  mk (pair_data d) (last_update d) (take 10 ((now, message) :: log_messages d)).

(** [update_pair_data(pair_symbol, strategy_dfs)] *)
Definition update_pair_data (cfg : Config.t) (now : Z) (pair_symbol : string)
    (strategy_dfs : list (string * DataFrame.t)) (d : t) : t :=
  match Py.assoc strategy_dfs (Config.DISPLAY_STRATEGY cfg) with
  | Some df => mk (<[pair_symbol := df]> (pair_data d)) now (log_messages d)
  | None => d
  end.

End DisplayManager.

Module CryptoBot.

Record t : Type := mk {
  health_monitor : HealthMonitor.t;
  display : DisplayManager.t;
  db_manager : DatabaseManager.t;
  (** the exchanges that have a client; every client is a
      [MockExchangeAPI] over [db_manager] and [Config] *)
  api_clients : list string;
  (** the symbols of [self.pairs] *)
  pairs : list string;
  engine : TradingEngine.t;
  running : bool
}.

Definition set_db_manager (db : DatabaseManager.t) (b : t) : t :=
  mk (health_monitor b) (display b) db (api_clients b) (pairs b) (engine b) (running b).
Definition set_display (d : DisplayManager.t) (b : t) : t :=
  mk (health_monitor b) d (db_manager b) (api_clients b) (pairs b) (engine b) (running b).
Definition set_engine (e : TradingEngine.t) (b : t) : t :=
  mk (health_monitor b) (display b) (db_manager b) (api_clients b) (pairs b) e (running b).

(** The [except Exception] clause of [process_pair]. *)
Definition handler (symbol : string) (e : exn) : list event :=
  [LogError ("Error processing " +:+ symbol)].

(** How a call of [process_pair] went: it returned from the [try] block,
    it returned from the handler after the block raised [e], or it never
    returned. *)
Inductive ending : Type :=
| Completed
| Caught (e : exn)
| Blocked.

(** The end of the [try] block: [if signals: ... execute_trades]. *)
Definition dispatch (cfg : Config.t) (exchange symbol : string)
    (signals : option Signals.t) (b : t) : ending * t * list event :=
  match signals with
  | None => (Completed, b, [])
  | Some s =>
      match TradingEngine.execute_trades cfg (Signals.set_exchange exchange s) (engine b) with
      | (Ok _, eng, ev) => (Completed, set_engine eng b, ev)
      | (Err e, eng, ev) => (Caught e, set_engine eng b, ev ++ handler symbol e)
      | (Hang, eng, ev) => (Blocked, set_engine eng b, ev)
      end
  end.

(** [process_pair(exchange, api_client, pair_info)] *)
Definition process_pair (ext : Extern) (env : Env) (cfg : Config.t)
    (exchange symbol : string) (b : t) : ending * t * list event :=
  match MockExchangeAPI.get_historical_data ext env cfg symbol
          (Config.CURRENT_TIMEFRAME cfg) 500 false (db_manager b) with
  | (Hang, db, ev) => (Blocked, set_db_manager db b, ev)
  | (Err e, db, ev) => (Caught e, set_db_manager db b, ev ++ handler symbol e)
  | (Ok data, db, ev) =>
      let b1 := set_db_manager db b in
      if DataFrame.empty data || (DataFrame.len data <? Config.MIN_CANDLES_FOR_TRADING cfg)
      then (Completed, b1, ev)
      else
        match TradingEngine.process_data ext (engine b1) data symbol with
        | Hang => (Blocked, b1, ev)
        | Err e => (Caught e, b1, ev ++ handler symbol e)
        | Ok None | Ok (Some []) => (Completed, b1, ev)
        | Ok (Some strategy_dfs) =>
            let b2 := set_display
                        (DisplayManager.update_pair_data cfg (utcnow env) symbol strategy_dfs (display b1))
                        b1 in
            match TradingEngine.check_signals cfg (engine b2) strategy_dfs with
            | Hang => (Blocked, b2, ev)
            | Err e => (Caught e, b2, ev ++ handler symbol e)
            | Ok signals =>
                let '(r, b3, ev') := dispatch cfg exchange symbol signals b2 in
                (r, b3, ev ++ ev')
            end
        end
  end.

(** [active_pairs] of [run]: the instruments one tick fans out to. *)
Definition active_pairs (b : t) : list string :=
  filter (fun p => negb (HealthMonitor.is_pair_blacklisted p (health_monitor b))) (pairs b).

(** [asyncio.gather] over the tasks of one tick. No task suspends, so
    they run one after the other, in the order of [active_pairs];
    [envs i] is what the [i]-th task reads. The symbols a task was
    started for are returned with the state. *)
Fixpoint gather (ext : Extern) (envs : nat -> Env) (cfg : Config.t) (exchange : string)
    (i : nat) (todo : list string) (b : t) : list (string * ending) * t * list event :=
  match todo with
  | [] => ([], b, [])
  | symbol :: todo' =>
      match process_pair ext (envs i) cfg exchange symbol b with
      | (Blocked, b1, ev) => ([(symbol, Blocked)], b1, ev)
      | (r, b1, ev) =>
          let '(done, b2, ev') := gather ext envs cfg exchange (S i) todo' b1 in
          ((symbol, r) :: done, b2, ev ++ ev')
      end
  end.

(** One turn of the loop of [run], up to [asyncio.sleep]. *)
Definition run_tick (ext : Extern) (envs : nat -> Env) (cfg : Config.t) (b : t)
    : list (string * ending) * t * list event :=
  let exchange := Config.SELECTED_EXCHANGE cfg in
  if bool_decide (exchange ∈ api_clients b) then
    gather ext envs cfg exchange 0 (active_pairs b) b
  else ([], b, [LogError ("Selected exchange '" +:+ exchange +:+ "' not available.")]).

(** [n] turns of the loop; [envs k] is the environment of turn [k]. The
    tasks of each turn are returned with how they ended. *)
Fixpoint run_ticks (ext : Extern) (envs : nat -> nat -> Env) (cfg : Config.t) (n k : nat) (b : t)
    : list (list (string * ending)) * t * list event :=
  match n with
  | O => ([], b, [])
  | S n' =>
      let '(tasks, b1, ev) := run_tick ext (envs k) cfg b in
      let '(later, b2, ev') := run_ticks ext envs cfg n' (S k) b1 in
      (tasks :: later, b2, ev ++ ev')
  end.

End CryptoBot.

(** ** Environments for the examples *)

Module Examples.

(** [int(s)] on a string of decimal digits; it stands for Python's parser
    on the strings the examples use. *)
Definition digit (c : ascii) : option Z :=
  let n := Z.of_nat (nat_of_ascii c) in
  if (48 <=? n) && (n <=? 57) then Some (n - 48) else None.

Fixpoint parse_digits (acc : Z) (s : string) : option Z :=
  match s with
  | EmptyString => Some acc
  | String c s' =>
      match digit c with
      | Some d => parse_digits (10 * acc + d) s'
      | None => None
      end
  end.

Definition parse_decimal (s : string) : option Z :=
  match s with
  | EmptyString => None
  | _ => parse_digits 0 s
  end.

(** TA-Lib is not installed. *)
Definition ext_no_talib : Extern :=
  {| talib := None; py_int := parse_decimal;
     sqlite_spliced := fun _ _ _ _ => None |}.

(** A TA-Lib whose indicators are constant arrays of the right length. *)
Definition flat_talib (ema cci : float) : Talib :=
  {| EMA := fun close _ => Some (map (fun _ => ema) close);
     CCI := fun _ _ close _ => Some (map (fun _ => cci) close) |}.

Definition ext_flat (ema cci : float) : Extern :=
  {| talib := Some (flat_talib ema cci); py_int := parse_decimal;
     sqlite_spliced := fun _ _ _ _ => None |}.

(** A still market read at [now] microseconds. *)
Definition env_at (now : Z) : Env :=
  {| utcnow := now; time_time := now;
     randn := fun _ => 0%float; uniform := fun _ lo _ => lo |}.

Definition bar_at (ot : Z) (px : float) : Bar.t := Bar.mk ot px px px px 1%float.

(** [n] one-minute bars of price [px] that end at [ot] milliseconds. *)
Definition flat_rows (pair interval : string) (px : float) (ot : Z) (n : nat) : list Row.t :=
  map (fun i => Row.mk pair interval (bar_at (ot - 60000 * Z.of_nat (n - 1 - i)) px)) (seq 0 n).

(** The monitor after six failures of one instrument. *)
Definition hm6 : HealthMonitor.t :=
  Nat.iter 6 (fun hm => (HealthMonitor.record_api_failure "B-BTC_USDT" hm).1) (HealthMonitor.init 0).

(** An engine over one exchange, as [TradingEngine.__init__] builds it
    from the shipped configuration. *)
Definition engine0 : TradingEngine.t := TradingEngine.init Config.shipped ["coindcx"].

(** A pool of at most three connections, all made, and the same pool once
    three callers hold its connections. *)
Definition pool3 : DatabaseConnectionPool.t := (DatabaseConnectionPool.init (fun _ => true) 3 15).1.
Definition pool3_drained : DatabaseConnectionPool.t :=
  Nat.iter 3 (fun p => (DatabaseConnectionPool.get_connection None p).2) pool3.

(** The shipped configuration with the freshness check switched off. *)
Definition cfg_no_check : Config.t := Config.set_DATA_FRESHNESS_CHECK_ENABLED false Config.shipped.

(** 500 five-minute candles of instrument X that end at
    [T = 1700000000000] milliseconds. *)
Definition frame_X : DataFrame.t :=
  DataFrame.of_rows
    (map (fun i => Row.mk "X" "5m" (bar_at (1700000000000 - 300000 * Z.of_nat (499 - i)) 100%float))
         (seq 0 500)).

(** A manager whose file holds one candle of the year 2001. *)
Definition db_old : DatabaseManager.t :=
  (DatabaseManager.init (fun _ => true) [Row.mk "X" "5m" (bar_at 1000000000000 100%float)]).1.2.

(** A strategy whose oscillator looks back over 300 rows, further than its
    200-row moving average, and a series of 250 one-minute candles. *)
Definition long_cci : EMACCIStrategy.t :=
  EMACCIStrategy.init
    {| Config.conf_ema50_period := Some 50; Config.conf_ema200_period := Some 200;
       Config.conf_cci1_length := Some 300;
       Config.conf_cci_long_level := Some 100%float;
       Config.conf_cci_short_level := Some (-100)%float |}.

Definition frame_250 : DataFrame.t :=
  DataFrame.of_rows (flat_rows "B-BTC_USDT" "1m" 100%float 1700000000000 250).

(** The shipped configuration once auto-trading has been switched on. *)
Definition cfg_on : Config.t := Config.set_AUTO_TRADING (Some true) Config.shipped.

Definition signal_for (d : Direction) (symbol strat : string) : Signals.t :=
  Signals.mk (Some d) symbol 100%float strat (Some "coindcx").

(** The engine after four signals were executed: two instruments under
    each of the two strategies. *)
Definition engine_open : TradingEngine.t :=
  foldl (fun eng s => (TradingEngine.execute_trades cfg_on s eng).1.2) engine0
    [signal_for long "B-BTC_USDT" "main_strategy"; signal_for short "B-ETH_USDT" "main_strategy";
     signal_for long "B-BTC_USDT" "trf_strategy"; signal_for short "B-ETH_USDT" "trf_strategy"].

(** A database manager over an empty file, every connection made. *)
Definition db0 : DatabaseManager.t := (DatabaseManager.init (fun _ => true) []).1.2.

Definition bot0 : CryptoBot.t :=
  {| CryptoBot.health_monitor := HealthMonitor.init 0;
     CryptoBot.display := DisplayManager.mk ∅ 0 [];
     CryptoBot.db_manager := db0;
     CryptoBot.api_clients := ["coindcx"];
     CryptoBot.pairs := ["B-BTC_USDT"; "B-ETH_USDT"];
     CryptoBot.engine := engine0;
     CryptoBot.running := true |}.

(** The bot once its monitor has counted six failures of one instrument. *)
Definition bot6 : CryptoBot.t :=
  CryptoBot.mk hm6 (CryptoBot.display bot0) (CryptoBot.db_manager bot0) (CryptoBot.api_clients bot0)
    (CryptoBot.pairs bot0) (CryptoBot.engine bot0) (CryptoBot.running bot0).

End Examples.

(** ** The calls a program can make on its health monitor *)

Module MonitorStep.

(** One call of a method of [HealthMonitor]; [check_blacklist],
    [check_process_health] and [get_health_status] change nothing. *)
Inductive step : HealthMonitor.t -> HealthMonitor.t -> Prop :=
| step_set_bot hm : step hm (HealthMonitor.set_bot hm)
| step_record_api_failure pair hm : step hm (HealthMonitor.record_api_failure pair hm).1
| step_record_db_failure hm : step hm (HealthMonitor.record_db_failure hm)
| step_record_successful_cycle now hm : step hm (HealthMonitor.record_successful_cycle now hm)
| step_blacklist_pair pair hm : step hm (HealthMonitor.blacklist_pair pair hm).1
| step_check_blacklist hm : step hm (HealthMonitor.check_blacklist hm).

(** The monitor after [n] failures of one instrument were recorded. *)
Definition after_failures (pair : string) (n : nat) (hm : HealthMonitor.t) : HealthMonitor.t :=
  Nat.iter n (fun hm => (HealthMonitor.record_api_failure pair hm).1) hm.

End MonitorStep.

(** ** The primary key of table [candles] *)

Module CandleKey.

Definition key (r : Row.t) : string * string * Z :=
  (Row.pair r, Row.interval r, Row.open_time r).

(** No two rows of the table have the same primary key. *)
Definition unique (tbl : list Row.t) : Prop := NoDup (key <$> tbl).

(** The row belongs to the series of this pair and interval. *)
Definition of_series (pair interval : string) (r : Row.t) : bool :=
  String.eqb (Row.pair r) pair && String.eqb (Row.interval r) interval.

End CandleKey.

(** ** bot.py: the pairs the bot trades *)

Module TradingPairs.

(** [p.replace('/', '_')] *)
Fixpoint replace_slash (p : string) : string :=
  match p with
  | EmptyString => EmptyString
  | String c p' => String (if Ascii.eqb c "/" then "_"%char else c) (replace_slash p')
  end.

(** [f"B-{p.replace('/', '_')}"] *)
Definition manual_symbol (p : string) : string := "B-" +:+ replace_slash p.

(** The order of [sorted] on [str]: by code point, which on the bytes of
    UTF-8 text is the lexicographic order of the bytes. *)
Definition string_le (s1 s2 : string) : Prop := String.leb s1 s2 = true.

#[global] Instance string_le_dec : RelDecision string_le :=
  fun s1 s2 => decide (String.leb s1 s2 = true).

(** [update_trading_pairs()], as the symbols of [self.pairs], from
    [Config.DEFAULT_TRADING_PAIRS] and [Config.MANUAL_TRADING_PAIRS].
    The set is listed in the order [elements] has; [sorted] follows. *)
Definition update_trading_pairs (defaults manual : list string) : list string :=
  merge_sort string_le
    (elements (list_to_set defaults ∪ list_to_set (manual_symbol <$> manual) : gset string)).

End TradingPairs.

(** ** bot.py: the construction of the bot *)

Module Startup.

(** [CryptoBot.__init__()], [load_credentials] having returned with the
    exchanges [credentials] (the keys it stored in
    [Config.EXCHANGE_CREDENTIALS], in the order of the file).
    [active_exchanges], [defaults] and [manual] are
    [Config.ACTIVE_EXCHANGES], [Config.DEFAULT_TRADING_PAIRS] and
    [Config.MANUAL_TRADING_PAIRS], which only [__init__] reads;
    [connect] and [disk] are as for [DatabaseManager.init]. The Dash
    application the display sets up lies outside the embedding. *)
Definition init (env : Env) (cfg : Config.t) (connect : nat -> bool) (disk : list Row.t)
    (credentials active_exchanges defaults manual : list string)
    : res CryptoBot.t * list event :=
  let health_monitor := HealthMonitor.init (time_time env) in
  let display := DisplayManager.mk ∅ (utcnow env) [] in
  match DatabaseManager.init connect disk with
  | (Ok _, db_manager, ev) =>
      let api_clients := filter (fun name => name ∈ active_exchanges) credentials in
      let ev' :=
        ev ++ map (fun name => LogInfo ("Creating MOCK API client for " +:+ name)) api_clients in
      match api_clients with
      | [] => (Err ValueError, ev')
      | _ :: _ =>
          (Ok (CryptoBot.mk health_monitor display db_manager api_clients
                 (TradingPairs.update_trading_pairs defaults manual)
                 (TradingEngine.init cfg api_clients) true),
           ev')
      end
  | (Err e, _, ev) => (Err e, ev)
  | (Hang, _, ev) => (Hang, ev)
  end.

End Startup.

(** * Properties *)

(** ** The health monitor and the fan-out of a tick *)

Section HealthMonitorFacts.

Import HealthMonitor.

Lemma blacklist_pair_api_failures pair hm :
  api_failures (blacklist_pair pair hm).1 = api_failures hm.
Proof. unfold blacklist_pair. by case_decide. Qed.

Lemma blacklist_pair_keeps pair p hm :
  p ∈ pair_blacklist hm -> p ∈ pair_blacklist (blacklist_pair pair hm).1.
Proof. unfold blacklist_pair. case_decide; simpl; set_solver. Qed.

Lemma blacklist_pair_adds pair hm : pair ∈ pair_blacklist (blacklist_pair pair hm).1.
Proof. unfold blacklist_pair. case_decide; simpl; set_solver. Qed.

Lemma record_api_failure_counted_out pair hm :
  counted_out hm -> counted_out (record_api_failure pair hm).1.
Proof.
  intros Hinv p. unfold record_api_failure, failure_count.
  set (n := default 0 (api_failures hm !! pair) + 1).
  destruct (decide (p = pair)) as [->|Hne].
  - destruct (5 <? n) eqn:Hn.
    + intros _. apply blacklist_pair_adds.
    + simpl. rewrite lookup_insert_eq. simpl. apply Z.ltb_ge in Hn. lia.
  - intros Hp.
    assert (p ∈ pair_blacklist hm) as Hin.
    { apply Hinv. unfold failure_count.
      destruct (5 <? n); [rewrite blacklist_pair_api_failures in Hp|];
        simpl in Hp; by rewrite lookup_insert_ne in Hp. }
    destruct (5 <? n); [by apply blacklist_pair_keeps | done].
Qed.

Lemma reachable_counted_out hm : reachable hm -> counted_out hm.
Proof.
  induction 1 as [now|hm _ IH|pair hm _ IH|hm _ IH|now hm _ IH|pair hm _ IH].
  - intros p. unfold failure_count. simpl. rewrite lookup_empty. simpl. lia.
  - exact IH.
  - by apply record_api_failure_counted_out.
  - exact IH.
  - exact IH.
  - intros p Hp. apply blacklist_pair_keeps, IH.
    unfold failure_count in *. by rewrite blacklist_pair_api_failures in Hp.
Qed.

End HealthMonitorFacts.

Section FanOut.

Import CryptoBot.

Context (ext : Extern) (cfg : Config.t).

Lemma active_pairs_not_blacklisted b p :
  p ∈ active_pairs b -> HealthMonitor.is_pair_blacklisted p (health_monitor b) = false.
Proof.
  unfold active_pairs. rewrite list_elem_of_filter. intros [Hp _].
  by destruct (HealthMonitor.is_pair_blacklisted p (health_monitor b)).
Qed.

(** The tasks [gather] starts are for symbols of the list it is given. *)
Lemma gather_started envs exchange todo : forall i b p,
  p ∈ (gather ext envs cfg exchange i todo b).1.1.*1 -> p ∈ todo.
Proof.
  induction todo as [|symbol todo IH]; intros i b p; simpl.
  - by rewrite elem_of_nil.
  - destruct (process_pair ext (envs i) cfg exchange symbol b) as [[r b1] ev].
    specialize (IH (S i) b1 p).
    destruct (gather ext envs cfg exchange (S i) todo b1) as [[done b2] ev'].
    destruct r; simpl in *; rewrite ?elem_of_cons, ?elem_of_nil; intuition.
Qed.

Lemma run_tick_started envs b p :
  p ∈ (run_tick ext envs cfg b).1.1.*1 -> p ∈ active_pairs b.
Proof.
  unfold run_tick. case_bool_decide; simpl.
  - apply gather_started.
  - by rewrite elem_of_nil.
Qed.

End FanOut.

(** The fan-out leaves out every blacklisted instrument, however it came
    to be blacklisted. *)
Lemma blacklisted_never_started ext envs cfg b p :
  HealthMonitor.is_pair_blacklisted p (CryptoBot.health_monitor b) = true ->
  (p ∉ CryptoBot.active_pairs b) /\ (p ∉ (CryptoBot.run_tick ext envs cfg b).1.1.*1).
Proof.
  intros Hbl.
  assert (p ∉ CryptoBot.active_pairs b) as Hout.
  { intros Hin. apply active_pairs_not_blacklisted in Hin. congruence. }
  split; [exact Hout|]. intros Hin. by apply run_tick_started in Hin.
Qed.

(** C4. In every monitor the program can reach, an instrument with more
    than five recorded failures is reported by [is_pair_blacklisted]; and a
    tick of the scheduler starts no task for a blacklisted instrument: it
    is neither among [active_pairs] nor among the tasks [run_tick] ran,
    whatever the bot. *)
Theorem blacklisted_above_five_and_excluded (hm : HealthMonitor.t) (pair : string) :
  HealthMonitor.reachable hm ->
  5 < HealthMonitor.failure_count pair hm ->
  HealthMonitor.is_pair_blacklisted pair hm = true
  /\ forall ext envs cfg b p,
       HealthMonitor.is_pair_blacklisted p (CryptoBot.health_monitor b) = true ->
       (p ∉ CryptoBot.active_pairs b)
       /\ (p ∉ (CryptoBot.run_tick ext envs cfg b).1.1.*1).
Proof.
  intros Hreach Hcount. split.
  - unfold HealthMonitor.is_pair_blacklisted. apply bool_decide_eq_true.
    by apply reachable_counted_out.
  - intros ext envs cfg b p. apply blacklisted_never_started.
Qed.

Lemma hm6_reachable : HealthMonitor.reachable Examples.hm6.
Proof.
  unfold Examples.hm6. generalize 6%nat. intros n.
  induction n as [|n IH]; simpl.
  - apply HealthMonitor.reach_init.
  - by apply HealthMonitor.reach_api_failure.
Qed.

Lemma blacklisted_above_five_witness :
  HealthMonitor.reachable Examples.hm6
  /\ 5 < HealthMonitor.failure_count "B-BTC_USDT" Examples.hm6
  /\ HealthMonitor.is_pair_blacklisted "B-BTC_USDT" Examples.hm6 = true
  /\ CryptoBot.active_pairs Examples.bot6 = ["B-ETH_USDT"]
  /\ ("B-BTC_USDT" ∉ (CryptoBot.run_tick Examples.ext_no_talib
                         (fun _ => Examples.env_at 1700000000000000)
                         Config.shipped Examples.bot6).1.1.*1).
Proof.
  split; [exact hm6_reachable|].
  split; [vm_compute; reflexivity|].
  destruct (blacklisted_above_five_and_excluded Examples.hm6 "B-BTC_USDT" hm6_reachable)
    as [Hbl Hout]; [vm_compute; reflexivity|].
  split; [exact Hbl|]. split; [vm_compute; reflexivity|].
  apply (Hout Examples.ext_no_talib (fun _ => Examples.env_at 1700000000000000)
           Config.shipped Examples.bot6 "B-BTC_USDT").
  exact Hbl.
Defined.

(** ** What a tick does to the health monitor *)

Section TickAndMonitor.

Import CryptoBot.

Context (ext : Extern) (cfg : Config.t).

Lemma quiet_app ev1 ev2 : quiet ev1 -> quiet ev2 -> quiet (ev1 ++ ev2).
Proof. apply Forall_app_2. Qed.

Lemma quiet_handler symbol e : quiet (handler symbol e).
Proof. by repeat constructor. Qed.

(** A branch that ends the call without touching the monitor. *)
Ltac ended :=
  cbn [fst snd]; split; [reflexivity | auto using quiet_app, quiet_handler].

Lemma save_candle_data_quiet df pair interval db :
  quiet (DatabaseManager.save_candle_data ext df pair interval db).2.
Proof.
  unfold DatabaseManager.save_candle_data.
  destruct df; [constructor|].
  destruct (_ && _); [constructor|].
  destruct (sqlite_spliced _ _ _ _ _); [constructor|]. simpl.
  destruct (DatabaseManager.with_connection _ db).1; by repeat constructor.
Qed.

Lemma generate_quiet env pair interval limit db :
  quiet (MockExchangeAPI.generate ext env pair interval limit db).2.
Proof.
  unfold MockExchangeAPI.generate.
  destruct (MockExchangeAPI._interval_to_seconds ext interval) as [[s|]|e|]; try constructor.
  destruct (_ =? 0); [constructor|].
  pose proof (save_candle_data_quiet
                (MockExchangeAPI.mock_data env
                   (MockExchangeAPI.arange
                      (Z.quot (time_time env) 1000 - Z.quot (time_time env) 1000 `mod` (s * 1000) - limit * s * 1000)
                      (Z.quot (time_time env) 1000 - Z.quot (time_time env) 1000 `mod` (s * 1000))
                      (s * 1000)))
                pair interval db) as Hq.
  destruct (DatabaseManager.save_candle_data _ _ _ _ _) as [[[[]|e|] db1] ev]; simpl in *; try done.
  by destruct (DatabaseManager.get_candle_data _ _ _ db1).
Qed.

Lemma get_historical_data_quiet env pair interval limit force_fresh db :
  quiet (MockExchangeAPI.get_historical_data ext env cfg pair interval limit force_fresh db).2.
Proof.
  unfold MockExchangeAPI.get_historical_data.
  destruct force_fresh; [apply generate_quiet|].
  destruct (DatabaseManager.get_candle_data _ _ _ db) as [[data|e|] db1]; try constructor.
  destruct (_ && _); [constructor | apply generate_quiet].
Qed.

Lemma execute_trades_quiet signals eng :
  quiet (TradingEngine.execute_trades cfg signals eng).2.
Proof.
  unfold TradingEngine.execute_trades.
  repeat case_match; simpl; by repeat constructor.
Qed.

Lemma dispatch_spec exchange symbol signals b :
  health_monitor (dispatch cfg exchange symbol signals b).1.2 = health_monitor b
  /\ quiet (dispatch cfg exchange symbol signals b).2.
Proof.
  unfold dispatch. destruct signals as [s|]; [|by split; [|constructor]].
  pose proof (execute_trades_quiet (Signals.set_exchange exchange s) (engine b)) as Hq.
  destruct (TradingEngine.execute_trades _ _ _) as [[[ok|e|] eng] ev]; simpl in *;
    split; try done.
  apply quiet_app; [done | apply quiet_handler].
Qed.

(** [process_pair] never touches the health monitor and never speaks for
    it, however the call ends. *)
Lemma process_pair_spec env exchange symbol b :
  health_monitor (process_pair ext env cfg exchange symbol b).1.2 = health_monitor b
  /\ quiet (process_pair ext env cfg exchange symbol b).2.
Proof.
  unfold process_pair.
  pose proof (get_historical_data_quiet env symbol (Config.CURRENT_TIMEFRAME cfg) 500 false (db_manager b)) as Hq.
  destruct (MockExchangeAPI.get_historical_data _ _ _ _ _ _ _ _) as [[[data|e|] db] ev];
    cbn [fst snd] in *; [|ended..].
  destruct (_ || _); [ended|].
  destruct (TradingEngine.process_data _ _ _ _) as [[[|d dfs]|]|e|]; [ended| |ended..].
  generalize (d :: dfs). clear d dfs. intros strategy_dfs.
  destruct (TradingEngine.check_signals _ _ _) as [signals|e|]; [|ended..].
  match goal with |- context [dispatch cfg exchange symbol signals ?b2] =>
    destruct (dispatch_spec exchange symbol signals b2) as [Hm Hd];
    destruct (dispatch cfg exchange symbol signals b2) as [[r b3] ev']
  end.
  cbn [fst snd] in *. split; [exact Hm | by apply quiet_app].
Qed.

Lemma gather_spec envs exchange todo : forall i b,
  health_monitor (gather ext envs cfg exchange i todo b).1.2 = health_monitor b
  /\ quiet (gather ext envs cfg exchange i todo b).2.
Proof.
  induction todo as [|symbol todo IH]; intros i b; simpl.
  - by split; [|constructor].
  - destruct (process_pair_spec (envs i) exchange symbol b) as [Hm Hq].
    destruct (process_pair ext (envs i) cfg exchange symbol b) as [[r b1] ev].
    destruct (IH (S i) b1) as [Hm' Hq'].
    destruct (gather ext envs cfg exchange (S i) todo b1) as [[done b2] ev'].
    simpl in *.
    destruct r; simpl; (split; [congruence | by try apply quiet_app]).
Qed.

Lemma run_tick_spec envs b :
  health_monitor (run_tick ext envs cfg b).1.2 = health_monitor b
  /\ quiet (run_tick ext envs cfg b).2.
Proof.
  unfold run_tick. case_bool_decide; [apply gather_spec|].
  split; [done | by repeat constructor].
Qed.

Lemma run_ticks_spec envs n : forall k b,
  health_monitor (run_ticks ext envs cfg n k b).1.2 = health_monitor b
  /\ quiet (run_ticks ext envs cfg n k b).2.
Proof.
  induction n as [|n IH]; intros k b; simpl.
  - by split; [|constructor].
  - destruct (run_tick_spec (envs k) b) as [Hm Hq].
    destruct (run_tick ext (envs k) cfg b) as [[tasks b1] ev].
    destruct (IH (S k) b1) as [Hm' Hq'].
    destruct (run_ticks ext envs cfg n (S k) b1) as [[later b2] ev'].
    simpl in *. split; [congruence | by apply quiet_app].
Qed.

End TickAndMonitor.

(** C3. [process_pair] catches whatever its [try] block raises and logs it,
    but it never reaches [HealthMonitor.record_api_failure]: the monitor
    after the call is the monitor before it, however the call ended. At the
    failing input, a time frame ["m"] for which [int] raises
    [ValueError] on every fetch, six ticks in a row each end in the handler
    for both instruments; the failure count of each is still 0, none is
    blacklisted and both are still fanned out to. *)
Theorem process_pair_records_no_failure :
  (forall ext env cfg exchange symbol b,
     CryptoBot.health_monitor (CryptoBot.process_pair ext env cfg exchange symbol b).1.2
     = CryptoBot.health_monitor b)
  /\ (let cfg := Config.set_CURRENT_TIMEFRAME "m" Config.shipped in
      let r := CryptoBot.run_ticks Examples.ext_no_talib
                 (fun _ _ => Examples.env_at 1700000000000000) cfg 6 0 Examples.bot0 in
      r.1.1 = replicate 6 [("B-BTC_USDT", CryptoBot.Caught ValueError);
                           ("B-ETH_USDT", CryptoBot.Caught ValueError)]
      /\ HealthMonitor.failure_count "B-BTC_USDT" (CryptoBot.health_monitor r.1.2) = 0
      /\ HealthMonitor.is_pair_blacklisted "B-BTC_USDT" (CryptoBot.health_monitor r.1.2) = false
      /\ CryptoBot.active_pairs r.1.2 = ["B-BTC_USDT"; "B-ETH_USDT"]).
Proof.
  split.
  - intros. apply process_pair_spec.
  - vm_compute. repeat split; reflexivity.
Qed.

(** With the configuration as shipped, [Config] has no [AUTO_TRADING]:
    every signal ends in [AttributeError] inside [execute_trades], which
    [process_pair] logs; no trade is opened and the monitor is not told. *)
Lemma shipped_config_signal_raises :
  let r := CryptoBot.run_tick (Examples.ext_flat 0 200)
             (fun _ => Examples.env_at 1700000000000000) Config.shipped Examples.bot0 in
  r.1.1 = [("B-BTC_USDT", CryptoBot.Caught (AttributeError "AUTO_TRADING"));
           ("B-ETH_USDT", CryptoBot.Caught (AttributeError "AUTO_TRADING"))]
  /\ TradingEngine.open_trades (CryptoBot.engine r.1.2) = []
  /\ CryptoBot.health_monitor r.1.2 = CryptoBot.health_monitor Examples.bot0.
Proof. vm_compute. repeat split; reflexivity. Qed.

(** C9. The loop of [run] never calls [record_successful_cycle] nor
    [check_process_health]: over any number of ticks the timestamp of the
    last successful cycle stays what it was and no warning is emitted. At
    the failing input both instruments complete their cycle without error
    at a clock far later than the construction of the monitor; the
    timestamp is still the construction time, the tick emitted nothing,
    although [check_process_health], had it been called, would warn. *)
Theorem run_never_records_a_successful_cycle :
  (forall ext envs cfg n k b,
     let r := CryptoBot.run_ticks ext envs cfg n k b in
     HealthMonitor.last_successful_cycle (CryptoBot.health_monitor r.1.2)
     = HealthMonitor.last_successful_cycle (CryptoBot.health_monitor b)
     /\ quiet r.2)
  /\ (let now := 1700000000000000 in
      let r := CryptoBot.run_tick Examples.ext_no_talib (fun _ => Examples.env_at now)
                 Config.shipped Examples.bot0 in
      r.1.1 = [("B-BTC_USDT", CryptoBot.Completed); ("B-ETH_USDT", CryptoBot.Completed)]
      /\ HealthMonitor.last_successful_cycle (CryptoBot.health_monitor r.1.2) = 0
      /\ r.2 = []
      /\ HealthMonitor.check_process_health (Config.REFRESH_INTERVAL Config.shipped) now
           (CryptoBot.health_monitor r.1.2)
         = [LogWarning "Bot has not had a successful cycle in 5 intervals. Possible issue."]).
Proof.
  split.
  - intros ext envs cfg n k b. cbv zeta.
    destruct (run_ticks_spec ext cfg envs n k b) as [Hm Hq]. by rewrite Hm.
  - vm_compute. repeat split; reflexivity.
Qed.

(** ** The trade book *)

Section TradeBook.

Import TradingEngine.

Lemma elem_of_open_trades eng e s p t :
  (e, s, p, t) ∈ open_trades eng <-> trade_at eng e s p = Some t.
Proof.
  unfold open_trades, trade_at. rewrite list_elem_of_bind. split.
  - intros [[e' bs] [Hin He]]. apply elem_of_map_to_list in He.
    apply list_elem_of_bind in Hin as [[s' ts] [Hin Hs]]. apply elem_of_map_to_list in Hs.
    apply list_elem_of_bind in Hin as [[p' t'] [Hin Hp]]. apply elem_of_map_to_list in Hp.
    apply list_elem_of_singleton in Hin. simplify_eq. by rewrite He, Hs.
  - destruct (active_trades eng !! e) as [bs|] eqn:He; [|done].
    destruct (bs !! s) as [ts|] eqn:Hs; [|done]. intros Hp.
    exists (e, bs). split; [|by apply elem_of_map_to_list].
    apply list_elem_of_bind. exists (s, ts). split; [|by apply elem_of_map_to_list].
    apply list_elem_of_bind. exists (p, t). split; [|by apply elem_of_map_to_list].
    by apply list_elem_of_singleton.
Qed.

(** The entries of a dict, each put under a longer key by an injective
    walk, are without repetition. *)
Lemma NoDup_bind_map_to_list {V B} (m : gmap string V) (f : string * V -> list B) (key : B -> string) :
  (forall k v y, y ∈ f (k, v) -> key y = k) ->
  (forall kv, NoDup (f kv)) ->
  NoDup (map_to_list m ≫= f).
Proof.
  intros Hkey Hf. apply NoDup_bind; [|auto|apply NoDup_map_to_list].
  intros [k1 v1] [k2 v2] y H1 H2 Hy1 Hy2.
  apply Hkey in Hy1, Hy2. subst k2. rewrite <- Hy1 in *.
  apply elem_of_map_to_list in H1, H2. congruence.
Qed.

Lemma NoDup_open_trades eng : NoDup (open_trades eng).
Proof.
  unfold open_trades.
  apply (NoDup_bind_map_to_list _ _ (fun y => y.1.1.1)).
  - intros e bs y Hy.
    apply list_elem_of_bind in Hy as [[s ts] [Hy _]].
    apply list_elem_of_bind in Hy as [[p t] [Hy _]].
    apply list_elem_of_singleton in Hy. by subst y.
  - intros [e bs]. apply (NoDup_bind_map_to_list _ _ (fun y => y.1.1.2)).
    + intros s ts y Hy.
      apply list_elem_of_bind in Hy as [[p t] [Hy _]].
      apply list_elem_of_singleton in Hy. by subst y.
    + intros [s ts]. apply (NoDup_bind_map_to_list _ _ (fun y => y.1.2)).
      * intros p t y Hy. apply list_elem_of_singleton in Hy. by subst y.
      * intros [p t]. apply NoDup_singleton.
Qed.

Lemma NoDup_all_equal {A} (l : list A) (x : A) :
  NoDup l -> x ∈ l -> (forall y, y ∈ l -> y = x) -> l = [x].
Proof.
  intros Hnd Hx Hall. destruct l as [|a l]; [by apply elem_of_nil in Hx|].
  assert (a = x) as -> by (apply Hall; left).
  destruct l as [|a' l]; [done|].
  assert (a' = x) as -> by (apply Hall; right; left).
  apply NoDup_cons in Hnd as [Hnot _]. exfalso. apply Hnot. left.
Qed.

Lemma list_empty_of_no_elem {A} (l : list A) : (forall y, y ∉ l) -> l = [].
Proof. destruct l as [|a l]; [done|]. intros H. exfalso. apply (H a). left. Qed.

(** The trades under a key are the one [trade_at] finds, or none. *)
Lemma trades_under_spec eng e s p :
  trades_under eng e s p
  = match trade_at eng e s p with
    | Some t => [(e, s, p, t)]
    | None => []
    end.
Proof.
  unfold trades_under. destruct (trade_at eng e s p) as [t|] eqn:Ht.
  - apply NoDup_all_equal.
    + apply NoDup_filter, NoDup_open_trades.
    + apply list_elem_of_filter. split; [done | by apply elem_of_open_trades].
    + intros [[[e' s'] p'] t'] [Hk Hin]%list_elem_of_filter. simpl in Hk. simplify_eq.
      apply elem_of_open_trades in Hin. congruence.
  - apply list_empty_of_no_elem.
    intros [[[e' s'] p'] t'] [Hk Hin]%list_elem_of_filter. simpl in Hk. simplify_eq.
    apply elem_of_open_trades in Hin. congruence.
Qed.

Lemma trades_under_at_most_one eng e s p : (length (trades_under eng e s p) <= 1)%nat.
Proof. rewrite trades_under_spec. destruct (trade_at eng e s p); simpl; lia. Qed.

(** What a call of [execute_trades] that returns [True] found and did. *)
Lemma execute_trades_true cfg signals eng :
  (execute_trades cfg signals eng).1.1 = Ok true ->
  Config.AUTO_TRADING cfg = Some true
  /\ exists exchange,
       Signals.exchange signals = Some exchange
       /\ has_book eng exchange (Signals.trigger_strategy signals) = true
       /\ trade_at eng exchange (Signals.trigger_strategy signals) (Signals.pair signals) = None
       /\ trade_at (execute_trades cfg signals eng).1.2 exchange
            (Signals.trigger_strategy signals) (Signals.pair signals)
          = Some (ActiveTrade.mk (Signals.price signals) (Signals.signal_type signals)).
Proof.
  unfold execute_trades, trade_at, has_book.
  destruct (Config.AUTO_TRADING cfg) as [[]|]; try discriminate.
  destruct (Signals.exchange signals) as [exchange|]; try discriminate.
  destruct (active_trades eng !! exchange) as [bs|] eqn:He; try discriminate.
  destruct (bs !! Signals.trigger_strategy signals) as [ts|] eqn:Hs; try discriminate.
  destruct (ts !! Signals.pair signals) as [t|] eqn:Hp; try discriminate.
  intros _. split; [done|]. exists exchange. simpl.
  rewrite He, Hs, !lookup_insert_eq. by rewrite bool_decide_eq_true.
Qed.

(** Any other call leaves the engine as it was. *)
Lemma execute_trades_otherwise cfg signals eng :
  (execute_trades cfg signals eng).1.1 <> Ok true ->
  (execute_trades cfg signals eng).1.2 = eng.
Proof. unfold execute_trades. by repeat case_match. Qed.

(** With auto-trading on and a book for the key, the call returns and the
    key holds a trade afterwards. *)
Lemma execute_trades_enabled cfg signals eng exchange :
  Config.AUTO_TRADING cfg = Some true ->
  Signals.exchange signals = Some exchange ->
  has_book eng exchange (Signals.trigger_strategy signals) = true ->
  let key_trade := trade_at eng exchange (Signals.trigger_strategy signals) (Signals.pair signals) in
  (execute_trades cfg signals eng).1.1 = Ok (bool_decide (key_trade = None))
  /\ trade_at (execute_trades cfg signals eng).1.2 exchange
       (Signals.trigger_strategy signals) (Signals.pair signals)
     = Some (default (ActiveTrade.mk (Signals.price signals) (Signals.signal_type signals)) key_trade).
Proof.
  unfold execute_trades, trade_at, has_book. intros -> ->.
  destruct (active_trades eng !! exchange) as [bs|] eqn:He; [|done].
  intros [ts Hs]%bool_decide_eq_true. rewrite Hs.
  destruct (ts !! Signals.pair signals) as [t|] eqn:Hp; simpl.
  - by rewrite He, Hs.
  - by rewrite !lookup_insert_eq.
Qed.

(** A call that follows a call that returned, with the same signal, returns
    [False] and changes nothing. *)
Lemma execute_trades_again cfg signals eng ok :
  (execute_trades cfg signals eng).1.1 = Ok ok ->
  let eng1 := (execute_trades cfg signals eng).1.2 in
  (execute_trades cfg signals eng1).1.1 = Ok false
  /\ (execute_trades cfg signals eng1).1.2 = eng1.
Proof.
  intros Hok. destruct ok.
  - destruct (execute_trades_true _ _ _ Hok) as (Hauto & exchange & Hex & _ & _ & Hnew).
    cbv zeta. revert Hnew.
    generalize (execute_trades cfg signals eng).1.2. intros eng1.
    unfold execute_trades, trade_at. rewrite Hauto, Hex.
    destruct (active_trades eng1 !! exchange) as [bs|]; [|done].
    destruct (bs !! Signals.trigger_strategy signals) as [ts|]; [|done].
    by intros ->.
  - cbv zeta. rewrite execute_trades_otherwise by congruence.
    split; [done|]. apply execute_trades_otherwise. congruence.
Qed.

(** [check_signals] hands over a dict only with a direction in it. *)
Lemma check_signals_has_direction cfg eng strategy_dfs s :
  check_signals cfg eng strategy_dfs = Ok (Some s) -> is_Some (Signals.signal_type s).
Proof.
  induction strategy_dfs as [|[name df] rest IH]; simpl; [done|].
  destruct (DataFrame.iloc_last df) as [latest|]; [|done].
  destruct (assoc (strategies eng) name) as [strat|]; [|done].
  destruct (Strategy.check_signals strat latest _) as [[d|]|e|]; simpl; try done.
  intros [= <-]. by eexists.
Qed.

End TradeBook.

(** C2. (1) Under every key there is at most one open trade. (2) A call of
    [execute_trades] that opens a trade found auto-trading enabled and no
    trade under the key of the signal; any other call leaves the engine
    unchanged; a signal reaches [execute_trades] only with a direction in
    it, and without a signal [process_pair] opens nothing. (3) With
    auto-trading enabled and a book for the exchange and strategy of the
    signal, two calls in immediate succession with the same signal leave
    exactly one open trade under the key, the trade of the signal when the
    key was free; the second call returns [False] and changes nothing.
    (4) The second of two such calls returns [False] and changes nothing
    whenever the first one returned at all. *)
Theorem at_most_one_open_trade_per_key :
  (forall eng exchange strat symbol,
     (length (TradingEngine.trades_under eng exchange strat symbol) <= 1)%nat)
  /\ (forall cfg signals eng,
        let r := TradingEngine.execute_trades cfg signals eng in
        (r.1.1 = Ok true ->
         Config.AUTO_TRADING cfg = Some true
         /\ exists exchange,
              Signals.exchange signals = Some exchange
              /\ TradingEngine.trades_under eng exchange
                   (Signals.trigger_strategy signals) (Signals.pair signals) = [])
        /\ (r.1.1 <> Ok true -> r.1.2 = eng))
  /\ (forall cfg eng strategy_dfs s,
        TradingEngine.check_signals cfg eng strategy_dfs = Ok (Some s) ->
        is_Some (Signals.signal_type s))
  /\ (forall cfg exchange symbol b,
        (CryptoBot.dispatch cfg exchange symbol None b).1.2 = b)
  /\ (forall cfg signals eng exchange,
        Config.AUTO_TRADING cfg = Some true ->
        Signals.exchange signals = Some exchange ->
        TradingEngine.has_book eng exchange (Signals.trigger_strategy signals) = true ->
        let strat := Signals.trigger_strategy signals in
        let symbol := Signals.pair signals in
        let r1 := TradingEngine.execute_trades cfg signals eng in
        let r2 := TradingEngine.execute_trades cfg signals r1.1.2 in
        length (TradingEngine.trades_under r2.1.2 exchange strat symbol) = 1%nat
        /\ r2.1.1 = Ok false
        /\ r2.1.2 = r1.1.2
        /\ (TradingEngine.trades_under eng exchange strat symbol = [] ->
            r1.1.1 = Ok true
            /\ TradingEngine.trades_under r2.1.2 exchange strat symbol
               = [(exchange, strat, symbol,
                   ActiveTrade.mk (Signals.price signals) (Signals.signal_type signals))]))
  /\ (forall cfg signals eng ok,
        let r1 := TradingEngine.execute_trades cfg signals eng in
        let r2 := TradingEngine.execute_trades cfg signals r1.1.2 in
        r1.1.1 = Ok ok -> r2.1.1 = Ok false /\ r2.1.2 = r1.1.2).
Proof.
  split; [apply trades_under_at_most_one|].
  split.
  { intros cfg signals eng r. subst r. split; [|apply execute_trades_otherwise].
    intros Hok. destruct (execute_trades_true _ _ _ Hok) as (Hauto & exchange & Hex & _ & Hfree & _).
    split; [done|]. exists exchange. split; [done|].
    by rewrite trades_under_spec, Hfree. }
  split; [apply check_signals_has_direction|].
  split; [done|].
  split; [|intros cfg signals eng ok r1 r2; apply execute_trades_again].
  intros cfg signals eng exchange Hauto Hex Hbook strat symbol r1 r2.
  destruct (execute_trades_enabled _ _ _ _ Hauto Hex Hbook) as [Hr1 Hat].
  destruct (execute_trades_again _ _ _ _ Hr1) as [Hr2 Heq].
  subst r1 r2 strat symbol. rewrite Heq, !trades_under_spec, Hat.
  repeat split; try done.
  - destruct (TradingEngine.trade_at eng _ _ _); [discriminate|].
    by rewrite Hr1, bool_decide_eq_true_2.
  - by destruct (TradingEngine.trade_at eng _ _ _).
Qed.

Lemma at_most_one_open_trade_witness :
  let s := Examples.signal_for long "B-BTC_USDT" "main_strategy" in
  let r1 := TradingEngine.execute_trades Examples.cfg_on s Examples.engine0 in
  let r2 := TradingEngine.execute_trades Examples.cfg_on s r1.1.2 in
  length (TradingEngine.trades_under r2.1.2 "coindcx" "main_strategy" "B-BTC_USDT") = 1%nat
  /\ r2.1.1 = Ok false
  /\ r2.1.2 = r1.1.2
  /\ (TradingEngine.trades_under Examples.engine0 "coindcx" "main_strategy" "B-BTC_USDT" = [] ->
      r1.1.1 = Ok true
      /\ TradingEngine.trades_under r2.1.2 "coindcx" "main_strategy" "B-BTC_USDT"
         = [("coindcx", "main_strategy", "B-BTC_USDT", ActiveTrade.mk 100%float (Some long))]).
Proof.
  exact (proj1 (proj2 (proj2 (proj2 (proj2 at_most_one_open_trade_per_key))))
           Examples.cfg_on (Examples.signal_for long "B-BTC_USDT" "main_strategy")
           Examples.engine0 "coindcx" eq_refl eq_refl eq_refl).
Defined.

(** ** The kill switch *)

Section KillSwitch.

Import TradingEngine EmergencyKillSwitch.

Lemma trade_at_close_all eng e s p :
  trade_at (TradingEngine.mk (strategies eng) (close_all (active_trades eng)) (balance eng)) e s p = None.
Proof.
  unfold trade_at, close_all. simpl. rewrite lookup_fmap.
  destruct (active_trades eng !! e) as [bs|]; simpl; [|done].
  rewrite lookup_fmap. destruct (bs !! s) as [ts|]; simpl; [|done].
  apply lookup_empty.
Qed.

Lemma has_book_close_all eng e s :
  has_book (TradingEngine.mk (strategies eng) (close_all (active_trades eng)) (balance eng)) e s
  = has_book eng e s.
Proof.
  unfold has_book, close_all. simpl. rewrite lookup_fmap.
  destruct (active_trades eng !! e) as [bs|]; simpl; [|done].
  rewrite lookup_fmap. apply bool_decide_ext. rewrite fmap_is_Some. done.
Qed.

Lemma open_trades_close_all eng :
  open_trades (TradingEngine.mk (strategies eng) (close_all (active_trades eng)) (balance eng)) = [].
Proof.
  apply list_empty_of_no_elem. intros [[[e s] p] t] Hin.
  apply elem_of_open_trades in Hin. by rewrite trade_at_close_all in Hin.
Qed.

(** Whatever the notification does, the exit has emptied every book and
    set the flag. *)
Lemma execute_emergency_exit_state ks eng :
  let r := execute_emergency_exit ks eng in
  r.1.2 = TradingEngine.mk (strategies eng) (close_all (active_trades eng)) (balance eng)
  /\ trading_disabled r.1.1.2 = true.
Proof. unfold execute_emergency_exit. by repeat case_match. Qed.

End KillSwitch.

(** C1. After [execute_emergency_exit] no trade is open and
    [trading_disabled] is set, but [execute_trades] does not read that
    flag: with auto-trading enabled, the next signal for a key the engine
    keeps a book for opens a trade. And the exit is not all-or-nothing:
    when the notification raises, the exit raises with every trade already
    closed and the flag already set. The failing input is the engine with
    two instruments open under each of two strategies. *)
Theorem emergency_exit_does_not_refuse_trades :
  (forall ks eng cfg signals exchange,
     Config.AUTO_TRADING cfg = Some true ->
     Signals.exchange signals = Some exchange ->
     TradingEngine.has_book eng exchange (Signals.trigger_strategy signals) = true ->
     let r := EmergencyKillSwitch.execute_emergency_exit ks eng in
     let after := TradingEngine.execute_trades cfg signals r.1.2 in
     EmergencyKillSwitch.trading_disabled r.1.1.2 = true
     /\ TradingEngine.open_trades r.1.2 = []
     /\ after.1.1 = Ok true
     /\ TradingEngine.trades_under after.1.2 exchange
          (Signals.trigger_strategy signals) (Signals.pair signals)
        = [(exchange, Signals.trigger_strategy signals, Signals.pair signals,
            ActiveTrade.mk (Signals.price signals) (Signals.signal_type signals))])
  /\ (forall eng e,
        let ks := EmergencyKillSwitch.init (Some (fun _ => Err e)) in
        let r := EmergencyKillSwitch.execute_emergency_exit ks eng in
        r.1.1.1 = Err e
        /\ EmergencyKillSwitch.trading_disabled r.1.1.2 = true
        /\ TradingEngine.open_trades r.1.2 = [])
  /\ (let r := EmergencyKillSwitch.execute_emergency_exit (EmergencyKillSwitch.init None)
                 Examples.engine_open in
      let after := TradingEngine.execute_trades Examples.cfg_on
                     (Examples.signal_for long "B-BTC_USDT" "main_strategy") r.1.2 in
      length (TradingEngine.open_trades Examples.engine_open) = 4%nat
      /\ r.1.1.1 = Ok true
      /\ EmergencyKillSwitch.trading_disabled r.1.1.2 = true
      /\ TradingEngine.open_trades r.1.2 = []
      /\ after.1.1 = Ok true
      /\ TradingEngine.open_trades after.1.2
         = [("coindcx", "main_strategy", "B-BTC_USDT", ActiveTrade.mk 100%float (Some long))]).
Proof.
  split; [|split].
  - intros ks eng cfg signals exchange Hauto Hex Hbook r after.
    destruct (execute_emergency_exit_state ks eng) as [Heng Hflag].
    subst after r. rewrite Heng.
    split; [exact Hflag|]. split; [apply open_trades_close_all|].
    rewrite <- has_book_close_all in Hbook.
    destruct (execute_trades_enabled _ _ _ _ Hauto Hex Hbook) as [Hr Hat].
    rewrite trade_at_close_all in Hr, Hat.
    split; [exact Hr|]. by rewrite trades_under_spec, Hat.
  - intros eng e ks r.
    destruct (execute_emergency_exit_state ks eng) as [Heng Hflag].
    subst r. rewrite Heng. split; [reflexivity|].
    split; [exact Hflag | apply open_trades_close_all].
  - vm_compute. repeat split; reflexivity.
Qed.

(** ** The candle store *)

Section CandleStore.

Import DatabaseManager.

Lemma with_connection_ready {A} (body : list Row.t -> res A * list Row.t) db :
  DatabaseConnectionPool.ready (pool db) = true ->
  (with_connection body db).1 = (body (candles db)).1
  /\ candles (with_connection body db).2 = (body (candles db)).2
  /\ DatabaseConnectionPool.ready (pool (with_connection body db).2) = true.
Proof.
  unfold with_connection, DatabaseConnectionPool.ready, DatabaseConnectionPool.get_connection,
    DatabaseConnectionPool.return_connection, DatabaseConnectionPool.full,
    DatabaseConnectionPool.qsize.
  destruct db as [[mx tmo q act] tbl]. simpl.
  intros [Htmo Hq]%andb_true_iff. apply Z.leb_le in Htmo.
  destruct (tmo <? 0) eqn:Hneg; [apply Z.ltb_lt in Hneg; lia|].
  destruct q as [|c q]; [done|]. simpl.
  destruct (body tbl) as [r tbl']. apply negb_true_iff in Hq. rewrite Hq. simpl.
  split; [done|]. split; [done|].
  apply andb_true_iff. split; [by apply Z.leb_le|].
  destruct q as [|c' q]; cbn [app]; [by rewrite Hq|].
  rewrite length_app. cbn [length] in *.
  replace (length q + 1)%nat with (S (length q)) by lia. by rewrite Hq.
Qed.

Lemma executemany_snoc pair interval df b tbl :
  executemany pair interval (df ++ [b]) tbl
  = insert_or_replace (Row.mk pair interval b) (executemany pair interval df tbl).
Proof. unfold executemany. by rewrite foldl_snoc. Qed.

Lemma has_key_mk pair interval b ot :
  Row.has_key pair interval ot (Row.mk pair interval b) = (Bar.open_time b =? ot).
Proof. unfold Row.has_key. simpl. by rewrite !String.eqb_refl. Qed.

Lemma filter_key_same pair interval b :
  filter (fun r => Row.has_key pair interval (Bar.open_time b) r) [Row.mk pair interval b]
  = [Row.mk pair interval b].
Proof.
  rewrite filter_cons, filter_nil. rewrite decide_True; [done|].
  rewrite has_key_mk. by apply Is_true_true, Z.eqb_eq.
Qed.

Lemma filter_key_other pair interval b ot :
  Bar.open_time b <> ot ->
  filter (fun r => Row.has_key pair interval ot r) [Row.mk pair interval b] = [].
Proof.
  intros Hne. rewrite filter_cons, filter_nil. rewrite decide_False; [done|].
  rewrite has_key_mk. by intros H%Is_true_true%Z.eqb_eq.
Qed.

Lemma filter_none {A} (l : list A) : filter (fun _ : A => False) l = [].
Proof. by induction l. Qed.

Lemma filter_all {A} (P : A -> Prop) `{forall x, Decision (P x)} (l : list A) :
  (forall x, P x) -> filter P l = l.
Proof.
  intros HP. induction l as [|a l IH]; [done|].
  by rewrite filter_cons_True, IH.
Qed.

(** After the write, the rows under a key the frame writes are the one
    row of the last bar of the frame with that [open_time]. *)
Lemma executemany_key pair interval ot df : forall tbl b,
  last (filter (fun x => Bar.open_time x = ot) df) = Some b ->
  filter (fun r => Row.has_key pair interval ot r) (executemany pair interval df tbl)
  = [Row.mk pair interval b].
Proof.
  induction df as [|x df IH] using rev_ind; intros tbl b; [done|].
  rewrite filter_app, executemany_snoc. unfold insert_or_replace.
  rewrite filter_app. cbn [Row.pair Row.interval Row.open_time Row.bar].
  destruct (decide (Bar.open_time x = ot)) as [Hx|Hx].
  - rewrite (filter_singleton_True (fun x => Bar.open_time x = ot)) by done.
    rewrite last_snoc. intros [= <-]. subst ot.
    rewrite filter_key_same, list_filter_filter.
    rewrite (list_filter_iff _ (fun _ => False)); [by rewrite filter_none|].
    intros r. destruct (Row.has_key _ _ _ r); simpl; tauto.
  - rewrite (filter_singleton_False (fun x => Bar.open_time x = ot)) by done.
    rewrite app_nil_r. intros Hlast.
    rewrite filter_key_other by done.
    rewrite app_nil_r, list_filter_filter.
    rewrite <- (IH tbl b Hlast).
    apply list_filter_iff. intros r. split; [tauto|]. intros Hr. split; [done|].
    unfold Row.has_key in *.
    destruct (String.eqb (Row.pair r) pair), (String.eqb (Row.interval r) interval); simpl in *; try done.
    apply Is_true_true, Z.eqb_eq in Hr. rewrite Hr.
    apply Is_true_true, negb_true_iff, Z.eqb_neq. done.
Qed.

(** The write keeps the rows whose key the frame does not write, in
    their order, and puts the rows of the frame after them. *)
Lemma executemany_split pair interval df : forall tbl,
  executemany pair interval df tbl
  = filter (fun r => negb (in_frame pair interval df r)) tbl ++ executemany pair interval df [].
Proof.
  induction df as [|b df IH]; intros tbl.
  - cbn. rewrite app_nil_r. by rewrite filter_all.
  - change (executemany pair interval (b :: df) tbl)
      with (executemany pair interval df (insert_or_replace (Row.mk pair interval b) tbl)).
    change (executemany pair interval (b :: df) [])
      with (executemany pair interval df (insert_or_replace (Row.mk pair interval b) [])).
    rewrite (IH (insert_or_replace _ tbl)), (IH (insert_or_replace _ [])).
    unfold insert_or_replace. rewrite !filter_app, filter_nil, app_nil_l, list_filter_filter.
    rewrite <- app_assoc. f_equal.
    apply list_filter_iff. intros r.
    change (in_frame pair interval (b :: df) r)
      with (Row.has_key pair interval (Bar.open_time b) r || in_frame pair interval df r).
    cbn [Row.pair Row.interval Row.open_time Row.bar].
    destruct (Row.has_key _ _ _ r), (in_frame pair interval df r); simpl; tauto.
Qed.

Lemma executemany_rows pair interval df : forall tbl r,
  r ∈ executemany pair interval df tbl -> r ∈ tbl \/ in_frame pair interval df r.
Proof.
  induction df as [|b df IH]; intros tbl r; [by left|].
  change (executemany pair interval (b :: df) tbl)
    with (executemany pair interval df (insert_or_replace (Row.mk pair interval b) tbl)).
  intros [Hin|Hin]%IH.
  - unfold insert_or_replace in Hin. apply elem_of_app in Hin as [Hin|Hin].
    + apply list_elem_of_filter in Hin as [_ Hin]. by left.
    + apply list_elem_of_singleton in Hin as ->. right. cbn.
      rewrite has_key_mk, Z.eqb_refl. done.
  - right. cbn. apply orb_True. by right.
Qed.

(** Writing the same frame once more changes nothing. *)
Lemma executemany_idempotent pair interval df tbl :
  executemany pair interval df (executemany pair interval df tbl)
  = executemany pair interval df tbl.
Proof.
  rewrite (executemany_split _ _ df (executemany pair interval df tbl)).
  rewrite (executemany_split _ _ df tbl) at 1. rewrite filter_app.
  rewrite list_filter_filter_l by done.
  rewrite (list_empty_of_no_elem (filter _ (executemany pair interval df []))).
  - rewrite app_nil_r. symmetry. apply executemany_split.
  - intros r [Hout Hin]%list_elem_of_filter.
    apply executemany_rows in Hin as [Hin|Hin]; [by apply elem_of_nil in Hin|].
    by destruct (in_frame pair interval df r).
Qed.

(** [save_candle_data] on a manager that can hand out a connection, for a
    pair and an interval without a quote. *)
Lemma save_candle_data_ready ext df pair interval db :
  DatabaseConnectionPool.ready (pool db) = true ->
  quote_free pair = true -> quote_free interval = true ->
  let r := save_candle_data ext df pair interval db in
  r.1.1 = Ok ()
  /\ candles r.1.2 = executemany pair interval df (candles db)
  /\ DatabaseConnectionPool.ready (pool r.1.2) = true.
Proof.
  intros Hready Hp Hi. unfold save_candle_data. destruct df as [|b df]; [done|].
  rewrite Hp, Hi. cbn [andb fst snd].
  by apply (with_connection_ready (fun tbl => (Ok (), executemany pair interval (b :: df) tbl))).
Qed.

End CandleStore.

(** C5. On a manager that can hand out a connection, for a pair and an
    interval without a quote: whatever a first write put into the table,
    after a second write whose frame holds [b2] as its last bar with
    [open_time = ot], the table has exactly one row under the key
    [(pair, interval, ot)], and it carries the values of [b2]; both writes
    return normally, and writing the second frame once more leaves the
    table as it is. Two writes of one candle each, with the same
    [open_time] and different values, are the case [df1 = [b1]],
    [df2 = [b2]]. *)
Theorem upsert_same_key_keeps_second_write
    (ext : Extern) (db : DatabaseManager.t) (pair interval : string)
    (df1 df2 : list Bar.t) (ot : Z) (b2 : Bar.t) :
  DatabaseConnectionPool.ready (DatabaseManager.pool db) = true ->
  DatabaseManager.quote_free pair = true ->
  DatabaseManager.quote_free interval = true ->
  last (filter (fun b => Bar.open_time b = ot) df2) = Some b2 ->
  let r1 := DatabaseManager.save_candle_data ext df1 pair interval db in
  let r2 := DatabaseManager.save_candle_data ext df2 pair interval r1.1.2 in
  let r3 := DatabaseManager.save_candle_data ext df2 pair interval r2.1.2 in
  r1.1.1 = Ok () /\ r2.1.1 = Ok ()
  /\ filter (fun r => Row.has_key pair interval ot r) (DatabaseManager.candles r2.1.2)
     = [Row.mk pair interval b2]
  /\ DatabaseManager.candles r3.1.2 = DatabaseManager.candles r2.1.2.
Proof.
  intros Hready Hp Hi Hlast r1 r2 r3.
  destruct (save_candle_data_ready ext df1 pair interval db Hready Hp Hi) as (Hr1 & Ht1 & Hready1).
  fold r1 in Hr1, Ht1, Hready1.
  destruct (save_candle_data_ready ext df2 pair interval r1.1.2 Hready1 Hp Hi) as (Hr2 & Ht2 & Hready2).
  fold r2 in Hr2, Ht2, Hready2.
  destruct (save_candle_data_ready ext df2 pair interval r2.1.2 Hready2 Hp Hi) as (_ & Ht3 & _).
  fold r3 in Ht3.
  split; [exact Hr1|]. split; [exact Hr2|]. split.
  - rewrite Ht2. by apply executemany_key.
  - rewrite Ht3, Ht2. apply executemany_idempotent.
Qed.

Lemma upsert_same_key_witness :
  let b1 := Bar.mk 1700000000000 100%float 101%float 99%float 100.5%float 10%float in
  let b2 := Bar.mk 1700000000000 200%float 202%float 198%float 201%float 20%float in
  let r1 := DatabaseManager.save_candle_data Examples.ext_no_talib [b1] "B-BTC_USDT" "5m" Examples.db0 in
  let r2 := DatabaseManager.save_candle_data Examples.ext_no_talib [b2] "B-BTC_USDT" "5m" r1.1.2 in
  let r3 := DatabaseManager.save_candle_data Examples.ext_no_talib [b2] "B-BTC_USDT" "5m" r2.1.2 in
  r1.1.1 = Ok () /\ r2.1.1 = Ok ()
  /\ filter (fun r => Row.has_key "B-BTC_USDT" "5m" 1700000000000 r) (DatabaseManager.candles r2.1.2)
     = [Row.mk "B-BTC_USDT" "5m" b2]
  /\ DatabaseManager.candles r3.1.2 = DatabaseManager.candles r2.1.2.
Proof.
  exact (upsert_same_key_keeps_second_write Examples.ext_no_talib Examples.db0 "B-BTC_USDT" "5m"
           [Bar.mk 1700000000000 100%float 101%float 99%float 100.5%float 10%float]
           [Bar.mk 1700000000000 200%float 202%float 198%float 201%float 20%float]
           1700000000000
           (Bar.mk 1700000000000 200%float 202%float 198%float 201%float 20%float)
           eq_refl eq_refl eq_refl eq_refl).
Defined.

(** ** The connection pool *)

Section Pool.

Import DatabaseConnectionPool.

Lemma initialize_step_spec connect i p :
  let p' := (initialize_step connect i p).1 in
  max_connections p' = max_connections p
  /\ timeout p' = timeout p
  /\ (pool p' = pool p /\ active_connections p' = active_connections p
      \/ connect i = true /\ full p = false
         /\ pool p' = pool p ++ [i] /\ active_connections p' = active_connections p + 1).
Proof.
  unfold initialize_step, put_nowait.
  destruct (connect i); [|by auto].
  destruct (full p); simpl; by auto 10.
Qed.

Lemma initialize_loop_spec connect todo : forall p,
  let p' := (initialize_loop connect todo p).1 in
  max_connections p' = max_connections p
  /\ timeout p' = timeout p
  /\ (length (pool p') <= length (pool p) + length todo)%nat
  /\ active_connections p' - active_connections p
     = Z.of_nat (length (pool p')) - Z.of_nat (length (pool p)).
Proof.
  induction todo as [|i todo IH]; intros p; simpl.
  - repeat split; lia.
  - destruct (initialize_step_spec connect i p) as (Hmax & Htmo & Hstep).
    destruct (initialize_step connect i p) as [p1 ev1]. simpl in *.
    specialize (IH p1).
    destruct (initialize_loop connect todo p1) as [p2 ev2]. simpl in *.
    destruct IH as (Hmax' & Htmo' & Hlen & Hact).
    split; [congruence|]. split; [congruence|].
    destruct Hstep as [[Hp Ha]|(_ & _ & Hp & Ha)]; rewrite Hp, Ha in *;
      rewrite ?length_app in *; simpl in *; split; lia.
Qed.

Lemma initialize_loop_all connect todo : forall p,
  (forall i, connect i = true) ->
  (0 < max_connections p -> Z.of_nat (length (pool p) + length todo) <= max_connections p) ->
  length (pool (initialize_loop connect todo p).1) = (length (pool p) + length todo)%nat.
Proof.
  induction todo as [|i todo IH]; intros p Hall Hroom; simpl.
  - lia.
  - destruct (initialize_step_spec connect i p) as (Hmax & Htmo & Hstep).
    destruct (initialize_step connect i p) as [p1 ev1] eqn:Hs1. simpl in *.
    assert (pool p1 = pool p ++ [i]) as Hp1.
    { revert Hs1. unfold initialize_step, put_nowait, full, qsize. rewrite Hall.
      destruct ((0 <? max_connections p) && (max_connections p <=? Z.of_nat (length (pool p)))) eqn:Hfull.
      - apply andb_true_iff in Hfull as [H0 Hle]. apply Z.ltb_lt in H0. apply Z.leb_le in Hle. lia.
      - by intros [= <- _]. }
    specialize (IH p1 Hall).
    destruct (initialize_loop connect todo p1) as [p2 ev2]. simpl in *.
    rewrite IH; rewrite Hp1, length_app; simpl; [lia|].
    rewrite Hmax. intros H0. specialize (Hroom H0). lia.
Qed.

(** What [__init__] leaves in the queue. *)
Lemma init_spec connect mx tmo :
  let p := (init connect mx tmo).1 in
  max_connections p = mx
  /\ timeout p = tmo
  /\ (length (pool p) <= 3)%nat
  /\ Z.of_nat (length (pool p)) <= Z.max 0 mx
  /\ (3 < mx -> Z.of_nat (length (pool p)) < mx)
  /\ active_connections p = Z.of_nat (length (pool p))
  /\ ((forall i, connect i = true) -> Z.of_nat (length (pool p)) = Z.max 0 (Z.min 3 mx)).
Proof.
  unfold init, _initialize_pool. cbn [max_connections].
  pose proof (initialize_loop_spec connect (seq 0 (Z.to_nat (Z.min 3 mx))) (mk mx tmo [] 0))
    as (Hmax & Htmo & Hlen & Hact).
  pose proof (initialize_loop_all connect (seq 0 (Z.to_nat (Z.min 3 mx))) (mk mx tmo [] 0)) as Hall.
  destruct (initialize_loop connect _ _) as [p ev]. simpl in *.
  rewrite length_seq in *.
  repeat split; try done; try lia.
  intros Hc. rewrite Hall; [lia|done|lia].
Qed.

Lemma get_connection_spec released p :
  0 <= timeout p ->
  let r := get_connection released p in
  (pool p = [] -> released = None ->
   r.1 = Err (Exception "Database connection timeout") /\ r.2 = p)
  /\ (forall c q, pool p = c :: q -> r.1 = Ok c /\ pool r.2 = q)
  /\ (forall c, pool p = [] -> released = Some c -> 0 < timeout p -> r.1 = Ok c /\ r.2 = p)
  /\ active_connections r.2 = active_connections p
  /\ max_connections r.2 = max_connections p
  /\ (length (pool r.2) <= length (pool p))%nat.
Proof.
  intros Htmo. unfold get_connection.
  destruct (timeout p <? 0) eqn:Hneg; [apply Z.ltb_lt in Hneg; lia|].
  destruct (pool p) as [|c q] eqn:Hq; cbn [fst snd].
  - split; [by intros _ ->|]. split; [done|]. split.
    + intros c _ -> Hpos. destruct (timeout p =? 0) eqn:H0; [apply Z.eqb_eq in H0; lia|done].
    + destruct released; [destruct (timeout p =? 0)|]; cbn [fst snd]; rewrite ?Hq;
        repeat split; simpl; lia.
  - split; [done|]. split; [by intros c' q' [= <- <-]|]. split; [done|].
    simpl. repeat split; lia.
Qed.

End Pool.

(** C7. Acquisition on a pool with a valid timeout: with a connection in
    the queue it returns the oldest one; with an empty queue it returns the
    connection another thread releases before the timeout, and when none
    is released it raises the error ["Database connection timeout"],
    leaving the pool as it was. It never makes a connection: the count of
    connections made is unchanged and the queue does not grow. The pool
    [__init__] builds holds at most three connections and never more than
    its maximum, strictly fewer when the maximum is above three (as with
    the default of 50), exactly [min(3, max)] when every connection could
    be made. *)
Theorem pool_acquire_blocks_then_times_out :
  (forall released p,
     0 <= DatabaseConnectionPool.timeout p ->
     let r := DatabaseConnectionPool.get_connection released p in
     (DatabaseConnectionPool.pool p = [] -> released = None ->
      r.1 = Err (Exception "Database connection timeout") /\ r.2 = p)
     /\ (forall c q, DatabaseConnectionPool.pool p = c :: q ->
                     r.1 = Ok c /\ DatabaseConnectionPool.pool r.2 = q)
     /\ (forall c, DatabaseConnectionPool.pool p = [] -> released = Some c ->
                   0 < DatabaseConnectionPool.timeout p -> r.1 = Ok c /\ r.2 = p)
     /\ DatabaseConnectionPool.active_connections r.2 = DatabaseConnectionPool.active_connections p
     /\ DatabaseConnectionPool.max_connections r.2 = DatabaseConnectionPool.max_connections p
     /\ (length (DatabaseConnectionPool.pool r.2) <= length (DatabaseConnectionPool.pool p))%nat)
  /\ (forall connect mx tmo,
        let p := (DatabaseConnectionPool.init connect mx tmo).1 in
        DatabaseConnectionPool.max_connections p = mx
        /\ DatabaseConnectionPool.timeout p = tmo
        /\ (length (DatabaseConnectionPool.pool p) <= 3)%nat
        /\ Z.of_nat (length (DatabaseConnectionPool.pool p)) <= Z.max 0 mx
        /\ (3 < mx -> Z.of_nat (length (DatabaseConnectionPool.pool p)) < mx)
        /\ DatabaseConnectionPool.active_connections p
           = Z.of_nat (length (DatabaseConnectionPool.pool p))
        /\ ((forall i, connect i = true) ->
            Z.of_nat (length (DatabaseConnectionPool.pool p)) = Z.max 0 (Z.min 3 mx))).
Proof.
  split.
  - intros released p. apply get_connection_spec.
  - apply init_spec.
Qed.

Lemma pool_acquire_witness :
  0 <= DatabaseConnectionPool.timeout Examples.pool3_drained
  /\ length (DatabaseConnectionPool.pool Examples.pool3) = 3%nat
  /\ DatabaseConnectionPool.pool Examples.pool3_drained = []
  /\ (DatabaseConnectionPool.get_connection None Examples.pool3_drained).1
     = Err (Exception "Database connection timeout")
  /\ (DatabaseConnectionPool.get_connection None Examples.pool3_drained).2 = Examples.pool3_drained
  /\ (DatabaseConnectionPool.get_connection (Some 1%nat) Examples.pool3_drained).1 = Ok 1%nat.
Proof.
  assert (0 <= DatabaseConnectionPool.timeout Examples.pool3_drained) as Htmo
    by (vm_compute; discriminate).
  split; [exact Htmo|]. split; [reflexivity|]. split; [reflexivity|].
  pose proof (proj1 pool_acquire_blocks_then_times_out None Examples.pool3_drained Htmo) as Hnone.
  pose proof (proj1 pool_acquire_blocks_then_times_out (Some 1%nat) Examples.pool3_drained Htmo) as Hsome.
  cbv zeta in Hnone, Hsome.
  destruct Hnone as (Hempty & _). destruct Hsome as (_ & _ & Hrel & _).
  destruct (Hempty eq_refl eq_refl) as [He1 He2].
  destruct (Hrel 1%nat eq_refl eq_refl eq_refl) as [Hr1 _].
  split; [exact He1|]. split; [exact He2 | exact Hr1].
Defined.

(** ** Freshness of the cached series *)

Section Freshness.

Import BaseExchangeAPI.

Lemma validate_enabled cfg now data r pair_symbol max_age_seconds :
  Config.DATA_FRESHNESS_CHECK_ENABLED cfg = true ->
  last (DataFrame.rows data) = Some r ->
  let age := now - Row.open_time r * 1000 in
  let limit := default (Config.MAX_DATA_AGE_SECONDS cfg) max_age_seconds in
  validate_data_freshness cfg now data pair_symbol max_age_seconds
  = mk (age <=? limit * 1000000) (Some (Z.quot age 1000000)) (Some (Row.open_time r * 1000))
       (DataIsOld age (if age <=? limit * 1000000 then None else Some limit)).
Proof. unfold validate_data_freshness. by intros -> ->. Qed.

Lemma validate_disabled cfg now data pair_symbol max_age_seconds :
  Config.DATA_FRESHNESS_CHECK_ENABLED cfg = false ->
  validate_data_freshness cfg now data pair_symbol max_age_seconds
  = mk true None None ValidationDisabled.
Proof. unfold validate_data_freshness. by intros ->. Qed.

Lemma with_connection_returned {A} (body : list Row.t -> res A * list Row.t) db a db1 :
  DatabaseManager.with_connection body db = (Ok a, db1) ->
  (body (DatabaseManager.candles db)).1 = Ok a.
Proof.
  unfold DatabaseManager.with_connection.
  destruct (DatabaseConnectionPool.get_connection None (DatabaseManager.pool db)) as [[c|e|] p1];
    [|discriminate..].
  destruct (body (DatabaseManager.candles db)) as [r tbl].
  destruct (DatabaseConnectionPool.return_connection c p1) as [[[]|e|] p2]; [|discriminate..].
  by intros [= -> _].
Qed.

Lemma older_first_transitive : Transitive DatabaseManager.older_first.
Proof. unfold DatabaseManager.older_first. intros x y z. lia. Qed.

Lemma older_first_total : Total DatabaseManager.older_first.
Proof. unfold DatabaseManager.older_first. intros x y. lia. Qed.

Lemma sorted_last_is_newest l r :
  StronglySorted DatabaseManager.older_first l -> last l = Some r ->
  Forall (fun r' => Row.open_time r' <= Row.open_time r) l.
Proof.
  induction 1 as [|x l Hl IH Hx]; intros Hlast; [constructor|].
  destruct l as [|y l].
  - injection Hlast as <-. by repeat constructor.
  - rewrite last_cons_cons in Hlast. constructor; [|by apply IH].
    rewrite Forall_forall in Hx. apply Hx. by apply last_Some_elem_of.
Qed.

(** The series the store returns is in ascending order of time: its last
    candle is its newest. *)
Lemma get_candle_data_last_is_newest pair limit timeframe db data db1 r :
  DatabaseManager.get_candle_data pair limit timeframe db = (Ok data, db1) ->
  last (DataFrame.rows data) = Some r ->
  Forall (fun r' => Row.open_time r' <= Row.open_time r) (DataFrame.rows data).
Proof.
  unfold DatabaseManager.get_candle_data. intros Hget%with_connection_returned.
  injection Hget as <-. cbn [DataFrame.rows DataFrame.of_rows].
  apply sorted_last_is_newest.
  apply (@StronglySorted_merge_sort _ _ _ older_first_transitive older_first_total).
Qed.

End Freshness.

(** C8, against the claim as stated: with the freshness check switched off
    in the configuration, the series of 500 candles that ends at [T] is
    reported fresh at [T + 301 s] under a maximum age of 300 s. *)
Lemma freshness_ignores_age_when_disabled :
  DataFrame.empty Examples.frame_X = false
  /\ Row.open_time <$> last (DataFrame.rows Examples.frame_X) = Some 1700000000000
  /\ BaseExchangeAPI.is_fresh
       (BaseExchangeAPI.validate_data_freshness Examples.cfg_no_check
          (1700000000000 * 1000 + 301 * 1000000) Examples.frame_X "X" (Some 300))
     = true.
Proof. vm_compute. repeat split; reflexivity. Qed.

(** C8, amended. With the freshness check enabled, for a series whose
    last candle opens at [T]: under a maximum age of 300 s the report at
    [T + 301 s] is not fresh and the report at [T + 100 s] is fresh; at any
    clock and maximum age, [is_fresh] holds exactly when the age does not
    exceed the maximum, and the age reported is the age in whole seconds;
    without a maximum of its own the call uses the configured one; and the
    report is a function of the configuration, the clock, the maximum and
    [T] alone: another series, another instrument, with the same last
    [open_time], gets the same report. The last candle is the newest one
    of every series read from the store. *)
Theorem freshness_follows_age_when_enabled
    (cfg : Config.t) (data : DataFrame.t) (r : Row.t) (pair_symbol : string) :
  Config.DATA_FRESHNESS_CHECK_ENABLED cfg = true ->
  last (DataFrame.rows data) = Some r ->
  let T := Row.open_time r * 1000 in
  let report := fun now max_age =>
    BaseExchangeAPI.validate_data_freshness cfg now data pair_symbol max_age in
  BaseExchangeAPI.is_fresh (report (T + 301 * 1000000) (Some 300)) = false
  /\ BaseExchangeAPI.is_fresh (report (T + 100 * 1000000) (Some 300)) = true
  /\ (forall now max_age,
        BaseExchangeAPI.is_fresh (report now (Some max_age))
        = bool_decide (now - T <= max_age * 1000000)
        /\ BaseExchangeAPI.data_age_seconds (report now (Some max_age))
           = Some (Z.quot (now - T) 1000000))
  /\ (forall now, report now None = report now (Some (Config.MAX_DATA_AGE_SECONDS cfg)))
  /\ (forall now max_age data' r' pair_symbol',
        last (DataFrame.rows data') = Some r' ->
        Row.open_time r' = Row.open_time r ->
        BaseExchangeAPI.validate_data_freshness cfg now data' pair_symbol' max_age
        = report now max_age)
  /\ (forall pair limit timeframe db db1,
        DatabaseManager.get_candle_data pair limit timeframe db = (Ok data, db1) ->
        Forall (fun r' => Row.open_time r' <= Row.open_time r) (DataFrame.rows data)).
Proof.
  intros Hon Hlast T report. subst report.
  split; [|split; [|split; [|split; [|split]]]];
    [..|intros pair limit timeframe db db1 Hget; by eapply get_candle_data_last_is_newest].
  - rewrite (validate_enabled _ _ _ _ _ _ Hon Hlast). cbn. apply Z.leb_gt. lia.
  - rewrite (validate_enabled _ _ _ _ _ _ Hon Hlast). cbn. apply Z.leb_le. lia.
  - intros now max_age. rewrite (validate_enabled _ _ _ _ _ _ Hon Hlast). cbn.
    split; [|done]. fold T.
    destruct (now - T <=? max_age * 1000000) eqn:Hle.
    + apply Z.leb_le in Hle. by rewrite bool_decide_eq_true_2.
    + apply Z.leb_gt in Hle. rewrite bool_decide_eq_false_2; [done|lia].
  - intros now. by rewrite !(validate_enabled _ _ _ _ _ _ Hon Hlast).
  - intros now max_age data' r' pair_symbol' Hlast' Heq.
    rewrite (validate_enabled _ _ _ _ _ _ Hon Hlast), (validate_enabled _ _ _ _ _ _ Hon Hlast').
    by rewrite Heq.
Qed.

Lemma freshness_follows_age_witness :
  Config.DATA_FRESHNESS_CHECK_ENABLED Config.shipped = true
  /\ BaseExchangeAPI.is_fresh
       (BaseExchangeAPI.validate_data_freshness Config.shipped
          (1700000000000 * 1000 + 301 * 1000000) Examples.frame_X "X" (Some 300)) = false
  /\ BaseExchangeAPI.is_fresh
       (BaseExchangeAPI.validate_data_freshness Config.shipped
          (1700000000000 * 1000 + 100 * 1000000) Examples.frame_X "X" (Some 300)) = true.
Proof.
  split; [reflexivity|].
  destruct (freshness_follows_age_when_enabled Config.shipped Examples.frame_X
              (Row.mk "X" "5m" (Examples.bar_at 1700000000000 100%float)) "X" eq_refl)
    as (Hstale & Hfresh & _).
  - vm_compute. reflexivity.
  - split; [exact Hstale | exact Hfresh].
Defined.

(** C10. With the freshness check switched off, [validate_data_freshness]
    reports every series fresh, the empty one too, and computes no age
    (the report has neither an age nor a timestamp); and
    [get_historical_data], unless told to fetch afresh, returns whatever
    non-empty series the store holds for the pair and interval, at any
    clock, without writing to the store. *)
Theorem disabled_check_accepts_any_cache (cfg : Config.t) :
  Config.DATA_FRESHNESS_CHECK_ENABLED cfg = false ->
  (forall now data pair_symbol max_age,
     BaseExchangeAPI.validate_data_freshness cfg now data pair_symbol max_age
     = BaseExchangeAPI.mk true None None BaseExchangeAPI.ValidationDisabled)
  /\ (forall ext env pair interval limit db data db1,
        DatabaseManager.get_candle_data pair limit (Some interval) db = (Ok data, db1) ->
        DataFrame.empty data = false ->
        MockExchangeAPI.get_historical_data ext env cfg pair interval limit false db
        = (Ok data, db1, [])).
Proof.
  intros Hoff. split.
  - intros. by apply validate_disabled.
  - intros ext env pair interval limit db data db1 Hget Hne.
    unfold MockExchangeAPI.get_historical_data. rewrite Hget, Hne.
    by rewrite validate_disabled.
Qed.

Lemma disabled_check_witness :
  Config.DATA_FRESHNESS_CHECK_ENABLED Examples.cfg_no_check = false
  /\ BaseExchangeAPI.is_fresh
       (BaseExchangeAPI.validate_data_freshness Examples.cfg_no_check 1700000000000000
          (DataFrame.of_rows []) "X" None) = true
  /\ (MockExchangeAPI.get_historical_data Examples.ext_no_talib (Examples.env_at 1700000000000000)
        Examples.cfg_no_check "X" "5m" 500 false Examples.db_old).1.1
     = Ok (DataFrame.of_rows [Row.mk "X" "5m" (Examples.bar_at 1000000000000 100%float)]).
Proof.
  split; [reflexivity|].
  destruct (disabled_check_accepts_any_cache Examples.cfg_no_check eq_refl) as [Hrep Hget].
  split.
  - by rewrite Hrep.
  - erewrite Hget; [reflexivity | vm_compute; reflexivity | reflexivity].
Defined.

(** ** Series shorter than the look-back *)

Section ShortSeries.

Import TradingEngine.

Context (ext : Extern).

Lemma get_indicators_short s df :
  DataFrame.len df < EMACCIStrategy.ema200_period s ->
  EMACCIStrategy.get_indicators ext s df = Ok df.
Proof.
  intros Hlen. unfold EMACCIStrategy.get_indicators.
  destruct (talib ext); [|done]. destruct (DataFrame.empty df); [done|].
  apply Z.ltb_lt in Hlen. by rewrite Hlen.
Qed.

(** The latest row of a frame without an [ema200] column gives no signal,
    whatever the strategy. *)
Lemma check_signals_no_column {Trades} strat df latest (trades : Trades) :
  DataFrame.ema200 df = None ->
  DataFrame.iloc_last df = Some latest ->
  Strategy.check_signals strat latest trades = Ok None.
Proof.
  unfold DataFrame.iloc_last. intros Hcol. rewrite Hcol.
  destruct (last (DataFrame.rows df)); [|done]. intros [= <-].
  by destruct strat.
Qed.

Lemma assoc_elem_of {V} (l : list (string * V)) k v :
  Py.assoc l k = Some v -> (k, v) ∈ l.
Proof.
  induction l as [|[k' v'] l IH]; simpl; [done|].
  destruct (String.eqb k' k) eqn:Hk.
  - apply String.eqb_eq in Hk as ->. intros [= ->]. left.
  - intros H. right. by apply IH.
Qed.

Lemma assoc_is_Some {V} (l : list (string * V)) k v :
  (k, v) ∈ l -> is_Some (Py.assoc l k).
Proof.
  induction l as [|[k' v'] l IH]; [by intros ?%elem_of_nil|].
  intros Hin. simpl. destruct (String.eqb k' k) eqn:Hk; [by eexists|].
  apply elem_of_cons in Hin as [[= -> ->]|Hin]; [|by apply IH].
  by rewrite String.eqb_refl in Hk.
Qed.

(** The frames [process_data] hands on when the series is too short for
    every moving-average strategy: the series itself, once per strategy. *)
Lemma indicators_loop_short df strats :
  (forall name s, (name, Strategy.EMACCI s) ∈ strats ->
                  DataFrame.len df < EMACCIStrategy.ema200_period s) ->
  indicators_loop ext df strats = Ok (map (fun ns => (ns.1, df)) strats).
Proof.
  induction strats as [|[name st] strats IH]; intros Hshort; [done|].
  cbn [indicators_loop map fst].
  assert (Strategy.get_indicators ext st df = Ok df) as ->.
  { destruct st as [s|]; [|done]. apply get_indicators_short, (Hshort name). left. }
  cbn. rewrite IH; [done|]. intros n s Hin. apply (Hshort n). by right.
Qed.

Lemma check_signals_no_columns cfg eng df (names : list (string * Strategy.t)) :
  DataFrame.ema200 df = None ->
  (forall ns, ns ∈ names -> is_Some (Py.assoc (strategies eng) ns.1)) ->
  check_signals cfg eng (map (fun ns => (ns.1, df)) names) = Ok None.
Proof.
  intros Hcol. induction names as [|[name st] names IH]; intros Hnames; [done|].
  cbn [map fst check_signals].
  assert (check_signals cfg eng (map (fun ns => (ns.1, df)) names) = Ok None) as Hrest.
  { apply IH. intros ns Hin. apply Hnames. by right. }
  destruct (DataFrame.iloc_last df) as [latest|] eqn:Hlatest; [|exact Hrest].
  destruct (Hnames (name, st)) as [strat Hstrat]; [left|]. cbn [fst] in Hstrat. rewrite Hstrat.
  rewrite (check_signals_no_column strat df latest _ Hcol Hlatest). exact Hrest.
Qed.

End ShortSeries.

(** C6, against the claim as stated: a strategy whose oscillator window
    (300) is longer than its long moving average (200) has a longest
    look-back of 300; on a series of 250 candles, shorter than that,
    enrichment does not return the series unchanged but adds the three
    indicator columns. *)
Lemma enrich_below_longest_lookback_adds_columns :
  EMACCIStrategy.longest_lookback Examples.long_cci = 300
  /\ DataFrame.len Examples.frame_250 = 250
  /\ EMACCIStrategy.get_indicators (Examples.ext_flat 100 0) Examples.long_cci Examples.frame_250
     <> Ok Examples.frame_250
  /\ DataFrame.is_enriched
       (EMACCIStrategy.get_indicators (Examples.ext_flat 100 0) Examples.long_cci Examples.frame_250)
     = true.
Proof.
  split; [reflexivity|]. split; [reflexivity|]. split; [|vm_compute; reflexivity].
  intros H. apply (f_equal DataFrame.is_enriched) in H. vm_compute in H. discriminate.
Qed.

(** C6, amended. For a series (a frame of candles, without indicator
    columns) shorter than the strategy's [ema200_period], which is its
    longest look-back whenever the two other periods do not exceed it, as
    in the shipped configuration: enrichment returns the series unchanged,
    evaluation of its latest row returns no signal, and so does the
    engine: when the series is shorter than the [ema200_period] of each
    of its moving-average strategies, [process_data] followed by
    [check_signals] returns normally with no signal. Nothing raises and no
    direction is returned. *)
Theorem short_series_unchanged_and_no_signal
    (ext : Extern) (s : EMACCIStrategy.t) (rows : list Row.t) :
  DataFrame.len (DataFrame.of_rows rows) < EMACCIStrategy.ema200_period s ->
  let df := DataFrame.of_rows rows in
  EMACCIStrategy.get_indicators ext s df = Ok df
  /\ (forall (Trades : Type) (trades : Trades) latest,
        DataFrame.iloc_last df = Some latest ->
        EMACCIStrategy.check_signals s latest trades = Ok None)
  /\ (EMACCIStrategy.ema50_period s <= EMACCIStrategy.ema200_period s ->
      EMACCIStrategy.cci1_length s <= EMACCIStrategy.ema200_period s ->
      EMACCIStrategy.longest_lookback s = EMACCIStrategy.ema200_period s)
  /\ (forall cfg eng symbol,
        (forall name s', (name, Strategy.EMACCI s') ∈ TradingEngine.strategies eng ->
                         DataFrame.len df < EMACCIStrategy.ema200_period s') ->
        TradingEngine.process_data ext eng df symbol
          ≫= (fun strategy_dfs => TradingEngine.check_signals cfg eng (default [] strategy_dfs))
        = Ok None).
Proof.
  intros Hlen df. split; [by apply get_indicators_short|]. split; [|split].
  - intros Trades trades latest Hlatest.
    by apply (check_signals_no_column (Strategy.EMACCI s) df latest trades).
  - unfold EMACCIStrategy.longest_lookback. lia.
  - intros cfg eng symbol Hshort. unfold TradingEngine.process_data.
    destruct (DataFrame.empty df); [done|].
    rewrite indicators_loop_short.
    + cbn. apply check_signals_no_columns; [done|].
      intros [name st] Hin. by apply (assoc_is_Some _ name st).
    + intros name s' Hin. specialize (Hshort name s' Hin).
      unfold DataFrame.len, DataFrame.set_pair in *. cbn in *. by rewrite length_map.
Qed.

Lemma short_series_witness :
  let s := EMACCIStrategy.init Config.main_strategy_conf in
  let df := DataFrame.of_rows (Examples.flat_rows "B-BTC_USDT" "1m" 100%float 1700000000000 199) in
  DataFrame.len df < EMACCIStrategy.ema200_period s
  /\ EMACCIStrategy.longest_lookback s = 200
  /\ EMACCIStrategy.get_indicators (Examples.ext_flat 0 200) s df = Ok df
  /\ TradingEngine.process_data (Examples.ext_flat 0 200) Examples.engine0 df "B-BTC_USDT"
       ≫= (fun strategy_dfs =>
             TradingEngine.check_signals Config.shipped Examples.engine0 (default [] strategy_dfs))
     = Ok None.
Proof.
  assert (DataFrame.len
            (DataFrame.of_rows (Examples.flat_rows "B-BTC_USDT" "1m" 100%float 1700000000000 199))
          < EMACCIStrategy.ema200_period (EMACCIStrategy.init Config.main_strategy_conf)) as Hlen
    by (vm_compute; reflexivity).
  split; [exact Hlen|]. split; [reflexivity|].
  destruct (short_series_unchanged_and_no_signal (Examples.ext_flat 0 200)
              (EMACCIStrategy.init Config.main_strategy_conf)
              (Examples.flat_rows "B-BTC_USDT" "1m" 100%float 1700000000000 199) Hlen)
    as (Hsame & _ & _ & Hengine).
  split; [exact Hsame|].
  apply Hengine. intros name s' Hin.
  assert (s' = EMACCIStrategy.init Config.main_strategy_conf) as ->; [|exact Hlen].
  vm_compute in Hin.
  apply elem_of_cons in Hin as [[= _ ->]|Hin]; [reflexivity|].
  apply elem_of_cons in Hin as [[=]|Hin]. by apply elem_of_nil in Hin.
Defined.

(** * Further properties of the code *)

(** ** The dashboard log *)

(** X1. [add_log] puts the new line first, keeps the lines that were
    there in their order behind it, and never leaves more than ten lines,
    however long the list was; the data of the pairs is not touched. A
    list within the bound grows by one line until it holds ten. *)
Theorem add_log_keeps_ten_newest (now : Z) (message : string) (d : DisplayManager.t) :
  let d' := DisplayManager.add_log now message d in
  (length (DisplayManager.log_messages d') <= 10)%nat
  /\ head (DisplayManager.log_messages d') = Some (now, message)
  /\ tail (DisplayManager.log_messages d') = take 9 (DisplayManager.log_messages d)
  /\ ((length (DisplayManager.log_messages d) <= 10)%nat ->
      length (DisplayManager.log_messages d')
      = Nat.min (S (length (DisplayManager.log_messages d))) 10)
  /\ DisplayManager.pair_data d' = DisplayManager.pair_data d
  /\ DisplayManager.last_update d' = DisplayManager.last_update d.
Proof.
  unfold DisplayManager.add_log. cbn [DisplayManager.log_messages DisplayManager.pair_data
    DisplayManager.last_update].
  split; [rewrite length_take; lia|].
  split; [done|]. split; [done|]. split; [|done].
  intros Hlen. rewrite length_take. cbn [length]. lia.
Qed.

(** ** The failure counter *)

Section FailureCounter.

Import HealthMonitor MonitorStep.

Lemma record_api_failure_count pair hm :
  failure_count pair (record_api_failure pair hm).1 = failure_count pair hm + 1.
Proof.
  unfold record_api_failure, failure_count.
  destruct (5 <? _); [rewrite blacklist_pair_api_failures|]; simpl;
    by rewrite lookup_insert_eq.
Qed.

Lemma record_api_failure_other_count pair q hm :
  q <> pair -> failure_count q (record_api_failure pair hm).1 = failure_count q hm.
Proof.
  intros Hne. unfold record_api_failure, failure_count.
  destruct (5 <? _); [rewrite blacklist_pair_api_failures|]; simpl;
    by rewrite lookup_insert_ne.
Qed.

Lemma record_api_failure_blacklist pair q hm :
  q ∈ pair_blacklist (record_api_failure pair hm).1
  <-> q ∈ pair_blacklist hm \/ (q = pair /\ 5 <= failure_count pair hm).
Proof.
  unfold record_api_failure, failure_count, blacklist_pair.
  destruct (5 <? default 0 (api_failures hm !! pair) + 1) eqn:Hn.
  - apply Z.ltb_lt in Hn. case_decide as Hin; simpl in *.
    + split; [by left|]. intros [?|[-> _]]; done.
    + rewrite elem_of_union, elem_of_singleton. split; [intros [->|?]|intros [?|[-> _]]]; auto.
      right. split; [done|lia].
  - apply Z.ltb_ge in Hn. simpl. split; [by left|]. intros [?|[_ ?]]; [done|lia].
Qed.

Lemma record_api_failure_db_failures pair hm :
  db_failures (record_api_failure pair hm).1 = db_failures hm.
Proof.
  unfold record_api_failure, blacklist_pair.
  destruct (5 <? default 0 (api_failures hm !! pair) + 1); [case_decide|]; done.
Qed.

Lemma record_api_failure_events pair hm :
  (record_api_failure pair hm).2 <> []
  <-> 5 <= failure_count pair hm /\ pair ∉ pair_blacklist hm.
Proof.
  unfold record_api_failure, failure_count, blacklist_pair.
  destruct (5 <? default 0 (api_failures hm !! pair) + 1) eqn:Hn.
  - apply Z.ltb_lt in Hn. case_decide as Hin; simpl in *.
    + split; [done|]. by intros [_ ?].
    + split; [intros _; split; [lia|done]|done].
  - apply Z.ltb_ge in Hn. simpl. split; [done|]. intros [? _]. lia.
Qed.

Lemma after_failures_S pair n hm :
  after_failures pair (S n) hm = (record_api_failure pair (after_failures pair n hm)).1.
Proof. reflexivity. Qed.

Lemma after_failures_count pair n hm :
  failure_count pair (after_failures pair n hm) = failure_count pair hm + Z.of_nat n.
Proof.
  induction n as [|n IH]; [simpl; lia|].
  rewrite after_failures_S, record_api_failure_count, IH. lia.
Qed.

Lemma after_failures_blacklist pair q n hm :
  q ∈ pair_blacklist (after_failures pair n hm)
  <-> q ∈ pair_blacklist hm \/ (q = pair /\ 5 < failure_count pair hm + Z.of_nat n /\ (0 < n)%nat).
Proof.
  induction n as [|n IH].
  - simpl. split; [by left|]. intros [?|(_ & _ & ?)]; [done|lia].
  - rewrite after_failures_S, record_api_failure_blacklist, IH, after_failures_count.
    split.
    + intros [[?|(-> & ? & ?)]|[-> ?]]; [by left|right|right]; (split; [done|lia]).
    + intros [?|(-> & ? & ?)]; [by left; left|]. right. split; [done|lia].
Qed.

Lemma step_monotone hm hm' :
  step hm hm' ->
  pair_blacklist hm ⊆ pair_blacklist hm'
  /\ (forall p, failure_count p hm <= failure_count p hm')
  /\ db_failures hm <= db_failures hm'.
Proof.
  destruct 1 as [hm|pair hm|hm|now hm|pair hm|hm];
    try (split; [done|split; [intros p; unfold failure_count|]; simpl; lia]).
  - split; [|split; [|rewrite record_api_failure_db_failures; lia]].
    + intros q Hq. apply record_api_failure_blacklist. by left.
    + intros p. destruct (decide (p = pair)) as [->|Hne].
      * rewrite record_api_failure_count. lia.
      * rewrite record_api_failure_other_count by done. lia.
  - split; [intros q; apply blacklist_pair_keeps|].
    unfold failure_count. rewrite blacklist_pair_api_failures.
    split; [intros p; lia|]. unfold blacklist_pair. case_decide; simpl; lia.
  - unfold check_blacklist. split; [done|]. split; [intros p|]; lia.
Qed.

End FailureCounter.

(** X2. Starting from a new monitor, the failures of one instrument are
    counted one by one and the instrument is blacklisted by the sixth
    failure exactly: after [n] recorded failures the count is [n] and the
    instrument is blacklisted if and only if [n > 5]; the call that
    records failure number [n + 1] logs the blacklisting if and only if
    [n = 5]; and the count and the status of every other instrument stay
    at zero and not blacklisted. *)
Theorem sixth_failure_blacklists (now : Z) (pair : string) (n : nat) :
  let hm := MonitorStep.after_failures pair n (HealthMonitor.init now) in
  HealthMonitor.failure_count pair hm = Z.of_nat n
  /\ HealthMonitor.is_pair_blacklisted pair hm = bool_decide (5 < n)%nat
  /\ ((HealthMonitor.record_api_failure pair hm).2 <> [] <-> n = 5%nat)
  /\ (forall q, q <> pair ->
        HealthMonitor.failure_count q hm = 0
        /\ HealthMonitor.is_pair_blacklisted q hm = false).
Proof.
  cbv zeta.
  assert (forall q, HealthMonitor.failure_count q (HealthMonitor.init now) = 0) as H0.
  { intros q. unfold HealthMonitor.failure_count. simpl. by rewrite lookup_empty. }
  assert (forall q, q ∈ HealthMonitor.pair_blacklist
                        (MonitorStep.after_failures pair n (HealthMonitor.init now))
                    <-> q = pair /\ (5 < n)%nat) as Hbl.
  { intros q. rewrite after_failures_blacklist, H0. simpl. rewrite elem_of_empty.
    split; [intros [[]|(-> & ? & ?)]; split; [done|lia]|intros [-> ?]; right; split; [done|lia]]. }
  pose proof (after_failures_count pair n (HealthMonitor.init now)) as Hcount.
  rewrite H0 in Hcount. simpl in Hcount.
  split; [exact Hcount|]. split; [|split].
  - unfold HealthMonitor.is_pair_blacklisted. apply bool_decide_ext.
    rewrite Hbl. split; [by intros [_ ?] | by intros ?].
  - rewrite record_api_failure_events, Hcount, Hbl. split.
    + intros [Hge Hnot]. destruct (decide (5 < n)%nat) as [Hlt|Hlt]; [|lia].
      exfalso. by apply Hnot.
    + intros ->. split; [lia|]. intros [_ ?]. lia.
  - intros q Hne. split.
    + clear Hbl Hcount. induction n as [|n IH]; [apply H0|].
      rewrite after_failures_S, record_api_failure_other_count; done.
    + unfold HealthMonitor.is_pair_blacklisted. apply bool_decide_eq_false.
      rewrite Hbl. by intros [? _].
Qed.

(** X3. Nothing the program can call on a monitor takes an instrument off
    the blacklist or lowers a counter: over any sequence of calls the
    blacklist only grows, and the failure count of every instrument and
    the count of database failures never decrease. *)
Theorem blacklist_is_permanent (hm hm' : HealthMonitor.t) :
  rtc MonitorStep.step hm hm' ->
  HealthMonitor.pair_blacklist hm ⊆ HealthMonitor.pair_blacklist hm'
  /\ (forall p, HealthMonitor.is_pair_blacklisted p hm = true ->
                HealthMonitor.is_pair_blacklisted p hm' = true)
  /\ (forall p, HealthMonitor.failure_count p hm <= HealthMonitor.failure_count p hm')
  /\ HealthMonitor.db_failures hm <= HealthMonitor.db_failures hm'.
Proof.
  intros Hsteps.
  assert (HealthMonitor.pair_blacklist hm ⊆ HealthMonitor.pair_blacklist hm'
          /\ (forall p, HealthMonitor.failure_count p hm <= HealthMonitor.failure_count p hm')
          /\ HealthMonitor.db_failures hm <= HealthMonitor.db_failures hm') as (Hb & Hc & Hd).
  { induction Hsteps as [hm|hm hm1 hm2 Hstep _ (Hb & Hc & Hd)].
    - split; [done|]. split; [intros p|]; lia.
    - destruct (step_monotone _ _ Hstep) as (Hb1 & Hc1 & Hd1).
      split; [by etrans|]. split; [intros p; specialize (Hc p); specialize (Hc1 p)|]; lia. }
  split; [exact Hb|]. split; [|split; [exact Hc | exact Hd]].
  intros p. unfold HealthMonitor.is_pair_blacklisted.
  rewrite !bool_decide_eq_true. apply Hb.
Qed.

Lemma blacklist_is_permanent_witness :
  let hm := MonitorStep.after_failures "B-BTC_USDT" 6 (HealthMonitor.init 0) in
  let hm' := HealthMonitor.record_successful_cycle 99
               (HealthMonitor.record_api_failure "B-ETH_USDT" hm).1 in
  rtc MonitorStep.step hm hm'
  /\ HealthMonitor.is_pair_blacklisted "B-BTC_USDT" hm' = true.
Proof.
  assert (rtc MonitorStep.step
            (MonitorStep.after_failures "B-BTC_USDT" 6 (HealthMonitor.init 0))
            (HealthMonitor.record_successful_cycle 99
               (HealthMonitor.record_api_failure "B-ETH_USDT"
                  (MonitorStep.after_failures "B-BTC_USDT" 6 (HealthMonitor.init 0))).1)) as Hrtc.
  { eapply rtc_l; [apply MonitorStep.step_record_api_failure|].
    eapply rtc_l; [apply MonitorStep.step_record_successful_cycle|]. apply rtc_refl. }
  split; [exact Hrtc|].
  apply (proj1 (proj2 (blacklist_is_permanent _ _ Hrtc))).
  vm_compute. reflexivity.
Defined.

(** ** Reading the candle store *)

Section Store.

Import DatabaseManager.

Lemma has_key_key p i ot r : Row.has_key p i ot r <-> CandleKey.key r = (p, i, ot).
Proof.
  unfold Row.has_key, CandleKey.key.
  destruct (String.eqb_spec (Row.pair r) p) as [->|Hp];
    destruct (String.eqb_spec (Row.interval r) i) as [->|Hi];
    destruct (Z.eqb_spec (Row.open_time r) ot) as [->|Ho]; simpl;
    split; try done; congruence.
Qed.

Lemma of_series_spec p i r :
  CandleKey.of_series p i r <-> Row.pair r = p /\ Row.interval r = i.
Proof.
  unfold CandleKey.of_series.
  destruct (String.eqb_spec (Row.pair r) p) as [->|Hp];
    destruct (String.eqb_spec (Row.interval r) i) as [->|Hi]; simpl;
    split; try done; intros [? ?]; done.
Qed.

Lemma newer_first_transitive : Transitive newer_first.
Proof. unfold newer_first. intros x y z. lia. Qed.

Lemma newer_first_total : Total newer_first.
Proof. unfold newer_first. intros x y. lia. Qed.

Lemma get_candle_data_ready pair limit timeframe db :
  DatabaseConnectionPool.ready (pool db) = true ->
  let r := get_candle_data pair limit timeframe db in
  r.1 = Ok (DataFrame.of_rows
              (merge_sort older_first (select_candles pair timeframe limit (candles db))))
  /\ candles r.2 = candles db
  /\ DatabaseConnectionPool.ready (pool r.2) = true.
Proof.
  intros Hready. unfold get_candle_data.
  by apply (with_connection_ready
              (fun tbl => (Ok (DataFrame.of_rows
                                 (merge_sort older_first (select_candles pair timeframe limit tbl))),
                           tbl))).
Qed.

Lemma sql_limit_cases limit (l : list Row.t) :
  (limit < 0 /\ sql_limit limit l = l)
  \/ (0 <= limit /\ sql_limit limit l = take (Z.to_nat limit) l).
Proof.
  unfold sql_limit. destruct (limit <? 0) eqn:H.
  - left. apply Z.ltb_lt in H. done.
  - right. apply Z.ltb_ge in H. done.
Qed.

End Store.

(** X4. On a manager that can hand out a connection, [get_candle_data]
    returns normally and leaves the table as it is. The series it returns
    has no indicator column, is in ascending order of [open_time], holds
    only stored rows of the pair and interval asked for, as many as there
    are when the limit is negative and at most [limit] of them otherwise,
    and these are the newest: a stored candle of the series that is newer
    than a returned one is returned too. *)
Theorem get_candle_data_newest_ascending
    (db : DatabaseManager.t) (pair interval : string) (limit : Z) :
  DatabaseConnectionPool.ready (DatabaseManager.pool db) = true ->
  let r := DatabaseManager.get_candle_data pair limit (Some interval) db in
  let stored := filter (fun x => CandleKey.of_series pair interval x) (DatabaseManager.candles db) in
  exists rows,
    r.1 = Ok (DataFrame.of_rows rows)
    /\ DatabaseManager.candles r.2 = DatabaseManager.candles db
    /\ StronglySorted DatabaseManager.older_first rows
    /\ (forall x, x ∈ rows -> x ∈ stored)
    /\ length rows = (if limit <? 0 then length stored
                      else Nat.min (Z.to_nat limit) (length stored))
    /\ (forall x x', x ∈ rows -> x' ∈ stored ->
                     Row.open_time x < Row.open_time x' -> x' ∈ rows).
Proof.
  intros Hready r stored. subst r.
  destruct (get_candle_data_ready pair limit (Some interval) db Hready) as (Hr & Htbl & _).
  set (sorted := merge_sort DatabaseManager.newer_first stored).
  exists (merge_sort DatabaseManager.older_first (DatabaseManager.sql_limit limit sorted)).
  split; [exact Hr|]. split; [exact Htbl|].
  assert (sorted ≡ₚ stored) as Hperm by apply merge_sort_Permutation.
  assert (StronglySorted DatabaseManager.newer_first sorted) as Hsorted
    by apply (@StronglySorted_merge_sort _ _ _ newer_first_transitive newer_first_total).
  split; [apply (@StronglySorted_merge_sort _ _ _ older_first_transitive older_first_total)|].
  split; [|split].
  - intros x Hx. rewrite merge_sort_Permutation in Hx. rewrite <- Hperm.
    destruct (sql_limit_cases limit sorted) as [[_ Heq]|[_ Heq]]; rewrite Heq in Hx; [done|].
    eapply elem_of_sublist; [exact Hx | apply sublist_take].
  - rewrite (Permutation_length (merge_sort_Permutation _ _)), <- (Permutation_length Hperm).
    unfold DatabaseManager.sql_limit. destruct (limit <? 0); [done|]. apply length_take.
  - intros x x' Hx Hx' Hlt. rewrite merge_sort_Permutation in Hx |- *.
    rewrite <- Hperm in Hx'.
    destruct (sql_limit_cases limit sorted) as [[_ Heq]|[_ Heq]]; rewrite Heq in *; [done|].
    rewrite <- (take_drop (Z.to_nat limit) sorted) in Hx', Hsorted.
    apply elem_of_app in Hx' as [Hx'|Hx']; [done|].
    pose proof (StronglySorted_app_1_elem_of _ _ _ _ _ Hsorted Hx Hx') as Hle.
    unfold DatabaseManager.newer_first in Hle. lia.
Qed.

Lemma get_candle_data_newest_witness :
  let db := (DatabaseManager.save_candle_data Examples.ext_no_talib
               [Examples.bar_at 3000 3%float; Examples.bar_at 1000 1%float;
                Examples.bar_at 2000 2%float]
               "X" "1m" Examples.db0).1.2 in
  DatabaseConnectionPool.ready (DatabaseManager.pool db) = true
  /\ (DatabaseManager.get_candle_data "X" 2 (Some "1m") db).1
     = Ok (DataFrame.of_rows [Row.mk "X" "1m" (Examples.bar_at 2000 2%float);
                              Row.mk "X" "1m" (Examples.bar_at 3000 3%float)])
  /\ exists rows,
       (DatabaseManager.get_candle_data "X" 2 (Some "1m") db).1 = Ok (DataFrame.of_rows rows)
       /\ StronglySorted DatabaseManager.older_first rows
       /\ length rows = 2%nat.
Proof.
  split; [reflexivity|]. split; [vm_compute; reflexivity|].
  destruct (get_candle_data_newest_ascending
              (DatabaseManager.save_candle_data Examples.ext_no_talib
                 [Examples.bar_at 3000 3%float; Examples.bar_at 1000 1%float;
                  Examples.bar_at 2000 2%float]
                 "X" "1m" Examples.db0).1.2 "X" "1m" 2 eq_refl)
    as (rows & Hr & _ & Hsorted & _ & Hlen & _).
  exists rows. split; [exact Hr|]. split; [exact Hsorted|]. exact Hlen.
Defined.

(** ** Writing the candle store *)

Section StoreWrites.

Import DatabaseManager.

Lemma insert_or_replace_unique r tbl :
  CandleKey.unique tbl -> CandleKey.unique (insert_or_replace r tbl).
Proof.
  unfold CandleKey.unique, insert_or_replace. intros Hnd.
  rewrite fmap_app. apply NoDup_app. split; [|split].
  - eapply sublist_NoDup; [exact Hnd|]. apply fmap_sublist, sublist_filter.
  - intros k Hk Hk'. apply list_elem_of_singleton in Hk'. subst k.
    apply list_elem_of_fmap in Hk as (r' & Heq & Hin).
    apply list_elem_of_filter in Hin as [Hnot _].
    assert (Is_true (Row.has_key (Row.pair r) (Row.interval r) (Row.open_time r) r')) as Hk
      by (apply has_key_key; symmetry; exact Heq).
    by destruct (Row.has_key _ _ _ r').
  - apply NoDup_singleton.
Qed.

Lemma executemany_unique pair interval df : forall tbl,
  CandleKey.unique tbl -> CandleKey.unique (executemany pair interval df tbl).
Proof.
  induction df as [|b df IH]; intros tbl Hu; [done|].
  change (executemany pair interval (b :: df) tbl)
    with (executemany pair interval df (insert_or_replace (Row.mk pair interval b) tbl)).
  by apply IH, insert_or_replace_unique.
Qed.

Lemma executemany_rows_from pair interval df : forall tbl r,
  r ∈ executemany pair interval df tbl ->
  r ∈ tbl \/ exists b, b ∈ df /\ r = Row.mk pair interval b.
Proof.
  induction df as [|b df IH]; intros tbl r; [by left|].
  change (executemany pair interval (b :: df) tbl)
    with (executemany pair interval df (insert_or_replace (Row.mk pair interval b) tbl)).
  intros [Hin|(b' & Hb' & ->)]%IH.
  - unfold insert_or_replace in Hin. apply elem_of_app in Hin as [Hin|Hin].
    + apply list_elem_of_filter in Hin as [_ Hin]. by left.
    + apply list_elem_of_singleton in Hin as ->. right. exists b. split; [left|done].
  - right. exists b'. split; [by right|done].
Qed.

Lemma in_frame_series pair interval df r :
  in_frame pair interval df r -> CandleKey.of_series pair interval r.
Proof.
  unfold in_frame. induction df as [|b df IH]; simpl; [done|].
  intros [Hk|Hin]%orb_True; [|by apply IH].
  apply has_key_key in Hk. apply of_series_spec.
  unfold CandleKey.key in Hk. by injection Hk.
Qed.

Lemma executemany_other_series pair interval df tbl p' i' :
  (p', i') <> (pair, interval) ->
  filter (fun r => CandleKey.of_series p' i' r) (executemany pair interval df tbl)
  = filter (fun r => CandleKey.of_series p' i' r) tbl.
Proof.
  intros Hne. rewrite executemany_split, filter_app, list_filter_filter.
  rewrite (list_empty_of_no_elem (filter _ (executemany pair interval df []))).
  - rewrite app_nil_r. apply list_filter_iff. intros r. split; [tauto|].
    intros Hr. split; [done|].
    destruct (in_frame pair interval df r) eqn:Hin; [|done].
    apply Is_true_true_2, in_frame_series, of_series_spec in Hin as [<- <-].
    apply of_series_spec in Hr as [<- <-]. done.
  - intros r [Hr Hin]%list_elem_of_filter.
    apply executemany_rows in Hin as [Hin|Hin]; [by apply elem_of_nil in Hin|].
    apply in_frame_series, of_series_spec in Hin as [<- <-].
    apply of_series_spec in Hr as [<- <-]. done.
Qed.

Lemma with_connection_exhausted {A} (body : list Row.t -> res A * list Row.t) db :
  DatabaseConnectionPool.pool (pool db) = [] ->
  0 <= DatabaseConnectionPool.timeout (pool db) ->
  with_connection body db = (Err (Exception "Database connection timeout"), db).
Proof.
  destruct db as [[mx tmo q act] tbl]. simpl. intros -> Htmo.
  unfold with_connection, DatabaseConnectionPool.get_connection. simpl.
  destruct (tmo <? 0) eqn:Hneg; [apply Z.ltb_lt in Hneg; lia|done].
Qed.

Lemma foldl_max_spec (ts : list Z) : forall t0,
  foldl Z.max t0 ts ∈ t0 :: ts /\ (forall t, t ∈ t0 :: ts -> t <= foldl Z.max t0 ts).
Proof.
  induction ts as [|t1 ts IH]; intros t0; simpl.
  - split; [left|]. intros t ?%list_elem_of_singleton. lia.
  - destruct (IH (Z.max t0 t1)) as [Hin Hmax]. split.
    + apply elem_of_cons in Hin as [Heq|Hin]; [|by right; right].
      rewrite Heq. destruct (Z.max_spec t0 t1) as [[_ ->]|[_ ->]]; [right; left|left].
    + intros t Ht. apply elem_of_cons in Ht as [->|Ht].
      * etrans; [|apply Hmax; left]. lia.
      * apply elem_of_cons in Ht as [->|Ht].
        -- etrans; [|apply Hmax; left]. lia.
        -- apply Hmax. by right.
Qed.

Lemma get_latest_candle_time_ready pair db :
  DatabaseConnectionPool.ready (pool db) = true ->
  let r := get_latest_candle_time pair db in
  r.1 = Ok (match map Row.open_time (filter (fun x => String.eqb (Row.pair x) pair) (candles db)) with
            | [] => None
            | t0 :: ts => if foldl Z.max t0 ts =? 0 then None else Some (foldl Z.max t0 ts)
            end)
  /\ candles r.2 = candles db.
Proof.
  intros Hready. unfold get_latest_candle_time.
  destruct (with_connection_ready
              (fun tbl =>
                 let times := map Row.open_time
                                (filter (fun r => String.eqb (Row.pair r) pair) tbl) in
                 (Ok (match times with
                      | [] => None
                      | t0 :: ts => let m := foldl Z.max t0 ts in if m =? 0 then None else Some m
                      end), tbl))
              db Hready) as (Hr & Htbl & _).
  split; [exact Hr | exact Htbl].
Qed.

End StoreWrites.

(** X5. A write keeps the primary key a key and stays within its series:
    on a manager that can hand out a connection, for a pair and an
    interval without a quote, if no two rows of the table share a primary
    key before [save_candle_data] then none do after it; the rows of
    every other pair or interval are the same rows in the same order; and
    every row of the table afterwards was there before or is a row of the
    frame under the pair and interval given. *)
Theorem save_candle_data_keeps_key_and_other_series
    (ext : Extern) (db : DatabaseManager.t) (pair interval : string) (df : list Bar.t) :
  DatabaseConnectionPool.ready (DatabaseManager.pool db) = true ->
  DatabaseManager.quote_free pair = true ->
  DatabaseManager.quote_free interval = true ->
  let after := DatabaseManager.candles
                 (DatabaseManager.save_candle_data ext df pair interval db).1.2 in
  (CandleKey.unique (DatabaseManager.candles db) -> CandleKey.unique after)
  /\ (forall p' i', (p', i') <> (pair, interval) ->
        filter (fun r => CandleKey.of_series p' i' r) after
        = filter (fun r => CandleKey.of_series p' i' r) (DatabaseManager.candles db))
  /\ (forall r, r ∈ after ->
        r ∈ DatabaseManager.candles db \/ exists b, b ∈ df /\ r = Row.mk pair interval b).
Proof.
  intros Hready Hp Hi after.
  destruct (save_candle_data_ready ext df pair interval db Hready Hp Hi) as (_ & Heq & _).
  subst after. rewrite Heq. split; [apply executemany_unique|].
  split; [intros p' i'; apply executemany_other_series | apply executemany_rows_from].
Qed.

Lemma save_candle_data_keeps_key_witness :
  let db := (DatabaseManager.save_candle_data Examples.ext_no_talib
               [Examples.bar_at 1000 1%float] "Y" "1m" Examples.db0).1.2 in
  let after := DatabaseManager.candles
                 (DatabaseManager.save_candle_data Examples.ext_no_talib
                    [Examples.bar_at 1000 2%float; Examples.bar_at 2000 3%float] "X" "1m" db).1.2 in
  DatabaseConnectionPool.ready (DatabaseManager.pool db) = true
  /\ CandleKey.unique after
  /\ filter (fun r => CandleKey.of_series "Y" "1m" r) after
     = [Row.mk "Y" "1m" (Examples.bar_at 1000 1%float)].
Proof.
  split; [reflexivity|].
  destruct (save_candle_data_keeps_key_and_other_series Examples.ext_no_talib
              (DatabaseManager.save_candle_data Examples.ext_no_talib
                 [Examples.bar_at 1000 1%float] "Y" "1m" Examples.db0).1.2
              "X" "1m" [Examples.bar_at 1000 2%float; Examples.bar_at 2000 3%float]
              eq_refl eq_refl eq_refl) as (Hu & Hother & _).
  split.
  - apply Hu. vm_compute. apply NoDup_singleton.
  - rewrite Hother; [reflexivity | discriminate].
Defined.

(** X6. What is written is read back: on a manager that can hand out a
    connection, for a pair and an interval without a quote, after
    [save_candle_data] a query of that pair and interval whose limit is
    negative, or not below the number of stored rows of the series,
    returns a series in which, for every [open_time] the frame wrote,
    exactly one row has that [open_time], and it carries the values of
    the last bar of the frame with it. *)
Theorem saved_candles_are_read_back
    (ext : Extern) (db : DatabaseManager.t) (pair interval : string) (df : list Bar.t)
    (limit : Z) :
  DatabaseConnectionPool.ready (DatabaseManager.pool db) = true ->
  DatabaseManager.quote_free pair = true ->
  DatabaseManager.quote_free interval = true ->
  let db1 := (DatabaseManager.save_candle_data ext df pair interval db).1.2 in
  limit < 0
  \/ Z.of_nat (length (filter (fun r => CandleKey.of_series pair interval r)
                         (DatabaseManager.candles db1))) <= limit ->
  exists rows,
    (DatabaseManager.get_candle_data pair limit (Some interval) db1).1
    = Ok (DataFrame.of_rows rows)
    /\ forall ot b,
         last (filter (fun x => Bar.open_time x = ot) df) = Some b ->
         filter (fun r => Row.open_time r = ot) rows = [Row.mk pair interval b].
Proof.
  intros Hready Hp Hi db1 Hlimit.
  destruct (save_candle_data_ready ext df pair interval db Hready Hp Hi) as (_ & Heq & Hready1).
  fold db1 in Heq, Hready1.
  destruct (get_candle_data_ready pair limit (Some interval) db1 Hready1) as (Hr & _ & _).
  eexists. split; [exact Hr|]. intros ot b Hlast.
  apply Permutation_singleton_r.
  rewrite merge_sort_Permutation. unfold DatabaseManager.select_candles.
  set (stored := filter _ (DatabaseManager.candles db1)).
  assert (DatabaseManager.sql_limit limit (merge_sort DatabaseManager.newer_first stored)
          = merge_sort DatabaseManager.newer_first stored) as ->.
  { unfold DatabaseManager.sql_limit. destruct (limit <? 0) eqn:Hneg; [done|].
    apply Z.ltb_ge in Hneg. destruct Hlimit as [?|Hlen]; [lia|].
    apply take_ge. rewrite (Permutation_length (merge_sort_Permutation _ _)).
    change (Z.of_nat (length stored) <= limit) in Hlen. lia. }
  rewrite merge_sort_Permutation. subst stored. rewrite list_filter_filter.
  rewrite <- (executemany_key pair interval ot df (DatabaseManager.candles db) b Hlast).
  rewrite Heq.
  rewrite (list_filter_iff _ (fun r => Row.has_key pair interval ot r)); [done|].
  intros r. rewrite has_key_key. unfold CandleKey.key.
  split.
  - intros [<- Hs]. apply (of_series_spec pair interval r) in Hs as [<- <-]. done.
  - intros [= <- <- <-]. split; [done|]. by apply (of_series_spec (Row.pair r) (Row.interval r) r).
Qed.

Lemma saved_candles_are_read_back_witness :
  let db1 := (DatabaseManager.save_candle_data Examples.ext_no_talib
                [Examples.bar_at 1000 1%float; Examples.bar_at 1000 2%float]
                "X" "1m" Examples.db0).1.2 in
  DatabaseConnectionPool.ready (DatabaseManager.pool Examples.db0) = true
  /\ (DatabaseManager.get_candle_data "X" 500 (Some "1m") db1).1
     = Ok (DataFrame.of_rows [Row.mk "X" "1m" (Examples.bar_at 1000 2%float)])
  /\ exists rows,
       (DatabaseManager.get_candle_data "X" 500 (Some "1m") db1).1 = Ok (DataFrame.of_rows rows)
       /\ filter (fun r => Row.open_time r = 1000) rows
          = [Row.mk "X" "1m" (Examples.bar_at 1000 2%float)].
Proof.
  split; [reflexivity|]. split; [vm_compute; reflexivity|].
  destruct (saved_candles_are_read_back Examples.ext_no_talib Examples.db0 "X" "1m"
              [Examples.bar_at 1000 1%float; Examples.bar_at 1000 2%float] 500
              eq_refl eq_refl eq_refl) as (rows & Hr & Hback).
  - right. vm_compute. discriminate.
  - exists rows. split; [exact Hr|]. apply Hback. reflexivity.
Defined.

(** X7. On a manager that can hand out a connection,
    [clear_cache_for_pair] returns the number of rows it deleted; no row
    of the pair is left, the rows of every other pair are the same rows in
    the same order, and afterwards a query of the pair returns an empty
    series, whatever the interval and the limit, and the pair has no
    latest candle time. *)
Theorem clear_cache_for_pair_removes_the_pair (db : DatabaseManager.t) (pair_symbol : string) :
  DatabaseConnectionPool.ready (DatabaseManager.pool db) = true ->
  let r := DatabaseManager.clear_cache_for_pair pair_symbol db in
  let after := DatabaseManager.candles r.2 in
  r.1 = Ok (Z.of_nat (length (DatabaseManager.candles db)) - Z.of_nat (length after))
  /\ (forall x, x ∈ after -> Row.pair x <> pair_symbol)
  /\ after = filter (fun x => Row.pair x <> pair_symbol) (DatabaseManager.candles db)
  /\ (forall limit timeframe,
        (DatabaseManager.get_candle_data pair_symbol limit timeframe r.2).1
        = Ok (DataFrame.of_rows []))
  /\ (DatabaseManager.get_latest_candle_time pair_symbol r.2).1 = Ok None.
Proof.
  intros Hready r after.
  destruct (with_connection_ready
              (fun tbl =>
                 (Ok (Z.of_nat (length (filter (fun r => String.eqb (Row.pair r) pair_symbol) tbl))),
                  filter (fun r => negb (String.eqb (Row.pair r) pair_symbol)) tbl))
              db Hready) as (Hr & Htbl & Hready').
  change (DatabaseManager.with_connection _ db) with r in Hr, Htbl, Hready'.
  cbn [fst snd] in Hr, Htbl. fold after in Htbl.
  assert (after = filter (fun x => Row.pair x <> pair_symbol) (DatabaseManager.candles db)) as Hafter.
  { rewrite Htbl. apply list_filter_iff. intros x.
    destruct (String.eqb_spec (Row.pair x) pair_symbol); simpl; tauto. }
  assert (forall x, x ∈ after -> Row.pair x <> pair_symbol) as Hnone.
  { intros x. rewrite Hafter. by intros [? _]%list_elem_of_filter. }
  split; [|split; [exact Hnone|split; [exact Hafter|split]]].
  - rewrite Hr. f_equal. rewrite Hafter.
    pose proof (filter_app_complement (fun x => Row.pair x = pair_symbol)
                  (DatabaseManager.candles db)) as Hperm.
    apply Permutation_length in Hperm. rewrite length_app in Hperm.
    rewrite (list_filter_iff (fun r => String.eqb (Row.pair r) pair_symbol)
               (fun x => Row.pair x = pair_symbol)).
    + lia.
    + intros x. destruct (String.eqb_spec (Row.pair x) pair_symbol); simpl; tauto.
  - intros limit timeframe.
    destruct (get_candle_data_ready pair_symbol limit timeframe r.2 Hready') as (Hget & _).
    rewrite Hget. fold after. unfold DatabaseManager.select_candles.
    destruct timeframe as [interval|]; [|done].
    rewrite (list_empty_of_no_elem (filter _ after));
      [change (merge_sort DatabaseManager.newer_first []) with (@nil Row.t);
       unfold DatabaseManager.sql_limit; destruct (limit <? 0); rewrite ?take_nil; done|].
    intros x [Hx Hin]%list_elem_of_filter. apply (Hnone x Hin).
    by destruct (String.eqb_spec (Row.pair x) pair_symbol).
  - destruct (get_latest_candle_time_ready pair_symbol r.2 Hready') as [Hlatest _].
    rewrite Hlatest. fold after.
    rewrite (list_empty_of_no_elem (filter _ after)); [done|].
    intros x [Hx Hin]%list_elem_of_filter. apply (Hnone x Hin).
    by destruct (String.eqb_spec (Row.pair x) pair_symbol).
Qed.

Lemma clear_cache_for_pair_witness :
  let db := (DatabaseManager.save_candle_data Examples.ext_no_talib
               [Examples.bar_at 1000 1%float; Examples.bar_at 2000 2%float]
               "X" "1m" Examples.db_old).1.2 in
  let db' := (DatabaseManager.save_candle_data Examples.ext_no_talib
                [Examples.bar_at 1000 1%float] "Y" "1m" db).1.2 in
  DatabaseConnectionPool.ready (DatabaseManager.pool db') = true
  /\ (DatabaseManager.clear_cache_for_pair "X" db').1 = Ok 3
  /\ DatabaseManager.candles (DatabaseManager.clear_cache_for_pair "X" db').2
     = [Row.mk "Y" "1m" (Examples.bar_at 1000 1%float)].
Proof.
  split; [reflexivity|].
  destruct (clear_cache_for_pair_removes_the_pair
              (DatabaseManager.save_candle_data Examples.ext_no_talib
                 [Examples.bar_at 1000 1%float] "Y" "1m"
                 (DatabaseManager.save_candle_data Examples.ext_no_talib
                    [Examples.bar_at 1000 1%float; Examples.bar_at 2000 2%float]
                    "X" "1m" Examples.db_old).1.2).1.2 "X" eq_refl) as (Hcount & _ & Hafter & _).
  split.
  - rewrite Hcount. vm_compute. reflexivity.
  - rewrite Hafter. vm_compute. reflexivity.
Defined.

(** X8. On a manager that can hand out a connection,
    [get_latest_candle_time] leaves the table as it is and returns a time
    only if it is not zero, is the [open_time] of a stored row of the pair
    and no stored row of the pair is later; it returns [None] when the
    pair has no row, and also when the latest [open_time] of the pair is
    0, which the truth test of the source takes for no result. *)
Theorem get_latest_candle_time_is_the_maximum (db : DatabaseManager.t) (pair : string) :
  DatabaseConnectionPool.ready (DatabaseManager.pool db) = true ->
  let r := DatabaseManager.get_latest_candle_time pair db in
  let times := map Row.open_time
                 (filter (fun x => String.eqb (Row.pair x) pair) (DatabaseManager.candles db)) in
  DatabaseManager.candles r.2 = DatabaseManager.candles db
  /\ (forall m, r.1 = Ok (Some m) <-> m <> 0 /\ m ∈ times /\ forall t, t ∈ times -> t <= m)
  /\ (r.1 = Ok None <-> times = [] \/ (0 ∈ times /\ forall t, t ∈ times -> t <= 0)).
Proof.
  intros Hready r times.
  destruct (get_latest_candle_time_ready pair db Hready) as [Hr Htbl].
  fold r in Hr, Htbl. fold times in Hr.
  split; [exact Htbl|]. rewrite Hr. clear Hr Htbl.
  destruct times as [|t0 ts].
  - split; [|split; [by left|done]].
    intros m. split; [done|]. by intros (_ & ?%elem_of_nil & _).
  - cbv zeta. destruct (foldl_max_spec ts t0) as [Hin Hmax].
    set (mx := foldl Z.max t0 ts) in *.
    assert (forall m, m ∈ t0 :: ts -> (forall t, t ∈ t0 :: ts -> t <= m) -> m = mx) as Huniq.
    { intros m Hm Hle. specialize (Hle mx Hin). specialize (Hmax m Hm). lia. }
    destruct (Z.eqb_spec mx 0) as [H0|H0].
    + split.
      * intros m. split; [done|]. intros (Hm0 & Hm & Hle). specialize (Huniq m Hm Hle). lia.
      * split; [intros _; right|done]. rewrite <- H0. by split.
    + split.
      * intros m. split.
        -- intros [= <-]. by split.
        -- intros (_ & Hm & Hle). by rewrite (Huniq m Hm Hle).
      * split; [done|]. intros [?|[Hz Hle]]; [done|]. specialize (Huniq 0 Hz Hle). lia.
Qed.

Lemma get_latest_candle_time_witness :
  let db := (DatabaseManager.save_candle_data Examples.ext_no_talib
               [Examples.bar_at 0 1%float] "Z" "1m"
               (DatabaseManager.save_candle_data Examples.ext_no_talib
                  [Examples.bar_at 3000 3%float; Examples.bar_at 1000 1%float]
                  "X" "1m" Examples.db0).1.2).1.2 in
  DatabaseConnectionPool.ready (DatabaseManager.pool db) = true
  /\ (DatabaseManager.get_latest_candle_time "X" db).1 = Ok (Some 3000)
  /\ (DatabaseManager.get_latest_candle_time "Z" db).1 = Ok None.
Proof.
  split; [reflexivity|].
  pose (db := (DatabaseManager.save_candle_data Examples.ext_no_talib
                 [Examples.bar_at 0 1%float] "Z" "1m"
                 (DatabaseManager.save_candle_data Examples.ext_no_talib
                    [Examples.bar_at 3000 3%float; Examples.bar_at 1000 1%float]
                    "X" "1m" Examples.db0).1.2).1.2).
  destruct (get_latest_candle_time_is_the_maximum db "X" eq_refl) as (_ & HX & _).
  destruct (get_latest_candle_time_is_the_maximum db "Z" eq_refl) as (_ & _ & HZ).
  split.
  - apply HX. split; [discriminate|]. split.
    + vm_compute. left.
    + vm_compute. intros t Ht.
      apply elem_of_cons in Ht as [->|Ht]; [discriminate|].
      apply elem_of_cons in Ht as [->|Ht]; [discriminate|]. by apply elem_of_nil in Ht.
  - apply HZ. right. split.
    + vm_compute. left.
    + vm_compute. intros t Ht.
      apply elem_of_cons in Ht as [->|Ht]; [discriminate|]. by apply elem_of_nil in Ht.
Defined.

(** X9. The scoped acquisition gives its connection back: if the call
    ends at all, the queue holds the same connections as before, the
    settings and the count of connections made are unchanged, whether the
    body returned or raised and whether a connection was obtained or not.
    And on a manager that can hand out a connection the call ends as the
    body did, with the table the body left, and the manager can hand out
    a connection again. *)
Theorem connection_is_always_returned {A : Type}
    (body : list Row.t -> res A * list Row.t) (db : DatabaseManager.t) :
  let r := DatabaseManager.with_connection body db in
  r.1 <> Hang ->
  (DatabaseConnectionPool.pool (DatabaseManager.pool r.2)
   ≡ₚ DatabaseConnectionPool.pool (DatabaseManager.pool db))
  /\ DatabaseConnectionPool.max_connections (DatabaseManager.pool r.2)
     = DatabaseConnectionPool.max_connections (DatabaseManager.pool db)
  /\ DatabaseConnectionPool.timeout (DatabaseManager.pool r.2)
     = DatabaseConnectionPool.timeout (DatabaseManager.pool db)
  /\ DatabaseConnectionPool.active_connections (DatabaseManager.pool r.2)
     = DatabaseConnectionPool.active_connections (DatabaseManager.pool db)
  /\ (DatabaseConnectionPool.ready (DatabaseManager.pool db) = true ->
      r.1 = (body (DatabaseManager.candles db)).1
      /\ DatabaseManager.candles r.2 = (body (DatabaseManager.candles db)).2
      /\ DatabaseConnectionPool.ready (DatabaseManager.pool r.2) = true).
Proof.
  intros r Hends.
  split; [|split; [|split; [|split; [|apply with_connection_ready]]]];
    subst r; revert Hends;
    unfold DatabaseManager.with_connection, DatabaseConnectionPool.get_connection,
      DatabaseConnectionPool.return_connection;
    destruct db as [[mx tmo q act] tbl]; cbn [DatabaseManager.pool DatabaseManager.candles
      DatabaseConnectionPool.pool DatabaseConnectionPool.timeout
      DatabaseConnectionPool.max_connections DatabaseConnectionPool.active_connections];
    destruct (tmo <? 0); [done| |done| |done| |done|];
    (destruct q as [|c q]; [done|]);
    cbn [DatabaseConnectionPool.pool DatabaseConnectionPool.timeout
      DatabaseConnectionPool.max_connections DatabaseConnectionPool.active_connections];
    destruct (body tbl) as [res tbl'];
    destruct (DatabaseConnectionPool.full _); cbn; try done.
  intros _. by rewrite Permutation_app_comm.
Qed.

Lemma connection_is_always_returned_witness :
  let r := DatabaseManager.with_connection
             (fun tbl => (@Err unit ValueError, tbl)) Examples.db0 in
  r.1 <> Hang
  /\ r.1 = Err ValueError
  /\ (DatabaseConnectionPool.pool (DatabaseManager.pool r.2)
      ≡ₚ DatabaseConnectionPool.pool (DatabaseManager.pool Examples.db0))
  /\ DatabaseConnectionPool.ready (DatabaseManager.pool r.2) = true.
Proof.
  assert ((DatabaseManager.with_connection
             (fun tbl => (@Err unit ValueError, tbl)) Examples.db0).1 <> Hang) as Hends
    by (vm_compute; discriminate).
  split; [exact Hends|].
  destruct (connection_is_always_returned (fun tbl => (@Err unit ValueError, tbl))
              Examples.db0 Hends) as (Hperm & _ & _ & _ & Hready).
  destruct (Hready eq_refl) as (Hr & _ & Hready').
  split; [exact Hr|]. split; [exact Hperm | exact Hready'].
Defined.

(** X10. With no connection in the queue and nobody to release one, every
    operation of the manager that needs the store raises the timeout
    error and leaves the manager as it was. [save_candle_data] is no
    exception: its handler covers the statement, not the acquisition, so
    the error reaches the caller and nothing is logged; only the write of
    an empty frame, which asks for no connection, still returns. *)
Theorem exhausted_pool_raises_from_every_operation (ext : Extern) (db : DatabaseManager.t) :
  DatabaseConnectionPool.pool (DatabaseManager.pool db) = [] ->
  0 <= DatabaseConnectionPool.timeout (DatabaseManager.pool db) ->
  let timed_out {A} : res A := Err (Exception "Database connection timeout") in
  (forall pair limit timeframe,
     DatabaseManager.get_candle_data pair limit timeframe db = (timed_out, db))
  /\ (forall pair, DatabaseManager.get_latest_candle_time pair db = (timed_out, db))
  /\ (forall pair, DatabaseManager.clear_cache_for_pair pair db = (timed_out, db))
  /\ DatabaseManager._initialize_db db = (timed_out, db)
  /\ (forall df pair interval,
        df <> [] ->
        DatabaseManager.save_candle_data ext df pair interval db = (timed_out, db, []))
  /\ (forall pair interval,
        DatabaseManager.save_candle_data ext [] pair interval db = (Ok (), db, [])).
Proof.
  intros Hempty Htmo timed_out.
  split; [intros; by apply with_connection_exhausted|].
  split; [intros; by apply with_connection_exhausted|].
  split; [intros; by apply with_connection_exhausted|].
  split; [by apply with_connection_exhausted|].
  split; [|done].
  intros df pair interval Hdf. unfold DatabaseManager.save_candle_data.
  destruct df as [|b df]; [done|].
  destruct (_ && _); [by rewrite with_connection_exhausted|].
  destruct (sqlite_spliced ext pair interval (b :: df) (DatabaseManager.candles db));
    by rewrite with_connection_exhausted.
Qed.

Lemma exhausted_pool_witness :
  let db := DatabaseManager.mk Examples.pool3_drained [] in
  DatabaseConnectionPool.pool (DatabaseManager.pool db) = []
  /\ DatabaseManager.save_candle_data Examples.ext_no_talib [Examples.bar_at 1000 1%float]
       "X" "1m" db
     = (Err (Exception "Database connection timeout"), db, []).
Proof.
  split; [reflexivity|].
  assert (0 <= DatabaseConnectionPool.timeout
                 (DatabaseManager.pool (DatabaseManager.mk Examples.pool3_drained [])))
    as Htmo by (vm_compute; discriminate).
  destruct (exhausted_pool_raises_from_every_operation Examples.ext_no_talib
              (DatabaseManager.mk Examples.pool3_drained []) eq_refl Htmo)
    as (_ & _ & _ & _ & Hsave & _).
  apply Hsave. discriminate.
Defined.

(** ** The mock exchange *)

Section MockExchange.

Import MockExchangeAPI.

Lemma split_last_snoc s c : split_last (s +:+ String c EmptyString) = Some (s, c).
Proof.
  induction s as [|a s IH]; [done|].
  change (String a s +:+ String c EmptyString) with (String a (s +:+ String c EmptyString)).
  cbn [split_last]. by rewrite IH.
Qed.

Lemma arange_lookup start stop step i :
  (i < Z.to_nat (- ((- (stop - start)) / step)))%nat ->
  arange start stop step !! i = Some (start + Z.of_nat i * step).
Proof.
  intros Hi. unfold arange.
  rewrite list_lookup_fmap, lookup_seq_lt by done. done.
Qed.

Lemma arange_length start stop step :
  length (arange start stop step) = Z.to_nat (- ((- (stop - start)) / step)).
Proof. unfold arange. by rewrite length_map, length_seq. Qed.

(** The timestamps of a fetch: [limit] of them, one [step] apart, up to
    the last multiple of [step] before [stop]. *)
Lemma arange_back stop step limit :
  step <> 0 -> 0 <= limit ->
  arange (stop - limit * step) stop step
  = (fun i => stop - (limit - Z.of_nat i) * step) <$> seq 0 (Z.to_nat limit).
Proof.
  intros Hstep Hlimit. unfold arange.
  replace (- (- (stop - (stop - limit * step)) / step)) with limit.
  - apply list_fmap_ext. intros i x _. lia.
  - replace (- (stop - (stop - limit * step))) with ((- limit) * step) by lia.
    rewrite Z.div_mul by done. lia.
Qed.

Lemma cumsum_from_length acc l : length (cumsum_from acc l) = length l.
Proof. revert acc. induction l as [|x l IH]; intros acc; simpl; [done|]. by rewrite IH. Qed.

Lemma cumsum_length l : length (cumsum l) = length l.
Proof. destruct l; simpl; [done|]. by rewrite cumsum_from_length. Qed.

End MockExchange.

(** X11. [_interval_to_seconds] goes by the last character alone: behind
    a text that [int] reads as [n], the units [m], [h] and [d] give
    [60 n], [3600 n] and [86400 n] seconds; behind a text that [int]
    rejects they raise [ValueError], so the bare units do; any other last
    character gives [None] without [int] being asked, and so does the
    empty text. *)
Theorem interval_to_seconds_goes_by_the_unit (ext : Extern) (digits : string) :
  (forall n, py_int ext digits = Some n ->
     MockExchangeAPI._interval_to_seconds ext (digits +:+ "m") = Ok (Some (n * 60))
     /\ MockExchangeAPI._interval_to_seconds ext (digits +:+ "h") = Ok (Some (n * 3600))
     /\ MockExchangeAPI._interval_to_seconds ext (digits +:+ "d") = Ok (Some (n * 86400)))
  /\ (py_int ext digits = None ->
      MockExchangeAPI._interval_to_seconds ext (digits +:+ "m") = Err ValueError
      /\ MockExchangeAPI._interval_to_seconds ext (digits +:+ "h") = Err ValueError
      /\ MockExchangeAPI._interval_to_seconds ext (digits +:+ "d") = Err ValueError)
  /\ (forall c, c <> "m"%char -> c <> "h"%char -> c <> "d"%char ->
        MockExchangeAPI._interval_to_seconds ext (digits +:+ String c EmptyString) = Ok None)
  /\ MockExchangeAPI._interval_to_seconds ext "" = Ok None.
Proof.
  unfold MockExchangeAPI._interval_to_seconds.
  split; [|split; [|split; [|done]]].
  - intros n Hn. rewrite !split_last_snoc, Hn. done.
  - intros Hn. rewrite !split_last_snoc, Hn. done.
  - intros c Hm Hh Hd. rewrite split_last_snoc.
    apply Ascii.eqb_neq in Hm, Hh, Hd. by rewrite Hm, Hh, Hd.
Qed.

Lemma interval_to_seconds_witness :
  MockExchangeAPI._interval_to_seconds Examples.ext_no_talib "5m" = Ok (Some 300)
  /\ MockExchangeAPI._interval_to_seconds Examples.ext_no_talib "4h" = Ok (Some 14400)
  /\ MockExchangeAPI._interval_to_seconds Examples.ext_no_talib "m" = Err ValueError
  /\ MockExchangeAPI._interval_to_seconds Examples.ext_no_talib "5s" = Ok None.
Proof.
  destruct (interval_to_seconds_goes_by_the_unit Examples.ext_no_talib "5") as (H5 & _ & Hs & _).
  destruct (interval_to_seconds_goes_by_the_unit Examples.ext_no_talib "4") as (H4 & _).
  destruct (interval_to_seconds_goes_by_the_unit Examples.ext_no_talib "") as (_ & Hbare & _).
  destruct (H5 5 eq_refl) as (Hm & _). destruct (H4 4 eq_refl) as (_ & Hh & _).
  destruct (Hbare eq_refl) as (Hb & _).
  split; [exact Hm|]. split; [exact Hh|]. split; [exact Hb|].
  apply (Hs "s"%char); discriminate.
Defined.

Section FreshFetch.

Import DatabaseManager MockExchangeAPI.

Lemma mock_data_open_times env timestamps :
  Bar.open_time <$> mock_data env timestamps = timestamps.
Proof.
  unfold mock_data. apply list_eq. intros i.
  rewrite list_lookup_fmap, list_lookup_imap.
  by destruct (timestamps !! i).
Qed.

Lemma mock_data_length env timestamps : length (mock_data env timestamps) = length timestamps.
Proof. unfold mock_data. apply length_imap. Qed.

Lemma filter_all_elem_of {A} (P : A -> Prop) `{forall x, Decision (P x)} (l : list A) :
  (forall x, x ∈ l -> P x) -> filter P l = l.
Proof.
  induction l as [|a l IH]; intros HP; [done|].
  rewrite filter_cons_True by (apply HP; left). rewrite IH; [done|].
  intros x Hx. apply HP. by right.
Qed.

(** On a table without a row of the series, a frame of bars with distinct
    times is appended as it is. *)
Lemma executemany_appends pair interval df tbl :
  NoDup (Bar.open_time <$> df) ->
  filter (fun r => CandleKey.of_series pair interval r) tbl = [] ->
  executemany pair interval df tbl = tbl ++ (Row.mk pair interval <$> df).
Proof.
  intros Hnd Hnone. induction df as [|b df IH] using rev_ind; [by rewrite app_nil_r|].
  rewrite fmap_app in Hnd. apply NoDup_app in Hnd as (Hnd & Hfresh & _).
  rewrite executemany_snoc, IH by done. unfold insert_or_replace.
  rewrite fmap_app, app_assoc. f_equal. apply filter_all_elem_of. intros r Hin.
  change (Row.open_time (Row.mk pair interval b)) with (Bar.open_time b).
  cbn [Row.pair Row.interval].
  destruct (Row.has_key pair interval (Bar.open_time b) r) eqn:Hk; [|exact I].
  apply Is_true_true_2, has_key_key in Hk.
  exfalso. apply elem_of_app in Hin as [Hin|Hin].
  - apply (filter_nil_not_elem_of _ _ r Hnone); [|done].
    apply of_series_spec. unfold CandleKey.key in Hk. by injection Hk.
  - apply list_elem_of_fmap in Hin as (b' & -> & Hb').
    unfold CandleKey.key in Hk. injection Hk as Hk.
    apply (Hfresh (Bar.open_time b')); [by apply list_elem_of_fmap_2|].
    change (Bar.open_time b' = Bar.open_time b) in Hk. rewrite Hk. cbn. left.
Qed.

Lemma save_candle_data_events ext df pair interval db :
  quote_free pair = true -> quote_free interval = true ->
  (save_candle_data ext df pair interval db).2 = [].
Proof. intros Hp Hi. unfold save_candle_data. destruct df; [done|]. by rewrite Hp, Hi. Qed.

Lemma older_first_rows pair interval df :
  StronglySorted Z.lt (Bar.open_time <$> df) ->
  StronglySorted older_first (Row.mk pair interval <$> df).
Proof.
  induction df as [|b df IH]; [constructor|].
  rewrite !fmap_cons. intros [Hall Hs]%StronglySorted_cons.
  constructor; [by apply IH|].
  apply Forall_forall. intros r (b' & -> & Hb')%list_elem_of_fmap.
  rewrite Forall_forall in Hall.
  specialize (Hall (Bar.open_time b') (list_elem_of_fmap_2 Bar.open_time _ _ Hb')).
  unfold older_first, Row.open_time. cbn. lia.
Qed.

Lemma increasing_times stop step limit :
  0 < step ->
  StronglySorted Z.lt
    ((fun i => stop - (limit - Z.of_nat i) * step) <$> seq 0 (Z.to_nat limit)).
Proof.
  intros Hstep. generalize (Z.to_nat limit). intros n. generalize 0%nat at 1. intros k.
  revert k. induction n as [|n IH]; intros k; [constructor|].
  cbn [seq]. rewrite fmap_cons. constructor; [apply IH|].
  apply Forall_forall. intros t (i & -> & Hi%elem_of_seq)%list_elem_of_fmap. nia.
Qed.

Lemma StronglySorted_lt_NoDup (l : list Z) : StronglySorted Z.lt l -> NoDup l.
Proof.
  induction 1 as [|x l _ IH Hall]; constructor; [|done].
  intros Hin. rewrite Forall_forall in Hall. specialize (Hall x Hin). lia.
Qed.

(** A series with distinct times has one ascending order only. *)
Lemma ascending_unique (l1 l2 : list Row.t) :
  NoDup (Row.open_time <$> l1) ->
  StronglySorted older_first l1 -> StronglySorted older_first l2 ->
  l1 ≡ₚ l2 -> l1 = l2.
Proof.
  intros Hnd Hs1 Hs2 Hperm.
  apply (StronglySorted_unique_strong older_first l1 l2); [|done..].
  intros x1 x2 Hx1 Hx2 H12 H21. rewrite <- Hperm in Hx2. unfold older_first in *.
  apply list_elem_of_lookup in Hx1 as [i1 Hi1]. apply list_elem_of_lookup in Hx2 as [i2 Hi2].
  assert (i1 = i2) as ->; [|congruence].
  apply (NoDup_lookup _ i1 i2 (Row.open_time x1) Hnd); rewrite list_lookup_fmap.
  - by rewrite Hi1.
  - rewrite Hi2. cbn. f_equal. lia.
Qed.

End FreshFetch.

Section FirstFetch.

Import DatabaseManager MockExchangeAPI.

Context (ext : Extern) (env : Env) (pair interval : string) (limit s : Z).

Hypothesis Hpair : quote_free pair = true.
Hypothesis Hinterval : quote_free interval = true.
Hypothesis Hparse : _interval_to_seconds ext interval = Ok (Some s).
Hypothesis Hs : 0 < s.
Hypothesis Hlimit : 0 <= limit.

Let stop : Z := Z.quot (time_time env) 1000 - Z.quot (time_time env) 1000 `mod` (s * 1000).
Let timestamps : list Z :=
  (fun i => stop - (limit - Z.of_nat i) * (s * 1000)) <$> seq 0 (Z.to_nat limit).
Let generated : list Row.t := Row.mk pair interval <$> mock_data env timestamps.

Lemma generated_open_times : Row.open_time <$> generated = timestamps.
Proof.
  unfold generated. rewrite <- list_fmap_compose.
  rewrite <- (mock_data_open_times env timestamps) at 2. by apply list_fmap_ext.
Qed.

Lemma generated_sorted : StronglySorted older_first generated.
Proof.
  apply older_first_rows. rewrite mock_data_open_times. apply increasing_times. lia.
Qed.

Lemma generated_length : length generated = Z.to_nat limit.
Proof.
  unfold generated, timestamps.
  by rewrite length_fmap, mock_data_length, length_fmap, length_seq.
Qed.

Lemma generate_on_empty_series db :
  DatabaseConnectionPool.ready (pool db) = true ->
  filter (fun r => CandleKey.of_series pair interval r) (candles db) = [] ->
  let r := generate ext env pair interval limit db in
  r.1.1 = Ok (DataFrame.of_rows generated)
  /\ candles r.1.2 = candles db ++ generated
  /\ r.2 = [].
Proof.
  intros Hready Hnone. unfold generate. rewrite Hparse.
  destruct (Z.eqb_spec (s * 1000) 0) as [?|_]; [lia|].
  replace (limit * s * 1000) with (limit * (s * 1000)) by lia.
  fold stop. rewrite arange_back by lia. fold timestamps.
  destruct (save_candle_data_ready ext (mock_data env timestamps) pair interval db
              Hready Hpair Hinterval) as (Hok & Htbl & Hready1).
  pose proof (save_candle_data_events ext (mock_data env timestamps) pair interval db
                Hpair Hinterval) as Hev.
  destruct (save_candle_data ext (mock_data env timestamps) pair interval db)
    as [[rs db1] ev]. cbn [fst snd] in Hok, Htbl, Hready1, Hev. subst rs ev.
  rewrite executemany_appends in Htbl; [|by rewrite mock_data_open_times;
    apply StronglySorted_lt_NoDup, increasing_times; lia|done].
  fold generated in Htbl.
  destruct (get_candle_data_ready pair limit (Some interval) db1 Hready1) as (Hget & Hsame & _).
  destruct (get_candle_data pair limit (Some interval) db1) as [rg db2].
  cbn [fst snd] in *. subst rg. rewrite Hsame, Htbl. split; [|done]. do 2 f_equal.
  unfold select_candles. rewrite filter_app.
  change (filter _ (candles db)) with
    (filter (fun r => CandleKey.of_series pair interval r) (candles db)).
  rewrite Hnone, app_nil_l.
  rewrite (filter_all_elem_of _ generated).
  - assert (sql_limit limit (merge_sort newer_first generated) = merge_sort newer_first generated)
      as ->.
    { unfold sql_limit. destruct (limit <? 0); [done|]. apply take_ge.
      rewrite (Permutation_length (merge_sort_Permutation _ _)), generated_length. lia. }
    symmetry. apply ascending_unique.
    + rewrite generated_open_times. apply StronglySorted_lt_NoDup, increasing_times. lia.
    + apply generated_sorted.
    + apply (@StronglySorted_merge_sort _ _ _ older_first_transitive older_first_total).
    + by rewrite !merge_sort_Permutation.
  - intros r (b & -> & _)%list_elem_of_fmap. cbn. by rewrite !String.eqb_refl.
Qed.

Lemma first_fetch_spec cfg force_fresh db :
  DatabaseConnectionPool.ready (pool db) = true ->
  filter (fun r => CandleKey.of_series pair interval r) (candles db) = [] ->
  let r := get_historical_data ext env cfg pair interval limit force_fresh db in
  r.1.1 = Ok (DataFrame.of_rows generated)
  /\ candles r.1.2 = candles db ++ generated
  /\ r.2 = [].
Proof.
  intros Hready Hnone. unfold get_historical_data.
  destruct force_fresh; [by apply generate_on_empty_series|].
  destruct (get_candle_data_ready pair limit (Some interval) db Hready) as (Hget & Hsame & Hready1).
  destruct (get_candle_data pair limit (Some interval) db) as [rg db1].
  cbn [fst snd] in *. subst rg.
  assert (select_candles pair (Some interval) limit (candles db) = []) as ->.
  { unfold select_candles.
    change (filter _ (candles db)) with
      (filter (fun r => CandleKey.of_series pair interval r) (candles db)).
    rewrite Hnone. unfold sql_limit.
    change (merge_sort newer_first []) with (@nil Row.t).
    destruct (limit <? 0); by rewrite ?take_nil. }
  change (merge_sort older_first []) with (@nil Row.t). cbn [DataFrame.empty DataFrame.rows
    DataFrame.of_rows negb andb].
  rewrite <- Hsame. apply generate_on_empty_series; [done | by rewrite Hsame].
Qed.

Lemma timestamps_aligned t :
  t ∈ timestamps -> t `mod` (s * 1000) = 0 /\ stop - limit * (s * 1000) <= t < stop.
Proof.
  intros (i & -> & Hi%elem_of_seq)%list_elem_of_fmap. split; [|nia].
  unfold stop.
  replace (Z.quot (time_time env) 1000 - Z.quot (time_time env) 1000 `mod` (s * 1000))
    with (Z.quot (time_time env) 1000 `div` (s * 1000) * (s * 1000))
    by (pose proof (Z.div_mod (Z.quot (time_time env) 1000) (s * 1000)); lia).
  replace (Z.quot (time_time env) 1000 `div` (s * 1000) * (s * 1000)
           - (limit - Z.of_nat i) * (s * 1000))
    with ((Z.quot (time_time env) 1000 `div` (s * 1000) - (limit - Z.of_nat i)) * (s * 1000))
    by lia.
  apply Z.mod_mul. lia.
Qed.

Lemma stop_bounds :
  stop <= Z.quot (time_time env) 1000 < stop + s * 1000.
Proof.
  unfold stop. pose proof (Z.mod_pos_bound (Z.quot (time_time env) 1000) (s * 1000)). lia.
Qed.

Lemma generated_last :
  0 < limit ->
  exists row, last generated = Some row /\ Row.open_time row = stop - s * 1000.
Proof.
  intros Hpos.
  assert (last timestamps = Some (stop - s * 1000)) as Hlast.
  { unfold timestamps. rewrite fmap_last.
    destruct (Z.to_nat limit) as [|n] eqn:Hn; [lia|].
    rewrite seq_S, last_snoc. cbn. f_equal. lia. }
  rewrite <- generated_open_times, fmap_last in Hlast.
  destruct (last generated) as [row|]; [|done].
  exists row. split; [done|]. by injection Hlast.
Qed.

End FirstFetch.

(** X12. The first fetch of a series: on a manager that can hand out a
    connection and holds no row of the pair and interval, for names
    without a quote, an interval of [s > 0] seconds and a limit that is
    not negative, [get_historical_data] (whether told to fetch afresh or
    not) returns exactly the candles it generated, in order, writes them
    behind the rows of the table and logs nothing. There are [limit] of
    them, one every [s] seconds, each on a multiple of the interval, the
    last one opening one interval before [stop], the clock in milliseconds
    rounded down to the interval. *)
Theorem first_fetch_returns_the_generated_candles
    (ext : Extern) (env : Env) (cfg : Config.t) (pair interval : string) (limit s : Z)
    (force_fresh : bool) (db : DatabaseManager.t) :
  DatabaseConnectionPool.ready (DatabaseManager.pool db) = true ->
  DatabaseManager.quote_free pair = true ->
  DatabaseManager.quote_free interval = true ->
  MockExchangeAPI._interval_to_seconds ext interval = Ok (Some s) ->
  0 < s -> 0 <= limit ->
  filter (fun r => CandleKey.of_series pair interval r) (DatabaseManager.candles db) = [] ->
  let step := s * 1000 in
  let now_ms := Z.quot (time_time env) 1000 in
  let stop := now_ms - now_ms `mod` step in
  let timestamps := (fun i => stop - (limit - Z.of_nat i) * step) <$> seq 0 (Z.to_nat limit) in
  let generated := Row.mk pair interval <$> MockExchangeAPI.mock_data env timestamps in
  let r := MockExchangeAPI.get_historical_data ext env cfg pair interval limit force_fresh db in
  r.1.1 = Ok (DataFrame.of_rows generated)
  /\ DatabaseManager.candles r.1.2 = DatabaseManager.candles db ++ generated
  /\ r.2 = []
  /\ Row.open_time <$> generated = timestamps
  /\ length generated = Z.to_nat limit
  /\ (forall t, t ∈ timestamps -> t `mod` step = 0 /\ stop - limit * step <= t < stop)
  /\ stop <= now_ms < stop + step.
Proof.
  intros Hready Hp Hi Hparse Hs Hlimit Hnone step now_ms stop timestamps generated r.
  destruct (first_fetch_spec ext env pair interval limit s Hp Hi Hparse Hs Hlimit
              cfg force_fresh db Hready Hnone) as (Hr & Htbl & Hev).
  split; [exact Hr|]. split; [exact Htbl|]. split; [exact Hev|].
  split; [apply generated_open_times|].
  split; [apply generated_length|].
  split; [apply timestamps_aligned; lia | apply stop_bounds; lia].
Qed.

Lemma first_fetch_witness :
  let r := MockExchangeAPI.get_historical_data Examples.ext_no_talib
             (Examples.env_at 1700000123456789) Config.shipped "X" "5m" 3 false Examples.db0 in
  DatabaseConnectionPool.ready (DatabaseManager.pool Examples.db0) = true
  /\ MockExchangeAPI._interval_to_seconds Examples.ext_no_talib "5m" = Ok (Some 300)
  /\ Row.open_time <$> DatabaseManager.candles r.1.2
     = [1699999200000; 1699999500000; 1699999800000]
  /\ r.2 = [].
Proof.
  split; [reflexivity|]. split; [reflexivity|].
  destruct (first_fetch_returns_the_generated_candles Examples.ext_no_talib
              (Examples.env_at 1700000123456789) Config.shipped "X" "5m" 3 300 false Examples.db0
              eq_refl eq_refl eq_refl eq_refl eq_refl) as (_ & Htbl & Hev & Htimes & _).
  - discriminate.
  - reflexivity.
  - split; [|exact Hev]. rewrite Htbl. rewrite fmap_app, Htimes. reflexivity.
Defined.

(** X13. The generated candles form one price path: each candle after
    the first opens at the close of the candle before it, the first opens
    at its own close, and the candle at position [i] opens at the [i]-th
    timestamp; there is one candle per timestamp. *)
Theorem mock_candles_open_at_the_previous_close (env : Env) (timestamps : list Z) :
  length (MockExchangeAPI.mock_data env timestamps) = length timestamps
  /\ (forall i b, MockExchangeAPI.mock_data env timestamps !! i = Some b ->
        timestamps !! i = Some (Bar.open_time b))
  /\ (forall b, MockExchangeAPI.mock_data env timestamps !! 0%nat = Some b ->
        Bar.open b = Bar.close b)
  /\ (forall i b b',
        MockExchangeAPI.mock_data env timestamps !! i = Some b ->
        MockExchangeAPI.mock_data env timestamps !! S i = Some b' ->
        Bar.open b' = Bar.close b).
Proof.
  split; [apply mock_data_length|]. unfold MockExchangeAPI.mock_data.
  split; [|split].
  - intros i b. rewrite list_lookup_imap. destruct (timestamps !! i); [|done].
    by intros [= <-].
  - intros b. rewrite list_lookup_imap. destruct (timestamps !! 0%nat); [|done].
    by intros [= <-].
  - intros i b b'. rewrite !list_lookup_imap.
    destruct (timestamps !! i); [|done]. destruct (timestamps !! S i); [|done].
    by intros [= <-] [= <-].
Qed.

(** X14. A series fetched afresh is already one interval old: under the
    conditions of the first fetch, with at least one candle asked for and
    the freshness check enabled, the report on the returned series at any
    clock [now] not before the fetch gives an age of at least [s]
    seconds, counted from one interval before [stop]; so whenever the
    maximum age of the configuration is below the interval, the series is
    stale the moment it is returned. *)
Theorem fetched_series_is_one_interval_old
    (ext : Extern) (env : Env) (cfg : Config.t) (pair interval : string) (limit s now : Z)
    (force_fresh : bool) (db : DatabaseManager.t) :
  DatabaseConnectionPool.ready (DatabaseManager.pool db) = true ->
  DatabaseManager.quote_free pair = true ->
  DatabaseManager.quote_free interval = true ->
  MockExchangeAPI._interval_to_seconds ext interval = Ok (Some s) ->
  0 < s -> 0 < limit ->
  filter (fun r => CandleKey.of_series pair interval r) (DatabaseManager.candles db) = [] ->
  Config.DATA_FRESHNESS_CHECK_ENABLED cfg = true ->
  0 <= time_time env <= now ->
  let now_ms := Z.quot (time_time env) 1000 in
  let stop := now_ms - now_ms `mod` (s * 1000) in
  let newest := (stop - s * 1000) * 1000 in
  exists data,
    (MockExchangeAPI.get_historical_data ext env cfg pair interval limit force_fresh db).1.1
    = Ok data
    /\ BaseExchangeAPI.last_timestamp
         (BaseExchangeAPI.validate_data_freshness cfg now data pair None) = Some newest
    /\ s * 1000000 <= now - newest
    /\ BaseExchangeAPI.is_fresh (BaseExchangeAPI.validate_data_freshness cfg now data pair None)
       = bool_decide (now - newest <= Config.MAX_DATA_AGE_SECONDS cfg * 1000000)
    /\ (Config.MAX_DATA_AGE_SECONDS cfg < s ->
        BaseExchangeAPI.is_fresh (BaseExchangeAPI.validate_data_freshness cfg now data pair None)
        = false).
Proof.
  intros Hready Hp Hi Hparse Hs Hlimit Hnone Hon [Hclock Hnow] now_ms stop newest.
  assert (0 <= limit) as Hlimit' by lia.
  destruct (first_fetch_spec ext env pair interval limit s Hp Hi Hparse Hs Hlimit'
              cfg force_fresh db Hready Hnone) as (Hr & _).
  destruct (generated_last env pair interval limit s Hlimit) as (row & Hlast & Htime).
  eexists. split; [exact Hr|].
  rewrite (validate_enabled cfg now (DataFrame.of_rows _) row pair None Hon Hlast). cbn.
  rewrite Htime. fold now_ms stop newest.
  assert (s * 1000000 <= now - newest) as Hage.
  { pose proof (stop_bounds env s Hs) as Hb. fold now_ms stop in Hb.
    assert (now_ms * 1000 <= time_time env).
    { subst now_ms. pose proof (Z.quot_rem' (time_time env) 1000).
      pose proof (Z.rem_nonneg (time_time env) 1000). lia. }
    subst newest. lia. }
  split; [done|]. split; [exact Hage|].
  assert ((now - newest <=? Config.MAX_DATA_AGE_SECONDS cfg * 1000000)
          = bool_decide (now - newest <= Config.MAX_DATA_AGE_SECONDS cfg * 1000000)) as Hdec.
  { destruct (Z.leb_spec (now - newest) (Config.MAX_DATA_AGE_SECONDS cfg * 1000000)).
    - by rewrite bool_decide_eq_true_2.
    - rewrite bool_decide_eq_false_2; [done|lia]. }
  split; [exact Hdec|]. intros Hmax. rewrite Hdec. apply bool_decide_eq_false_2. lia.
Qed.

Lemma fetched_series_witness :
  DatabaseConnectionPool.ready (DatabaseManager.pool Examples.db0) = true
  /\ 0 <= time_time (Examples.env_at 1700000123456789) <= 1700000123456789
  /\ exists data,
       (MockExchangeAPI.get_historical_data Examples.ext_no_talib
          (Examples.env_at 1700000123456789) Config.shipped "X" "5m" 3 false Examples.db0).1.1
       = Ok data
       /\ BaseExchangeAPI.is_fresh
            (BaseExchangeAPI.validate_data_freshness Config.shipped 1700000123456789 data "X" None)
          = false.
Proof.
  split; [reflexivity|].
  assert (0 <= time_time (Examples.env_at 1700000123456789) <= 1700000123456789) as Hclock
    by (cbn; lia).
  split; [exact Hclock|].
  destruct (fetched_series_is_one_interval_old Examples.ext_no_talib
              (Examples.env_at 1700000123456789) Config.shipped "X" "5m" 3 300 1700000123456789
              false Examples.db0 eq_refl eq_refl eq_refl eq_refl eq_refl eq_refl eq_refl eq_refl
              Hclock) as (data & Hr & _ & _ & Hfresh & _).
  exists data. split; [exact Hr|]. rewrite Hfresh. vm_compute. reflexivity.
Defined.

(** ** What the scheduler does to the engine *)

Section Scheduler.

Import CryptoBot.

Context (ext : Extern) (cfg : Config.t) (R : relation TradingEngine.t).
Hypothesis R_refl : forall eng, R eng eng.
Hypothesis R_trans : forall e1 e2 e3, R e1 e2 -> R e2 e3 -> R e1 e3.
Hypothesis R_execute :
  forall signals eng, R eng (TradingEngine.execute_trades cfg signals eng).1.2.

(** The engine moved along [R]; the clients, the pairs and the flag of
    the loop are the same. *)
Let kept (b b' : t) : Prop :=
  R (engine b) (engine b')
  /\ api_clients b' = api_clients b /\ pairs b' = pairs b /\ running b' = running b.

Lemma kept_refl b : kept b b.
Proof. by split; [apply R_refl|]. Qed.

Lemma kept_trans b1 b2 b3 : kept b1 b2 -> kept b2 b3 -> kept b1 b3.
Proof.
  intros (H1 & Ha1 & Hp1 & Hr1) (H2 & Ha2 & Hp2 & Hr2).
  split; [by eapply R_trans|]. split; [congruence|]. split; congruence.
Qed.

Lemma dispatch_kept exchange symbol signals b :
  kept b (dispatch cfg exchange symbol signals b).1.2.
Proof.
  unfold dispatch. destruct signals as [s|]; [|apply kept_refl].
  pose proof (R_execute (Signals.set_exchange exchange s) (engine b)) as HR.
  destruct (TradingEngine.execute_trades _ _ _) as [[[ok|e|] eng] ev]; by split.
Qed.

Lemma process_pair_kept env exchange symbol b :
  kept b (process_pair ext env cfg exchange symbol b).1.2.
Proof.
  unfold process_pair.
  destruct (MockExchangeAPI.get_historical_data _ _ _ _ _ _ _ _) as [[[data|e|] db] ev];
    cbn [fst snd]; [|by split; [apply R_refl|]..].
  destruct (_ || _); [by split; [apply R_refl|]|].
  destruct (TradingEngine.process_data _ _ _ _) as [[[|d dfs]|]|e|];
    [by split; [apply R_refl|]| |by split; [apply R_refl|]..].
  generalize (d :: dfs). clear d dfs. intros strategy_dfs.
  destruct (TradingEngine.check_signals _ _ _) as [signals|e|];
    [|by split; [apply R_refl|]..].
  match goal with |- context [dispatch cfg exchange symbol signals ?b2] =>
    pose proof (dispatch_kept exchange symbol signals b2) as Hd;
    destruct (dispatch cfg exchange symbol signals b2) as [[r b3] ev']
  end.
  exact Hd.
Qed.

Lemma gather_kept envs exchange todo : forall i b,
  kept b (gather ext envs cfg exchange i todo b).1.2.
Proof.
  induction todo as [|symbol todo IH]; intros i b; simpl; [apply kept_refl|].
  pose proof (process_pair_kept (envs i) exchange symbol b) as Hp.
  destruct (process_pair ext (envs i) cfg exchange symbol b) as [[r b1] ev].
  pose proof (IH (S i) b1) as Hg.
  destruct (gather ext envs cfg exchange (S i) todo b1) as [[done b2] ev'].
  cbn [fst snd] in *. destruct r; cbn [fst snd]; try exact Hp; by eapply kept_trans.
Qed.

Lemma run_tick_kept envs b : kept b (run_tick ext envs cfg b).1.2.
Proof. unfold run_tick. case_bool_decide; [apply gather_kept | apply kept_refl]. Qed.

Lemma run_ticks_kept envs n : forall k b, kept b (run_ticks ext envs cfg n k b).1.2.
Proof.
  induction n as [|n IH]; intros k b; simpl; [apply kept_refl|].
  pose proof (run_tick_kept (envs k) b) as Ht.
  destruct (run_tick ext (envs k) cfg b) as [[tasks b1] ev].
  pose proof (IH (S k) b1) as Hl.
  destruct (run_ticks ext envs cfg n (S k) b1) as [[later b2] ev'].
  cbn [fst snd] in *. by eapply kept_trans.
Qed.

End Scheduler.

Section BookKeeping.

Import TradingEngine.

(** A call of [execute_trades] adds at most one trade: the strategies,
    the balance and the books are the same, and a trade that was open is
    still open, with the same entry. *)
Lemma execute_trades_extends cfg signals eng :
  let eng' := (execute_trades cfg signals eng).1.2 in
  strategies eng' = strategies eng
  /\ balance eng' = balance eng
  /\ (forall e s, has_book eng' e s = has_book eng e s)
  /\ (forall e s p t, trade_at eng e s p = Some t -> trade_at eng' e s p = Some t).
Proof.
  unfold execute_trades.
  destruct (Config.AUTO_TRADING cfg) as [[]|]; [|done..].
  destruct (Signals.exchange signals) as [exchange|]; [|done].
  destruct (active_trades eng !! exchange) as [bs|] eqn:He; [|done].
  destruct (bs !! Signals.trigger_strategy signals) as [ts|] eqn:Hs; [|done].
  destruct (ts !! Signals.pair signals) as [t0|] eqn:Hp; [done|].
  cbn [fst snd]. split; [done|]. split; [done|]. split.
  - intros e s. unfold has_book. cbn [active_trades].
    destruct (decide (e = exchange)) as [->|Hne].
    + rewrite lookup_insert_eq, He. apply bool_decide_ext.
      destruct (decide (s = Signals.trigger_strategy signals)) as [->|Hns].
      * rewrite lookup_insert_eq, Hs. split; by eexists.
      * by rewrite lookup_insert_ne.
    + by rewrite lookup_insert_ne.
  - intros e s p t. unfold trade_at. cbn [active_trades].
    destruct (decide (e = exchange)) as [->|Hne]; [|by rewrite lookup_insert_ne].
    rewrite lookup_insert_eq, He.
    destruct (decide (s = Signals.trigger_strategy signals)) as [->|Hns];
      [|by rewrite lookup_insert_ne].
    rewrite lookup_insert_eq, Hs.
    destruct (decide (p = Signals.pair signals)) as [->|Hnp]; [congruence|].
    by rewrite lookup_insert_ne.
Qed.

Lemma execute_trades_off cfg signals eng :
  Config.AUTO_TRADING cfg <> Some true -> (execute_trades cfg signals eng).1.2 = eng.
Proof.
  intros Hoff. apply execute_trades_otherwise. intros Hok.
  by apply execute_trades_true in Hok as [Hon _].
Qed.

End BookKeeping.

(** X15. The loop of [run] only ever opens trades. Over any number of
    turns, whatever the data and however the tasks end, the strategies,
    the balance and the books of the engine are the same, every trade that
    was open is still open with the same entry, and the clients, the
    pairs and the flag of the loop are unchanged. When auto-trading is
    not enabled, the engine is exactly what it was. *)
Theorem scheduler_only_opens_trades
    (ext : Extern) (envs : nat -> nat -> Env) (cfg : Config.t) (n k : nat) (b : CryptoBot.t) :
  let b' := (CryptoBot.run_ticks ext envs cfg n k b).1.2 in
  TradingEngine.strategies (CryptoBot.engine b') = TradingEngine.strategies (CryptoBot.engine b)
  /\ TradingEngine.balance (CryptoBot.engine b') = TradingEngine.balance (CryptoBot.engine b)
  /\ (forall e s, TradingEngine.has_book (CryptoBot.engine b') e s
                  = TradingEngine.has_book (CryptoBot.engine b) e s)
  /\ (forall e s p t, TradingEngine.trade_at (CryptoBot.engine b) e s p = Some t ->
                      TradingEngine.trade_at (CryptoBot.engine b') e s p = Some t)
  /\ CryptoBot.api_clients b' = CryptoBot.api_clients b
  /\ CryptoBot.pairs b' = CryptoBot.pairs b
  /\ CryptoBot.running b' = CryptoBot.running b
  /\ (Config.AUTO_TRADING cfg <> Some true -> CryptoBot.engine b' = CryptoBot.engine b).
Proof.
  intros b'. subst b'.
  destruct (run_ticks_kept ext cfg
              (fun eng eng' =>
                 TradingEngine.strategies eng' = TradingEngine.strategies eng
                 /\ TradingEngine.balance eng' = TradingEngine.balance eng
                 /\ (forall e s, TradingEngine.has_book eng' e s = TradingEngine.has_book eng e s)
                 /\ (forall e s p t, TradingEngine.trade_at eng e s p = Some t ->
                                     TradingEngine.trade_at eng' e s p = Some t))) with
    (envs := envs) (n := n) (k := k) (b := b) as ((Hs & Hb & Hbook & Ht) & Ha & Hp & Hr).
  - done.
  - intros e1 e2 e3 (Hs1 & Hb1 & Hk1 & Ht1) (Hs2 & Hb2 & Hk2 & Ht2).
    split; [congruence|]. split; [congruence|]. split.
    + intros e s. by rewrite Hk2.
    + intros e s p t H. by apply Ht2, Ht1.
  - intros signals eng. apply execute_trades_extends.
  - do 7 (split; [done|]). intros Hoff.
    destruct (run_ticks_kept ext cfg (fun eng eng' => eng' = eng)) with
      (envs := envs) (n := n) (k := k) (b := b) as (Heq & _); try done.
    + intros; congruence.
    + intros signals eng. by apply execute_trades_off.
Qed.

(** ** From the candles to a signal *)

Section Pipeline.

Import TradingEngine.

Context (ext : Extern).

(** What [check_signals] can read without a [KeyError]: a frame with no
    [ema200] column, or with a [cci1] column as long as the frame. *)
Let readable (df : DataFrame.t) : Prop :=
  DataFrame.ema200 df = None
  \/ exists c, DataFrame.cci1 df = Some c /\ length c = length (DataFrame.rows df).

Lemma column_length df values v :
  EMACCIStrategy.column df values = Ok v -> length v = length (DataFrame.rows df).
Proof.
  unfold EMACCIStrategy.column, DataFrame.check_length.
  destruct values as [l|]; [|done]. case_decide; [|done]. by intros [= <-].
Qed.

Lemma get_indicators_readable st df df' :
  readable df -> Strategy.get_indicators ext st df = Ok df' ->
  DataFrame.rows df' = DataFrame.rows df /\ readable df'.
Proof.
  intros Hdf. destruct st as [s|]; [|by intros [= <-]].
  unfold Strategy.get_indicators, EMACCIStrategy.get_indicators.
  destruct (talib ext) as [ta|]; [|by intros [= <-]].
  destruct (DataFrame.empty df); [by intros [= <-]|].
  destruct (DataFrame.len df <? EMACCIStrategy.ema200_period s); [by intros [= <-]|].
  destruct (EMACCIStrategy.column df (EMA ta _ (EMACCIStrategy.ema50_period s)))
    as [e50|e|]; [|done..].
  destruct (EMACCIStrategy.column df (EMA ta _ (EMACCIStrategy.ema200_period s)))
    as [e200|e|]; [|done..].
  destruct (EMACCIStrategy.column df (CCI ta _ _ _ _)) as [c1|e|] eqn:Hc; [|done..].
  cbn. intros [= <-]. split; [done|]. right. exists c1. split; [done|].
  by apply column_length in Hc.
Qed.

Lemma indicators_loop_readable df strats : forall dfs,
  readable df -> indicators_loop ext df strats = Ok dfs ->
  dfs.*1 = strats.*1
  /\ Forall (fun nd => DataFrame.rows nd.2 = DataFrame.rows df /\ readable nd.2) dfs.
Proof.
  induction strats as [|[name st] strats IH]; intros dfs Hdf; cbn [indicators_loop].
  - by intros [= <-].
  - destruct (Strategy.get_indicators ext st df) as [d|e|] eqn:Hd; [|done..].
    destruct (indicators_loop ext df strats) as [ds|e|]; [|done..].
    cbn. intros [= <-]. destruct (IH ds Hdf eq_refl) as [Hnames Hall].
    split; [cbn; by rewrite Hnames|]. constructor; [|done].
    by apply (get_indicators_readable st).
Qed.

Lemma iloc_last_readable df latest :
  readable df -> DataFrame.iloc_last df = Some latest ->
  DataFrame.latest_ema200 latest = None \/ is_Some (DataFrame.latest_cci1 latest).
Proof.
  unfold DataFrame.iloc_last. intros Hdf.
  destruct (last (DataFrame.rows df)) as [r|] eqn:Hr; [|done]. intros [= <-]. cbn.
  destruct Hdf as [->|(c & -> & Hlen)]; [by left|]. right. cbn.
  apply last_is_Some. intros ->. destruct (DataFrame.rows df); done.
Qed.

Lemma emacci_check_signals_returns {Trades} s latest (trades : Trades) :
  DataFrame.latest_ema200 latest = None \/ is_Some (DataFrame.latest_cci1 latest) ->
  exists d, EMACCIStrategy.check_signals s latest trades = Ok d.
Proof.
  unfold EMACCIStrategy.check_signals, EMACCIStrategy.cci1_of.
  intros [->|[c ->]]; [by eexists|]. cbn.
  repeat case_match; by eexists.
Qed.

Lemma last_map {A B} (f : A -> B) (l : list A) : last (map f l) = f <$> last l.
Proof.
  induction l as [|x [|y l] IH]; [done..|].
  change (map f (x :: y :: l)) with (f x :: f y :: map f l).
  rewrite !last_cons_cons. exact IH.
Qed.

Lemma check_signals_returns cfg eng dfs :
  Forall (fun nd => is_Some (Py.assoc (strategies eng) nd.1) /\ readable nd.2) dfs ->
  exists result,
    check_signals cfg eng dfs = Ok result
    /\ forall s, result = Some s ->
         exists name df latest,
           (name, df) ∈ dfs /\ DataFrame.iloc_last df = Some latest
           /\ Signals.pair s = DataFrame.latest_pair latest
           /\ Signals.price s = DataFrame.latest_close latest
           /\ Signals.trigger_strategy s = name
           /\ Signals.exchange s = None
           /\ is_Some (Signals.signal_type s).
Proof.
  induction 1 as [|[name df] dfs [[strat Hstrat] Hdf] Hall (result & Hres & Hwhere)];
    cbn [check_signals fst snd] in *.
  - exists None. by split.
  - assert (exists result',
               check_signals cfg eng dfs = Ok result'
               /\ forall s, result' = Some s ->
                    exists name' df' latest,
                      (name', df') ∈ (name, df) :: dfs
                      /\ DataFrame.iloc_last df' = Some latest
                      /\ Signals.pair s = DataFrame.latest_pair latest
                      /\ Signals.price s = DataFrame.latest_close latest
                      /\ Signals.trigger_strategy s = name'
                      /\ Signals.exchange s = None
                      /\ is_Some (Signals.signal_type s)) as Hrest.
    { exists result. split; [done|]. intros s Hs.
      destruct (Hwhere s Hs) as (n' & d' & l' & Hin & H').
      exists n', d', l'. split; [by right | done]. }
    destruct (DataFrame.iloc_last df) as [latest|] eqn:Hlatest; [|exact Hrest].
    rewrite Hstrat.
    assert (exists d, Strategy.check_signals strat latest (open_trades_of cfg eng name) = Ok d)
      as [d Hd].
    { destruct strat as [s'|]; [|by eexists].
      apply emacci_check_signals_returns. by apply (iloc_last_readable df). }
    rewrite Hd. cbn. destruct d as [d|]; [|exact Hrest].
    eexists. split; [done|]. intros s [= <-].
    exists name, df, latest. split; [left|]. by repeat split.
Qed.

Lemma process_data_readable eng rows symbol strategy_dfs :
  process_data ext eng (DataFrame.of_rows rows) symbol = Ok (Some strategy_dfs) ->
  strategy_dfs.*1 = (strategies eng).*1
  /\ Forall (fun nd =>
               DataFrame.rows nd.2
               = map (fun r => Row.mk symbol (Row.interval r) (Row.bar r)) rows
               /\ readable nd.2) strategy_dfs.
Proof.
  unfold process_data. destruct (DataFrame.empty _); [done|].
  destruct (indicators_loop ext _ (strategies eng)) as [dfs|e|] eqn:Hloop; [|done..].
  cbn. intros [= <-]. apply indicators_loop_readable in Hloop; [done | by left].
Qed.

End Pipeline.

(** X16. [check_signals] cannot raise on what [process_data] made of a
    series of candles: when [process_data] returns frames, there is one
    per loaded strategy, in the order of the strategies, and
    [check_signals] returns; neither the lookup of the strategy nor the
    read of the [cci1] column can fail. A signal it returns carries a
    direction and no exchange yet, names a loaded strategy, and is for
    the symbol processed at the close of the last candle of the series. *)
Theorem check_signals_returns_on_processed_data
    (ext : Extern) (cfg : Config.t) (eng : TradingEngine.t) (rows : list Row.t)
    (symbol : string) (strategy_dfs : list (string * DataFrame.t)) :
  TradingEngine.process_data ext eng (DataFrame.of_rows rows) symbol = Ok (Some strategy_dfs) ->
  strategy_dfs.*1 = (TradingEngine.strategies eng).*1
  /\ exists result,
       TradingEngine.check_signals cfg eng strategy_dfs = Ok result
       /\ forall s, result = Some s ->
            Signals.pair s = symbol
            /\ Signals.trigger_strategy s ∈ (TradingEngine.strategies eng).*1
            /\ is_Some (Signals.signal_type s)
            /\ Signals.exchange s = None
            /\ exists r, last rows = Some r /\ Signals.price s = Row.close r.
Proof.
  intros Hpd. destruct (process_data_readable ext eng rows symbol strategy_dfs Hpd)
    as [Hnames Hall].
  split; [exact Hnames|].
  assert (forall name df, (name, df) ∈ strategy_dfs ->
                          name ∈ (TradingEngine.strategies eng).*1) as Hloaded.
  { intros name df Hin. rewrite <- Hnames. apply list_elem_of_fmap. by exists (name, df). }
  destruct (check_signals_returns cfg eng strategy_dfs) as (result & Hres & Hwhere).
  { rewrite Forall_forall in Hall |- *. intros [name df] Hin. split; [|by apply Hall].
    apply Hloaded in Hin. apply list_elem_of_fmap in Hin as ([n st] & -> & Hin).
    by apply (assoc_is_Some _ n st). }
  exists result. split; [exact Hres|]. intros s Hs.
  destruct (Hwhere s Hs) as (name & df & latest & Hin & Hlatest & Hp & Hpx & Ht & Hex & Hdir).
  rewrite Forall_forall in Hall. destruct (Hall _ Hin) as [Hrows _]. cbn in Hrows.
  unfold DataFrame.iloc_last in Hlatest. rewrite Hrows, last_map in Hlatest.
  destruct (last rows) as [r|]; [|done]. cbn in Hlatest. injection Hlatest as <-.
  split; [by rewrite Hp|]. split; [rewrite Ht; by eapply Hloaded|].
  split; [done|]. split; [done|]. exists r. by split.
Qed.

Lemma check_signals_returns_witness :
  exists strategy_dfs s,
    TradingEngine.process_data (Examples.ext_flat 0 200) Examples.engine0
      (DataFrame.of_rows (Examples.flat_rows "X" "1m" 100%float 1700000000000 250)) "B-BTC_USDT"
    = Ok (Some strategy_dfs)
    /\ strategy_dfs.*1 = ["main_strategy"; "trf_strategy"]
    /\ TradingEngine.check_signals Config.shipped Examples.engine0 strategy_dfs = Ok (Some s)
    /\ Signals.pair s = "B-BTC_USDT"
    /\ Signals.signal_type s = Some long.
Proof.
  destruct (TradingEngine.process_data (Examples.ext_flat 0 200) Examples.engine0
              (DataFrame.of_rows (Examples.flat_rows "X" "1m" 100%float 1700000000000 250))
              "B-BTC_USDT") as [[dfs|]|e|] eqn:Hpd;
    [|vm_compute in Hpd; discriminate..].
  destruct (check_signals_returns_on_processed_data _ Config.shipped _ _ _ _ Hpd)
    as (Hnames & result & Hres & Hwhere).
  assert (exists s, result = Some s /\ Signals.signal_type s = Some long) as (s & -> & Hlong).
  { assert (Ok (Some dfs)
            = TradingEngine.process_data (Examples.ext_flat 0 200) Examples.engine0
                (DataFrame.of_rows (Examples.flat_rows "X" "1m" 100%float 1700000000000 250))
                "B-BTC_USDT") as Hdfs by done.
    vm_compute in Hdfs. injection Hdfs as ->. vm_compute in Hres.
    injection Hres as <-. by eexists. }
  exists dfs, s. split; [done|]. split; [by rewrite Hnames|]. split; [done|].
  split; [by apply Hwhere | done].
Defined.

(** ** The books of a new engine *)

Section NewEngine.

Import TradingEngine.

Lemma lookup_list_to_map_const {A V} (f : A -> string) (v : V) (l : list A) (k : string) :
  (list_to_map (map (fun x => (f x, v)) l) : gmap string V) !! k
  = if decide (k ∈ map f l) then Some v else None.
Proof.
  induction l as [|x l IH]; cbn [map list_to_map foldr].
  - rewrite lookup_empty. by rewrite decide_False by apply not_elem_of_nil.
  - destruct (decide (k = f x)) as [->|Hne].
    + rewrite lookup_insert_eq. rewrite decide_True; [done | left].
    + rewrite lookup_insert_ne by done. rewrite IH.
      destruct (decide (k ∈ map f l)) as [Hin|Hout].
      * rewrite decide_True; [done | by right].
      * rewrite decide_False; [done|]. by intros [?|?]%elem_of_cons.
Qed.

Lemma map_is_fmap {A B} (f : A -> B) (l : list A) : map f l = f <$> l.
Proof. induction l as [|x l IH]; [done|]. cbn. by rewrite IH. Qed.

Lemma get_strategy_names name conf :
  is_Some (Strategy.get_strategy name conf)
  <-> name = "main_strategy" \/ name = "trf_strategy".
Proof.
  unfold Strategy.get_strategy.
  destruct (String.eqb_spec name "main_strategy") as [->|Hm]; [by split; [left | eexists]|].
  destruct (String.eqb_spec name "trf_strategy") as [->|Ht]; [by split; [right | eexists]|].
  split; [by intros [? ?] | by intros [?|?]].
Qed.

Lemma load_strategies_spec active confs name st :
  (name, st) ∈ load_strategies active confs
  <-> name ∈ active
      /\ exists conf, (name, conf) ∈ confs /\ Strategy.get_strategy name conf = Some st.
Proof.
  induction confs as [|[n c] confs IH]; cbn [load_strategies].
  - split; [by intros ?%elem_of_nil | by intros (_ & ? & ?%elem_of_nil & _)].
  - assert ((name ∈ active
             /\ exists conf, (name, conf) ∈ (n, c) :: confs
                             /\ Strategy.get_strategy name conf = Some st)
            <-> (name = n /\ n ∈ active /\ Strategy.get_strategy n c = Some st)
                \/ (name, st) ∈ load_strategies active confs) as ->.
    { rewrite IH. split.
      - intros (Hact & conf & [[= -> ->]|Hin]%elem_of_cons & Hget); [by left|].
        right. split; [done|]. by exists conf.
      - intros [(-> & Hact & Hget)|(Hact & conf & Hin & Hget)].
        + split; [done|]. exists c. split; [left | done].
        + split; [done|]. exists conf. split; [by right | done]. }
    destruct (Strategy.get_strategy n c) as [s|] eqn:Hget.
    + case_bool_decide as Hact.
      * rewrite elem_of_cons. split.
        -- intros [[= -> ->]|Hin]; [by left | by right].
        -- intros [(-> & _ & [= ->])|Hin]; [by left | by right].
      * split; [by right|]. by intros [(-> & ? & _)|Hin].
    + split; [by right|]. by intros [(-> & _ & ?)|Hin].
Qed.

Lemma trade_at_init cfg api_clients e s p : trade_at (init cfg api_clients) e s p = None.
Proof.
  unfold trade_at, init. cbn [active_trades].
  rewrite (lookup_list_to_map_const (fun e : string => e)). case_decide; [|done].
  rewrite (lookup_list_to_map_const fst). by case_decide.
Qed.

Lemma has_book_init cfg api_clients e s :
  has_book (init cfg api_clients) e s = true
  <-> e ∈ api_clients /\ s ∈ (strategies (init cfg api_clients)).*1.
Proof.
  unfold has_book, init. cbn [active_trades strategies].
  rewrite (lookup_list_to_map_const (fun e : string => e)).
  rewrite map_id. case_decide as He; [|by split; [|intros []]].
  rewrite (lookup_list_to_map_const fst), bool_decide_eq_true.
  case_decide as Hs.
  - split; [|by eexists]. intros _. split; [done|]. by rewrite map_is_fmap in Hs.
  - split; [by intros [? ?]|]. intros [_ Hin]. exfalso. apply Hs.
    by rewrite map_is_fmap.
Qed.

(** [check_signals] names a strategy of the engine. *)
Lemma check_signals_trigger cfg eng strategy_dfs s :
  check_signals cfg eng strategy_dfs = Ok (Some s) ->
  Signals.trigger_strategy s ∈ (strategies eng).*1 /\ Signals.exchange s = None.
Proof.
  induction strategy_dfs as [|[name df] rest IH]; cbn [check_signals]; [done|].
  destruct (DataFrame.iloc_last df) as [latest|]; [|done].
  destruct (assoc (strategies eng) name) as [strat|] eqn:Hstrat; [|done].
  destruct (Strategy.check_signals strat latest _) as [[d|]|e|]; cbn; try done.
  intros [= <-]. cbn. split; [|done].
  apply assoc_elem_of in Hstrat. apply list_elem_of_fmap. by exists (name, strat).
Qed.

End NewEngine.

(** X17. The engine [TradingEngine.__init__] builds: a strategy is loaded
    under a name exactly when the name is active and the configuration
    gives it settings from which [get_strategy] makes that strategy, so
    only under [main_strategy] and [trf_strategy]; there is a book for an
    exchange and a strategy exactly when the exchange has a client and
    the strategy is loaded; no trade is open; the balance is 10000. *)
Theorem new_engine_has_a_book_per_client_and_strategy
    (cfg : Config.t) (api_clients : list string) :
  let eng := TradingEngine.init cfg api_clients in
  (forall name st,
     (name, st) ∈ TradingEngine.strategies eng
     <-> name ∈ Config.ACTIVE_STRATEGIES cfg
         /\ exists conf, (name, conf) ∈ Config.STRATEGIES cfg
                         /\ Strategy.get_strategy name conf = Some st)
  /\ (forall name, name ∈ (TradingEngine.strategies eng).*1 ->
                   name = "main_strategy" \/ name = "trf_strategy")
  /\ (forall e s, TradingEngine.has_book eng e s = true
                  <-> e ∈ api_clients /\ s ∈ (TradingEngine.strategies eng).*1)
  /\ TradingEngine.open_trades eng = []
  /\ TradingEngine.balance eng = 10000%float.
Proof.
  intros eng. split; [intros name st; apply load_strategies_spec|].
  split; [|split; [apply has_book_init|split; [|done]]].
  - intros name ([n st] & -> & Hin)%list_elem_of_fmap.
    apply load_strategies_spec in Hin as (_ & conf & _ & Hget).
    apply (get_strategy_names n conf). by eexists.
  - apply list_empty_of_no_elem. intros [[[e s] p] t] Hin.
    apply elem_of_open_trades in Hin. subst eng. by rewrite trade_at_init in Hin.
Qed.

(** ** From a signal to a trade *)

Section Execution.

Import TradingEngine CryptoBot.

Lemma run_ticks_books ext envs cfg n k b :
  let b' := (run_ticks ext envs cfg n k b).1.2 in
  strategies (engine b') = strategies (engine b)
  /\ forall e s, has_book (engine b') e s = has_book (engine b) e s.
Proof.
  destruct (run_ticks_kept ext cfg
              (fun eng eng' =>
                 strategies eng' = strategies eng
                 /\ forall e s, has_book eng' e s = has_book eng e s)) with
    (envs := envs) (n := n) (k := k) (b := b) as (H & _); [done| | |exact H].
  - intros e1 e2 e3 [Hs1 Hk1] [Hs2 Hk2]. split; [congruence|].
    intros e s. by rewrite Hk2.
  - intros signals eng.
    destruct (execute_trades_extends cfg signals eng) as (Hs & _ & Hk & _). by split.
Qed.

Lemma set_engine_same b : set_engine (engine b) b = b.
Proof. by destruct b. Qed.

Lemma dispatch_enabled cfg exchange symbol s b :
  Config.AUTO_TRADING cfg = Some true ->
  has_book (engine b) exchange (Signals.trigger_strategy s) = true ->
  let before := trade_at (engine b) exchange (Signals.trigger_strategy s) (Signals.pair s) in
  let r := dispatch cfg exchange symbol (Some s) b in
  r.1.1 = Completed
  /\ trade_at (engine r.1.2) exchange (Signals.trigger_strategy s) (Signals.pair s)
     = Some (default (ActiveTrade.mk (Signals.price s) (Signals.signal_type s)) before)
  /\ (is_Some before -> r.1.2 = b /\ r.2 = []).
Proof.
  intros Hauto Hbook before r. subst before r. unfold dispatch.
  destruct (execute_trades_enabled cfg (Signals.set_exchange exchange s) (engine b) exchange
              Hauto eq_refl Hbook) as [Hr Hat].
  cbn [Signals.set_exchange Signals.trigger_strategy Signals.pair Signals.price
       Signals.signal_type] in Hr, Hat.
  pose proof (execute_trades_otherwise cfg (Signals.set_exchange exchange s) (engine b)) as Hsame.
  pose proof (execute_trades_quiet cfg (Signals.set_exchange exchange s) (engine b)) as _.
  assert (is_Some (trade_at (engine b) exchange (Signals.trigger_strategy s) (Signals.pair s)) ->
          (execute_trades cfg (Signals.set_exchange exchange s) (engine b)).2 = []) as Hev.
  { intros [t Ht]. unfold execute_trades, trade_at in *. rewrite Hauto. cbn.
    destruct (active_trades (engine b) !! exchange) as [bs|]; [|done].
    destruct (bs !! Signals.trigger_strategy s) as [ts|]; [|done].
    by rewrite Ht. }
  destruct (execute_trades cfg (Signals.set_exchange exchange s) (engine b))
    as [[[ok|e|] eng] ev]; cbn [fst snd] in *; [|done..].
  split; [done|]. split; [exact Hat|]. intros Hsome.
  split; [|by apply Hev]. destruct Hsome as [t Ht]. rewrite Ht in Hr.
  rewrite bool_decide_eq_false_2 in Hr by done. injection Hr as ->.
  rewrite Hsame by done. apply set_engine_same.
Qed.

End Execution.

(** X18. A signal of a loaded strategy is executed without error. On a
    bot whose engine was built by [TradingEngine.__init__] over its
    clients, after any number of turns of the loop, with the selected
    exchange among the clients and auto-trading enabled: the end of
    [process_pair] on a signal that [check_signals] returned completes,
    the books it indexes exist, and afterwards the key of the signal
    holds a trade: the one that was there, and then the bot is unchanged
    and nothing is logged, or else the trade of the signal. *)
Theorem signal_of_a_loaded_strategy_is_executed
    (ext : Extern) (envs : nat -> nat -> Env) (cfg : Config.t) (n k : nat) (b : CryptoBot.t)
    (strategy_dfs : list (string * DataFrame.t)) (s : Signals.t) (symbol : string) :
  CryptoBot.engine b = TradingEngine.init cfg (CryptoBot.api_clients b) ->
  Config.SELECTED_EXCHANGE cfg ∈ CryptoBot.api_clients b ->
  Config.AUTO_TRADING cfg = Some true ->
  let b' := (CryptoBot.run_ticks ext envs cfg n k b).1.2 in
  TradingEngine.check_signals cfg (CryptoBot.engine b') strategy_dfs = Ok (Some s) ->
  let exchange := Config.SELECTED_EXCHANGE cfg in
  let before := TradingEngine.trade_at (CryptoBot.engine b') exchange
                  (Signals.trigger_strategy s) (Signals.pair s) in
  let r := CryptoBot.dispatch cfg exchange symbol (Some s) b' in
  TradingEngine.has_book (CryptoBot.engine b') exchange (Signals.trigger_strategy s) = true
  /\ r.1.1 = CryptoBot.Completed
  /\ TradingEngine.trade_at (CryptoBot.engine r.1.2) exchange
       (Signals.trigger_strategy s) (Signals.pair s)
     = Some (default (ActiveTrade.mk (Signals.price s) (Signals.signal_type s)) before)
  /\ (is_Some before -> r.1.2 = b' /\ r.2 = []).
Proof.
  intros Hinit Hex Hauto b' Hsig exchange before r.
  destruct (run_ticks_books ext envs cfg n k b) as [Hstrats Hbooks]. fold b' in Hstrats, Hbooks.
  assert (TradingEngine.has_book (CryptoBot.engine b') exchange (Signals.trigger_strategy s)
          = true) as Hbook.
  { rewrite Hbooks, Hinit. apply has_book_init. split; [done|].
    rewrite <- Hinit, <- Hstrats. by apply check_signals_trigger in Hsig as [? _]. }
  split; [exact Hbook|]. by apply dispatch_enabled.
Qed.

Lemma signal_is_executed_witness :
  let b' := (CryptoBot.run_ticks Examples.ext_no_talib (fun _ _ => Examples.env_at 1700000000000000)
               Examples.cfg_on 1 0 Examples.bot0).1.2 in
  let s := Signals.mk (Some long) "B-BTC_USDT" 100%float "main_strategy" None in
  CryptoBot.engine Examples.bot0
  = TradingEngine.init Examples.cfg_on (CryptoBot.api_clients Examples.bot0)
  /\ TradingEngine.check_signals Examples.cfg_on (CryptoBot.engine b')
       [("main_strategy",
         DataFrame.mk [Row.mk "B-BTC_USDT" "5m" (Examples.bar_at 1700000000000 100%float)]
           (Some [0%float]) (Some [0%float]) (Some [200%float]))]
     = Ok (Some s)
  /\ (CryptoBot.dispatch Examples.cfg_on "coindcx" "B-BTC_USDT" (Some s) b').1.1
     = CryptoBot.Completed.
Proof.
  intros b' s.
  assert (TradingEngine.check_signals Examples.cfg_on (CryptoBot.engine b')
            [("main_strategy",
              DataFrame.mk [Row.mk "B-BTC_USDT" "5m" (Examples.bar_at 1700000000000 100%float)]
                (Some [0%float]) (Some [0%float]) (Some [200%float]))]
          = Ok (Some s)) as Hsig by (vm_compute; reflexivity).
  split; [reflexivity|]. split; [exact Hsig|].
  assert (Config.SELECTED_EXCHANGE Examples.cfg_on ∈ CryptoBot.api_clients Examples.bot0) as Hin
    by (cbn; left).
  exact (proj1 (proj2 (signal_of_a_loaded_strategy_is_executed Examples.ext_no_talib
                         (fun _ _ => Examples.env_at 1700000000000000) Examples.cfg_on 1 0
                         Examples.bot0 _ s "B-BTC_USDT" eq_refl Hin eq_refl Hsig))).
Defined.

Section ExitAgain.

Import TradingEngine EmergencyKillSwitch.

Lemma close_all_idempotent trades : close_all (close_all trades) = close_all trades.
Proof.
  unfold close_all. apply map_eq. intros e. rewrite !lookup_fmap.
  destruct (trades !! e) as [bs|]; [|done]. cbn. f_equal.
  apply map_eq. intros s. rewrite !lookup_fmap. by destruct (bs !! s).
Qed.

Lemma execute_emergency_exit_result ks eng eng' :
  (execute_emergency_exit ks eng).1.1.1 = (execute_emergency_exit ks eng').1.1.1
  /\ notification_manager (execute_emergency_exit ks eng).1.1.2 = notification_manager ks
  /\ is_active (execute_emergency_exit ks eng).1.1.2 = is_active ks
  /\ (execute_emergency_exit ks eng).2
     = LogInfo "EMERGENCY KILL SWITCH ACTIVATED"
       :: map (fun k => LogInfo ("Closing position for " +:+ k.1.2 +:+ " via emergency exit."))
            (open_trades eng).
Proof. unfold execute_emergency_exit. by repeat case_match. Qed.

End ExitAgain.

(** X19. The emergency exit empties the books without removing them and
    can be repeated. It keeps the strategies, the balance and every book;
    it logs its header and then one closure per open trade; it never sets
    [is_active]; without a notification manager it returns success. A
    second exit right after the first ends as the first did, changes
    nothing and logs the header alone. *)
Theorem emergency_exit_keeps_the_books_and_repeats
    (ks : EmergencyKillSwitch.t) (eng : TradingEngine.t) :
  let r := EmergencyKillSwitch.execute_emergency_exit ks eng in
  let r2 := EmergencyKillSwitch.execute_emergency_exit r.1.1.2 r.1.2 in
  TradingEngine.strategies r.1.2 = TradingEngine.strategies eng
  /\ TradingEngine.balance r.1.2 = TradingEngine.balance eng
  /\ (forall e s, TradingEngine.has_book r.1.2 e s = TradingEngine.has_book eng e s)
  /\ length r.2 = S (length (TradingEngine.open_trades eng))
  /\ head r.2 = Some (LogInfo "EMERGENCY KILL SWITCH ACTIVATED")
  /\ (forall e s p t, TradingEngine.trade_at eng e s p = Some t ->
        LogInfo ("Closing position for " +:+ p +:+ " via emergency exit.") ∈ tail r.2)
  /\ EmergencyKillSwitch.is_active r.1.1.2 = EmergencyKillSwitch.is_active ks
  /\ (EmergencyKillSwitch.notification_manager ks = None -> r.1.1.1 = Ok true)
  /\ r2.1.1.1 = r.1.1.1
  /\ r2.1.1.2 = r.1.1.2
  /\ r2.1.2 = r.1.2
  /\ r2.2 = [LogInfo "EMERGENCY KILL SWITCH ACTIVATED"].
Proof.
  intros r r2.
  destruct (execute_emergency_exit_state ks eng) as [Heng Hflag]. fold r in Heng, Hflag.
  destruct (execute_emergency_exit_result ks eng r.1.2) as (Hres & Hnm & Hact & Hev).
  fold r in Hres, Hnm, Hact, Hev.
  split; [by rewrite Heng|]. split; [by rewrite Heng|].
  split; [intros e s; rewrite Heng; apply has_book_close_all|].
  split; [by rewrite Hev; cbn; rewrite length_map|].
  split; [by rewrite Hev|].
  split.
  { intros e s p t Hat. rewrite Hev. cbn. apply elem_of_open_trades in Hat.
    rewrite map_is_fmap. apply list_elem_of_fmap. by exists (e, s, p, t). }
  split; [exact Hact|].
  split.
  { intros Hnone. subst r. unfold EmergencyKillSwitch.execute_emergency_exit.
    by rewrite Hnone. }
  assert (r.1.1.2 = EmergencyKillSwitch.mk (EmergencyKillSwitch.notification_manager ks)
                      (EmergencyKillSwitch.is_active ks) true) as Hks.
  { subst r. unfold EmergencyKillSwitch.execute_emergency_exit. by repeat case_match. }
  destruct (execute_emergency_exit_state r.1.1.2 r.1.2) as [Heng2 Hflag2]. fold r2 in Heng2, Hflag2.
  destruct (execute_emergency_exit_result r.1.1.2 r.1.2 r.1.2) as (_ & Hnm2 & Hact2 & Hev2).
  fold r2 in Hnm2, Hact2, Hev2.
  split; [|split; [|split]].
  - subst r2. rewrite Hks. subst r. unfold EmergencyKillSwitch.execute_emergency_exit. cbn.
    by repeat case_match.
  - destruct (r2.1.1.2) as [nm2 act2 dis2]. cbn in Hnm2, Hact2, Hflag2.
    destruct (r.1.1.2) as [nm1 act1 dis1]. cbn in *. congruence.
  - rewrite Heng2, Heng. cbn. by rewrite close_all_idempotent.
  - rewrite Hev2, Heng, open_trades_close_all. done.
Qed.

(** ** When the moving-average strategy signals *)

Lemma emacci_check_signals_cases {Trades : Type} s latest (trades : Trades) :
  EMACCIStrategy.check_signals s latest trades
  = match DataFrame.latest_ema200 latest with
    | None => Ok None
    | Some e =>
        let close := DataFrame.latest_close latest in
        if PrimFloat.is_nan e then Ok None
        else if Py.gt close e || Py.lt close e then
          match DataFrame.latest_cci1 latest with
          | None => Err (KeyError "cci1")
          | Some c =>
              Ok (if Py.gt close e && Py.gt c (EMACCIStrategy.cci_long_level s) then Some long
                  else if Py.lt close e && Py.lt c (EMACCIStrategy.cci_short_level s)
                       then Some short
                       else None)
          end
        else Ok None
    end.
Proof.
  unfold EMACCIStrategy.check_signals, EMACCIStrategy.cci1_of, EMACCIStrategy.isna.
  destruct (DataFrame.latest_ema200 latest) as [e|]; [|done]. cbn.
  destruct (PrimFloat.is_nan e); [done|].
  unfold Py.gt, Py.lt.
  destruct (DataFrame.latest_cci1 latest) as [c|]; cbn;
    repeat (destruct (PrimFloat.ltb _ _); cbn); done.
Qed.

(** Either side of an equivalence between an outcome and its conditions
    is refuted by the comparisons of the case at hand, or read off them. *)
Ltac sort_out tac :=
  first
  [ done
  | split;
    [ intros H; simplify_eq; try done;
      repeat first [eexists | split]; try reflexivity; tac; done
    | intros H;
      repeat match goal with
             | H : ex _ |- _ => destruct H
             | H : _ /\ _ |- _ => destruct H
             end;
      simplify_eq; tac; cbn [andb orb] in *; congruence ] ].

(** X20. The conditions of a signal of [EMACCIStrategy.check_signals].
    It returns [long] exactly when the row has an [ema200] that is not
    NaN, the close is above it, and the [cci1] of the row is above the
    long level; [short] exactly when the row has such an [ema200], the
    long condition fails, the close is below it and the [cci1] is below
    the short level. It raises only [KeyError] for [cci1], exactly when
    the row has no [cci1] while its [ema200] is a number that the close
    is above or below. It always ends, and the open trades it is given
    play no part. *)
Theorem emacci_signal_conditions
    {Trades : Type} (s : EMACCIStrategy.t) (latest : DataFrame.LatestRow) (trades : Trades) :
  let close := DataFrame.latest_close latest in
  let r := EMACCIStrategy.check_signals s latest trades in
  (r = Ok (Some long)
   <-> exists ema200 cci1,
         DataFrame.latest_ema200 latest = Some ema200 /\ PrimFloat.is_nan ema200 = false
         /\ DataFrame.latest_cci1 latest = Some cci1
         /\ Py.gt close ema200 = true
         /\ Py.gt cci1 (EMACCIStrategy.cci_long_level s) = true)
  /\ (r = Ok (Some short)
      <-> exists ema200 cci1,
            DataFrame.latest_ema200 latest = Some ema200 /\ PrimFloat.is_nan ema200 = false
            /\ DataFrame.latest_cci1 latest = Some cci1
            /\ Py.gt close ema200 && Py.gt cci1 (EMACCIStrategy.cci_long_level s) = false
            /\ Py.lt close ema200 = true
            /\ Py.lt cci1 (EMACCIStrategy.cci_short_level s) = true)
  /\ (forall e,
        r = Err e
        <-> e = KeyError "cci1" /\ DataFrame.latest_cci1 latest = None
            /\ exists ema200,
                 DataFrame.latest_ema200 latest = Some ema200
                 /\ PrimFloat.is_nan ema200 = false
                 /\ Py.gt close ema200 || Py.lt close ema200 = true)
  /\ r <> Hang
  /\ (forall (Trades' : Type) (trades' : Trades'),
        EMACCIStrategy.check_signals s latest trades' = r).
Proof.
  intros close r. subst close r. rewrite emacci_check_signals_cases.
  split_and!; [..|intros; apply emacci_check_signals_cases];
    (destruct (DataFrame.latest_ema200 latest) as [e200|]; cbn zeta;
       [|try intros e; sort_out idtac]);
    (destruct (PrimFloat.is_nan e200) eqn:Hnan; [try intros e; sort_out idtac|]);
    destruct (Py.gt (DataFrame.latest_close latest) e200) eqn:Hgt,
             (Py.lt (DataFrame.latest_close latest) e200) eqn:Hlt,
             (DataFrame.latest_cci1 latest) as [c|]; cbn [andb orb];
    try (destruct (Py.gt c (EMACCIStrategy.cci_long_level s)) eqn:Hl,
                  (Py.lt c (EMACCIStrategy.cci_short_level s)) eqn:Hs; cbn [andb orb]);
    try intros e;
    sort_out ltac:(rewrite ?Hgt, ?Hlt in *; try rewrite ?Hl, ?Hs in * ).
Qed.

(** ** What a fetch returns *)

Section Fetched.

Import DatabaseManager MockExchangeAPI.

Lemma with_connection_body {A} (body : list Row.t -> res A * list Row.t) db a db1 :
  with_connection body db = (Ok a, db1) ->
  body (candles db) = (Ok a, candles db1).
Proof.
  unfold with_connection.
  destruct (DatabaseConnectionPool.get_connection None (pool db)) as [[c|e|] p1];
    [|discriminate..].
  destruct (body (candles db)) as [r tbl].
  destruct (DatabaseConnectionPool.return_connection c p1) as [[[]|e|] p2]; [|discriminate..].
  by intros [= -> <-].
Qed.

(** The series [get_candle_data] returns, whenever it returns one. *)
Lemma get_candle_data_shape pair limit interval db data db1 :
  get_candle_data pair limit (Some interval) db = (Ok data, db1) ->
  candles db1 = candles db
  /\ exists rows,
       data = DataFrame.of_rows rows
       /\ StronglySorted older_first rows
       /\ (forall r, r ∈ rows ->
             r ∈ candles db /\ Row.pair r = pair /\ Row.interval r = interval)
       /\ (0 <= limit -> Z.of_nat (length rows) <= limit).
Proof.
  unfold get_candle_data. intros [= <- Htbl]%with_connection_body.
  split; [done|]. eexists. split; [done|].
  split; [apply (@StronglySorted_merge_sort _ _ _ older_first_transitive older_first_total)|].
  unfold select_candles. split.
  - intros r Hr. rewrite merge_sort_Permutation in Hr.
    assert (r ∈ filter (fun r => String.eqb (Row.pair r) pair
                                 && String.eqb (Row.interval r) interval) (candles db))
      as [Hser Hin]%list_elem_of_filter.
    { rewrite <- (merge_sort_Permutation newer_first).
      destruct (sql_limit_cases limit
                  (merge_sort newer_first
                     (filter (fun r => String.eqb (Row.pair r) pair
                                       && String.eqb (Row.interval r) interval) (candles db))))
        as [[_ Heq]|[_ Heq]]; rewrite Heq in Hr; [done|].
      eapply elem_of_sublist; [exact Hr | apply sublist_take]. }
    split; [done|]. by apply (of_series_spec pair interval r).
  - intros Hlimit. rewrite (Permutation_length (merge_sort_Permutation _ _)).
    unfold sql_limit. destruct (Z.ltb_spec limit 0) as [|_]; [lia|].
    rewrite length_take. lia.
Qed.

Lemma generate_shape ext env pair interval limit db data :
  (generate ext env pair interval limit db).1.1 = Ok data ->
  exists rows,
    data = DataFrame.of_rows rows
    /\ StronglySorted older_first rows
    /\ (forall r, r ∈ rows ->
          r ∈ candles (generate ext env pair interval limit db).1.2
          /\ Row.pair r = pair /\ Row.interval r = interval)
    /\ (0 <= limit -> Z.of_nat (length rows) <= limit).
Proof.
  unfold generate.
  destruct (_interval_to_seconds ext interval) as [[s|]|e|]; [| |done..].
  - destruct (s * 1000 =? 0); [done|].
    destruct (save_candle_data ext _ pair interval db) as [[[[]|e|] db1] ev]; [|done..].
    destruct (get_candle_data pair limit (Some interval) db1) as [r db2] eqn:Hget.
    cbn [fst snd]. intros ->.
    destruct (get_candle_data_shape _ _ _ _ _ _ Hget) as (Htbl & rows & Hd & Hs & Hin & Hlen).
    exists rows. rewrite Htbl. done.
  - cbn. intros [= <-]. exists []. split; [done|]. split; [constructor|].
    split; [by intros r ?%elem_of_nil | cbn; lia].
Qed.

End Fetched.

(** X21. Whatever path it takes, a series [get_historical_data] returns
    is a series of the store: it has no indicator column, is in ascending
    order of [open_time], holds only candles of the pair and interval
    asked for, each of them a row of the table as the call leaves it, and
    no more than [limit] of them when the limit is not negative. *)
Theorem historical_data_is_a_stored_ascending_series
    (ext : Extern) (env : Env) (cfg : Config.t) (pair interval : string) (limit : Z)
    (force_fresh : bool) (db : DatabaseManager.t) (data : DataFrame.t) :
  let r := MockExchangeAPI.get_historical_data ext env cfg pair interval limit force_fresh db in
  r.1.1 = Ok data ->
  exists rows,
    data = DataFrame.of_rows rows
    /\ StronglySorted DatabaseManager.older_first rows
    /\ (forall x, x ∈ rows ->
          x ∈ DatabaseManager.candles r.1.2 /\ Row.pair x = pair /\ Row.interval x = interval)
    /\ (0 <= limit -> Z.of_nat (length rows) <= limit).
Proof.
  intros r. subst r. unfold MockExchangeAPI.get_historical_data.
  destruct force_fresh; [apply generate_shape|].
  destruct (DatabaseManager.get_candle_data pair limit (Some interval) db)
    as [[cached|e|] db1] eqn:Hget; [|done..].
  destruct (_ && _); [|apply generate_shape].
  cbn [fst snd]. intros [= <-].
  destruct (get_candle_data_shape _ _ _ _ _ _ Hget) as (Htbl & rows & Hd & Hs & Hin & Hlen).
  exists rows. rewrite Htbl. done.
Qed.

Lemma historical_data_witness :
  exists rows,
    (MockExchangeAPI.get_historical_data Examples.ext_no_talib (Examples.env_at 1700000123456789)
       Config.shipped "X" "5m" 3 false Examples.db0).1.1 = Ok (DataFrame.of_rows rows)
    /\ StronglySorted DatabaseManager.older_first rows
    /\ Z.of_nat (length rows) <= 3.
Proof.
  destruct (MockExchangeAPI.get_historical_data Examples.ext_no_talib
              (Examples.env_at 1700000123456789) Config.shipped "X" "5m" 3 false Examples.db0)
    as [[[data|e|] db1] ev] eqn:Hget; [|vm_compute in Hget; discriminate..].
  destruct (historical_data_is_a_stored_ascending_series Examples.ext_no_talib
              (Examples.env_at 1700000123456789) Config.shipped "X" "5m" 3 false Examples.db0 data)
    as (rows & -> & Hsorted & _ & Hlen).
  - by rewrite Hget.
  - exists rows. split; [done|]. split; [exact Hsorted|]. apply Hlen. lia.
Defined.

(** ** One task per pair and turn *)

Section Isolation.

Import CryptoBot.

Context (ext : Extern) (cfg : Config.t).

Lemma with_connection_ends {A} (body : list Row.t -> res A * list Row.t) db :
  DatabaseConnectionPool.ready (DatabaseManager.pool db) = true ->
  (forall tbl, (body tbl).1 <> Hang) ->
  (DatabaseManager.with_connection body db).1 <> Hang
  /\ DatabaseConnectionPool.ready (DatabaseManager.pool (DatabaseManager.with_connection body db).2)
     = true.
Proof.
  intros Hready Hbody.
  destruct (with_connection_ready body db Hready) as (Hr & _ & Hready').
  split; [rewrite Hr; apply Hbody | exact Hready'].
Qed.

Lemma save_candle_data_ends df pair interval db :
  DatabaseConnectionPool.ready (DatabaseManager.pool db) = true ->
  (DatabaseManager.save_candle_data ext df pair interval db).1.1 <> Hang
  /\ DatabaseConnectionPool.ready
       (DatabaseManager.pool (DatabaseManager.save_candle_data ext df pair interval db).1.2)
     = true.
Proof.
  intros Hready. unfold DatabaseManager.save_candle_data.
  destruct df as [|b df]; [done|].
  destruct (_ && _); [by apply with_connection_ends|].
  destruct (sqlite_spliced ext pair interval (b :: df) (DatabaseManager.candles db));
    by apply with_connection_ends.
Qed.

Lemma interval_to_seconds_ends interval :
  MockExchangeAPI._interval_to_seconds ext interval <> Hang.
Proof.
  unfold MockExchangeAPI._interval_to_seconds.
  destruct (MockExchangeAPI.split_last interval) as [[digits unit]|]; [|done].
  destruct (py_int ext digits); by repeat case_match.
Qed.

Lemma get_candle_data_ends pair limit timeframe db :
  DatabaseConnectionPool.ready (DatabaseManager.pool db) = true ->
  (DatabaseManager.get_candle_data pair limit timeframe db).1 <> Hang
  /\ DatabaseConnectionPool.ready
       (DatabaseManager.pool (DatabaseManager.get_candle_data pair limit timeframe db).2) = true.
Proof. intros Hready. by apply with_connection_ends. Qed.

Lemma generate_ends env pair interval limit db :
  DatabaseConnectionPool.ready (DatabaseManager.pool db) = true ->
  (MockExchangeAPI.generate ext env pair interval limit db).1.1 <> Hang
  /\ DatabaseConnectionPool.ready
       (DatabaseManager.pool (MockExchangeAPI.generate ext env pair interval limit db).1.2) = true.
Proof.
  intros Hready. unfold MockExchangeAPI.generate.
  pose proof (interval_to_seconds_ends interval) as Hparse.
  destruct (MockExchangeAPI._interval_to_seconds ext interval) as [[s|]|e|]; [| |done..].
  - destruct (s * 1000 =? 0); [done|].
    match goal with |- context [DatabaseManager.save_candle_data ext ?df pair interval db] =>
      destruct (save_candle_data_ends df pair interval db Hready) as [Hs Hready1];
      destruct (DatabaseManager.save_candle_data ext df pair interval db) as [[[[]|e|] db1] ev]
    end; cbn [fst snd] in *; [|done..].
    destruct (get_candle_data_ends pair limit (Some interval) db1 Hready1) as [Hg Hready2].
    by destruct (DatabaseManager.get_candle_data pair limit (Some interval) db1).
  - done.
Qed.

Lemma get_historical_data_ends env pair interval limit force_fresh db :
  DatabaseConnectionPool.ready (DatabaseManager.pool db) = true ->
  let r := MockExchangeAPI.get_historical_data ext env cfg pair interval limit force_fresh db in
  r.1.1 <> Hang /\ DatabaseConnectionPool.ready (DatabaseManager.pool r.1.2) = true.
Proof.
  intros Hready. unfold MockExchangeAPI.get_historical_data.
  destruct force_fresh; [by apply generate_ends|].
  destruct (get_candle_data_ends pair limit (Some interval) db Hready) as [Hg Hready1].
  destruct (DatabaseManager.get_candle_data pair limit (Some interval) db)
    as [[data|e|] db1]; cbn [fst snd] in *; [|done..].
  destruct (_ && _); [done | by apply generate_ends].
Qed.

Lemma get_indicators_ends st df : Strategy.get_indicators ext st df <> Hang.
Proof.
  destruct st as [s|]; [|done].
  unfold Strategy.get_indicators, EMACCIStrategy.get_indicators, EMACCIStrategy.column,
    DataFrame.check_length.
  repeat case_match; done.
Qed.

Lemma process_data_ends eng data symbol : TradingEngine.process_data ext eng data symbol <> Hang.
Proof.
  unfold TradingEngine.process_data. destruct (DataFrame.empty data); [done|].
  generalize (DataFrame.set_pair symbol data). intros df.
  assert (TradingEngine.indicators_loop ext df (TradingEngine.strategies eng) <> Hang) as Hloop.
  { induction (TradingEngine.strategies eng) as [|[name st] strats IH]; [done|].
    cbn [TradingEngine.indicators_loop].
    pose proof (get_indicators_ends st df).
    destruct (Strategy.get_indicators ext st df); [|done..].
    by destruct (TradingEngine.indicators_loop ext df strats). }
  by destruct (TradingEngine.indicators_loop ext df (TradingEngine.strategies eng)).
Qed.

Lemma check_signals_ends eng strategy_dfs :
  TradingEngine.check_signals cfg eng strategy_dfs <> Hang.
Proof.
  induction strategy_dfs as [|[name df] rest IH]; cbn [TradingEngine.check_signals]; [done|].
  destruct (DataFrame.iloc_last df) as [latest|]; [|done].
  destruct (assoc (TradingEngine.strategies eng) name) as [strat|]; [|done].
  assert (Strategy.check_signals strat latest (TradingEngine.open_trades_of cfg eng name) <> Hang)
    as Hs.
  { destruct strat as [s|]; [|done]. cbn [Strategy.check_signals].
    rewrite emacci_check_signals_cases. cbv zeta. by repeat case_match. }
  destruct (Strategy.check_signals strat latest _) as [[d|]|e|]; done.
Qed.

Lemma dispatch_ends exchange symbol signals b :
  (dispatch cfg exchange symbol signals b).1.1 <> Blocked
  /\ db_manager (dispatch cfg exchange symbol signals b).1.2 = db_manager b.
Proof.
  unfold dispatch. destruct signals as [s|]; [|done].
  assert ((TradingEngine.execute_trades cfg (Signals.set_exchange exchange s) (engine b)).1.1
          <> Hang) as He.
  { unfold TradingEngine.execute_trades. by repeat case_match. }
  by destruct (TradingEngine.execute_trades _ _ _) as [[[ok|e|] eng] ev].
Qed.

Lemma process_pair_ends env exchange symbol b :
  DatabaseConnectionPool.ready (DatabaseManager.pool (db_manager b)) = true ->
  let r := process_pair ext env cfg exchange symbol b in
  r.1.1 <> Blocked
  /\ DatabaseConnectionPool.ready (DatabaseManager.pool (db_manager r.1.2)) = true.
Proof.
  intros Hready. unfold process_pair.
  destruct (get_historical_data_ends env symbol (Config.CURRENT_TIMEFRAME cfg) 500 false
              (db_manager b) Hready) as [Hg Hready1].
  destruct (MockExchangeAPI.get_historical_data _ _ _ _ _ _ _ _) as [[[data|e|] db] ev];
    cbn [fst snd] in *; [|done..].
  destruct (_ || _); [done|].
  pose proof (process_data_ends (engine (set_db_manager db b)) data symbol) as Hp.
  destruct (TradingEngine.process_data _ _ _ _) as [[[|d dfs]|]|e|]; [done| |done..].
  generalize (d :: dfs). clear d dfs Hp. intros strategy_dfs.
  match goal with |- context [TradingEngine.check_signals cfg ?eng strategy_dfs] =>
    pose proof (check_signals_ends eng strategy_dfs) as Hc;
    destruct (TradingEngine.check_signals cfg eng strategy_dfs) as [signals|e|]
  end; [|done..].
  match goal with |- context [dispatch cfg exchange symbol signals ?b2] =>
    destruct (dispatch_ends exchange symbol signals b2) as [Hd Hdb];
    destruct (dispatch cfg exchange symbol signals b2) as [[r b3] ev']
  end.
  cbn [fst snd] in *. split; [done|]. by rewrite Hdb.
Qed.

Lemma gather_all envs exchange todo : forall i b,
  DatabaseConnectionPool.ready (DatabaseManager.pool (db_manager b)) = true ->
  let r := gather ext envs cfg exchange i todo b in
  r.1.1.*1 = todo
  /\ Forall (fun t => t.2 <> Blocked) r.1.1
  /\ DatabaseConnectionPool.ready (DatabaseManager.pool (db_manager r.1.2)) = true.
Proof.
  induction todo as [|symbol todo IH]; intros i b Hready; cbn [gather].
  - by split; [|split; [constructor|]].
  - destruct (process_pair_ends (envs i) exchange symbol b Hready) as [Hp Hready1].
    destruct (process_pair ext (envs i) cfg exchange symbol b) as [[r b1] ev].
    cbn [fst snd] in *.
    destruct (IH (S i) b1 Hready1) as (Hnames & Hends & Hready2).
    destruct (gather ext envs cfg exchange (S i) todo b1) as [[done b2] ev'].
    cbn [fst snd] in *.
    destruct r; [| |done]; cbn [fst snd];
      (split; [cbn; by rewrite Hnames|]); (split; [by constructor | done]).
Qed.

Lemma run_tick_all envs b :
  DatabaseConnectionPool.ready (DatabaseManager.pool (db_manager b)) = true ->
  Config.SELECTED_EXCHANGE cfg ∈ api_clients b ->
  let r := run_tick ext envs cfg b in
  r.1.1.*1 = active_pairs b
  /\ Forall (fun t => t.2 <> Blocked) r.1.1
  /\ DatabaseConnectionPool.ready (DatabaseManager.pool (db_manager r.1.2)) = true
  /\ active_pairs r.1.2 = active_pairs b
  /\ api_clients r.1.2 = api_clients b.
Proof.
  intros Hready Hex r.
  destruct (run_tick_spec ext cfg envs b) as [Hm _].
  destruct (run_tick_kept ext cfg (fun _ _ => True)) with (envs := envs) (b := b)
    as (_ & Ha & Hp & _); [done..|].
  fold r in Hm, Ha, Hp.
  assert (active_pairs r.1.2 = active_pairs b) as Hact.
  { unfold active_pairs. by rewrite Hm, Hp. }
  subst r. unfold run_tick in *. rewrite bool_decide_eq_true_2 in * by done.
  destruct (gather_all envs (Config.SELECTED_EXCHANGE cfg) (active_pairs b) 0 b Hready)
    as (Hnames & Hends & Hready').
  done.
Qed.

Lemma run_ticks_all envs n : forall k b,
  DatabaseConnectionPool.ready (DatabaseManager.pool (db_manager b)) = true ->
  Config.SELECTED_EXCHANGE cfg ∈ api_clients b ->
  let r := run_ticks ext envs cfg n k b in
  length r.1.1 = n
  /\ Forall (fun tasks => tasks.*1 = active_pairs b /\ Forall (fun t => t.2 <> Blocked) tasks)
        r.1.1
  /\ DatabaseConnectionPool.ready (DatabaseManager.pool (db_manager r.1.2)) = true
  /\ active_pairs r.1.2 = active_pairs b.
Proof.
  induction n as [|n IH]; intros k b Hready Hex; cbn [run_ticks].
  - by split; [|split; [constructor|]].
  - destruct (run_tick_all (envs k) b Hready Hex) as (Hnames & Hends & Hready1 & Hact & Hcl).
    destruct (run_tick ext (envs k) cfg b) as [[tasks b1] ev]. cbn [fst snd] in *.
    rewrite <- Hcl in Hex.
    destruct (IH (S k) b1 Hready1 Hex) as (Hlen & Hall & Hready2 & Hact2).
    destruct (run_ticks ext envs cfg n (S k) b1) as [[later b2] ev']. cbn [fst snd] in *.
    split; [cbn; by rewrite Hlen|]. split; [|split; [done | congruence]].
    constructor; [done|]. by rewrite <- Hact.
Qed.

Lemma run_ticks_idle envs n exchange : forall k b,
  exchange = Config.SELECTED_EXCHANGE cfg ->
  exchange ∉ api_clients b ->
  run_ticks ext envs cfg n k b
  = (replicate n [], b,
     replicate n (LogError ("Selected exchange '" +:+ exchange +:+ "' not available."))).
Proof.
  intros k b -> Hout. revert k.
  induction n as [|n IH]; intros k; cbn [run_ticks]; [done|].
  unfold run_tick. rewrite bool_decide_eq_false_2 by done. by rewrite IH.
Qed.

End Isolation.

(** X22. One task per pair and turn, whatever the tasks raise. On a bot
    whose manager can hand out a connection and whose selected exchange
    has a client, every turn of the loop starts a task for each pair that
    is not blacklisted, in the order of the pairs, and every task ends,
    by returning or in its handler: an exception in one task stops
    neither the other tasks of the turn nor the turns after it. The
    pairs that are run stay the same from turn to turn, and the manager
    can still hand out a connection at the end. *)
Theorem every_turn_runs_every_active_pair
    (ext : Extern) (envs : nat -> nat -> Env) (cfg : Config.t) (n k : nat) (b : CryptoBot.t) :
  DatabaseConnectionPool.ready (DatabaseManager.pool (CryptoBot.db_manager b)) = true ->
  Config.SELECTED_EXCHANGE cfg ∈ CryptoBot.api_clients b ->
  let r := CryptoBot.run_ticks ext envs cfg n k b in
  length r.1.1 = n
  /\ Forall (fun tasks =>
               tasks.*1 = CryptoBot.active_pairs b
               /\ Forall (fun t => t.2 <> CryptoBot.Blocked) tasks) r.1.1
  /\ DatabaseConnectionPool.ready (DatabaseManager.pool (CryptoBot.db_manager r.1.2)) = true
  /\ CryptoBot.active_pairs r.1.2 = CryptoBot.active_pairs b.
Proof. intros Hready Hex. by apply run_ticks_all. Qed.

Lemma every_turn_witness :
  let r := CryptoBot.run_ticks Examples.ext_no_talib (fun _ _ => Examples.env_at 1700000000000000)
             Config.shipped 2 0 Examples.bot0 in
  DatabaseConnectionPool.ready (DatabaseManager.pool (CryptoBot.db_manager Examples.bot0)) = true
  /\ CryptoBot.active_pairs Examples.bot0 = ["B-BTC_USDT"; "B-ETH_USDT"]
  /\ length r.1.1 = 2%nat
  /\ Forall (fun tasks => tasks.*1 = ["B-BTC_USDT"; "B-ETH_USDT"]) r.1.1.
Proof.
  intros r. split; [reflexivity|]. split; [reflexivity|].
  assert (Config.SELECTED_EXCHANGE Config.shipped ∈ CryptoBot.api_clients Examples.bot0) as Hin
    by (cbn; left).
  destruct (every_turn_runs_every_active_pair Examples.ext_no_talib
              (fun _ _ => Examples.env_at 1700000000000000) Config.shipped 2 0 Examples.bot0
              eq_refl Hin) as (Hlen & Hall & _).
  split; [exact Hlen|]. eapply Forall_impl; [exact Hall|]. by intros tasks [-> _].
Defined.

(** X23. When the selected exchange has no client, the loop idles: every
    turn starts no task and logs that the exchange is not available, and
    the bot is left exactly as it was, for any number of turns. *)
Theorem unavailable_exchange_idles
    (ext : Extern) (envs : nat -> nat -> Env) (cfg : Config.t) (n k : nat) (b : CryptoBot.t) :
  Config.SELECTED_EXCHANGE cfg ∉ CryptoBot.api_clients b ->
  CryptoBot.run_ticks ext envs cfg n k b
  = (replicate n [], b,
     replicate n (LogError ("Selected exchange '" +:+ Config.SELECTED_EXCHANGE cfg
                            +:+ "' not available."))).
Proof. intros Hout. by apply run_ticks_idle. Qed.

Lemma unavailable_exchange_witness :
  let b := CryptoBot.mk (HealthMonitor.init 0) (DisplayManager.mk ∅ 0 []) Examples.db0
             ["binance"] ["B-BTC_USDT"] Examples.engine0 true in
  (Config.SELECTED_EXCHANGE Config.shipped ∉ CryptoBot.api_clients b)
  /\ CryptoBot.run_ticks Examples.ext_no_talib (fun _ _ => Examples.env_at 1700000000000000)
       Config.shipped 2 0 b
     = ([[]; []], b,
        [LogError "Selected exchange 'coindcx' not available.";
         LogError "Selected exchange 'coindcx' not available."]).
Proof.
  intros b.
  assert (Config.SELECTED_EXCHANGE Config.shipped ∉ CryptoBot.api_clients b) as Hout.
  { cbn. intros Hin. apply list_elem_of_singleton in Hin. discriminate. }
  split; [exact Hout|].
  exact (unavailable_exchange_idles Examples.ext_no_talib
           (fun _ _ => Examples.env_at 1700000000000000) Config.shipped 2 0 b Hout).
Defined.

(** ** An invariant of the tasks is an invariant of the loop *)

Section Turns.

Import CryptoBot.

Context (ext : Extern) (cfg : Config.t) (P : relation t).
Hypothesis P_refl : forall b, P b b.
Hypothesis P_trans : forall b1 b2 b3, P b1 b2 -> P b2 b3 -> P b1 b3.
Hypothesis P_task :
  forall env exchange symbol b, P b (process_pair ext env cfg exchange symbol b).1.2.

Lemma gather_rel envs exchange todo : forall i b,
  P b (gather ext envs cfg exchange i todo b).1.2.
Proof.
  induction todo as [|symbol todo IH]; intros i b; cbn [gather]; [apply P_refl|].
  pose proof (P_task (envs i) exchange symbol b) as Hp.
  destruct (process_pair ext (envs i) cfg exchange symbol b) as [[r b1] ev].
  pose proof (IH (S i) b1) as Hg.
  destruct (gather ext envs cfg exchange (S i) todo b1) as [[done b2] ev'].
  cbn [fst snd] in *. destruct r; cbn [fst snd]; try exact Hp; by eapply P_trans.
Qed.

Lemma run_tick_rel envs b : P b (run_tick ext envs cfg b).1.2.
Proof. unfold run_tick. case_bool_decide; [apply gather_rel | apply P_refl]. Qed.

Lemma run_ticks_rel envs n : forall k b, P b (run_ticks ext envs cfg n k b).1.2.
Proof.
  induction n as [|n IH]; intros k b; cbn [run_ticks]; [apply P_refl|].
  pose proof (run_tick_rel (envs k) b) as Ht.
  destruct (run_tick ext (envs k) cfg b) as [[tasks b1] ev].
  pose proof (IH (S k) b1) as Hl.
  destruct (run_ticks ext envs cfg n (S k) b1) as [[later b2] ev'].
  cbn [fst snd] in *. by eapply P_trans.
Qed.

End Turns.

(** ** Without TA-Lib *)

Section NoTalib.

Import CryptoBot.

Context (ext : Extern) (cfg : Config.t).
Hypothesis Hnone : talib ext = None.

Lemma get_indicators_no_talib st df : Strategy.get_indicators ext st df = Ok df.
Proof.
  destruct st as [s|]; [|done].
  unfold Strategy.get_indicators, EMACCIStrategy.get_indicators. by rewrite Hnone.
Qed.

Lemma indicators_loop_no_talib df strats :
  TradingEngine.indicators_loop ext df strats = Ok (map (fun ns => (ns.1, df)) strats).
Proof.
  induction strats as [|[name st] strats IH]; [done|].
  cbn [TradingEngine.indicators_loop map fst]. rewrite get_indicators_no_talib. cbn.
  by rewrite IH.
Qed.

Lemma get_historical_data_of_rows env pair interval limit force_fresh db data :
  (MockExchangeAPI.get_historical_data ext env cfg pair interval limit force_fresh db).1.1
  = Ok data ->
  exists rows, data = DataFrame.of_rows rows.
Proof.
  unfold MockExchangeAPI.get_historical_data.
  assert (forall db',
            (MockExchangeAPI.generate ext env pair interval limit db').1.1 = Ok data ->
            exists rows, data = DataFrame.of_rows rows) as Hgen.
  { intros db' (rows & -> & _)%generate_shape. by exists rows. }
  destruct force_fresh; [apply Hgen|].
  destruct (DatabaseManager.get_candle_data pair limit (Some interval) db)
    as [[cached|e|] db1] eqn:Hget; [|done..].
  destruct (_ && _); [|apply Hgen].
  cbn [fst snd]. intros [= <-].
  destruct (get_candle_data_shape _ _ _ _ _ _ Hget) as (_ & rows & -> & _). by exists rows.
Qed.

(** A task that got its data finds no signal and completes; the engine is
    the same whether it got its data or not. *)
Lemma process_pair_no_talib env exchange symbol b :
  let fetched := MockExchangeAPI.get_historical_data ext env cfg symbol
                   (Config.CURRENT_TIMEFRAME cfg) 500 false (db_manager b) in
  let r := process_pair ext env cfg exchange symbol b in
  engine r.1.2 = engine b
  /\ (forall data, fetched.1.1 = Ok data -> r.1.1 = Completed /\ r.2 = fetched.2).
Proof.
  intros fetched r. subst fetched r. unfold process_pair.
  pose proof (get_historical_data_of_rows env symbol (Config.CURRENT_TIMEFRAME cfg) 500 false
                (db_manager b)) as Hrows.
  destruct (MockExchangeAPI.get_historical_data _ _ _ _ _ _ _ _) as [[[data|e|] db] ev];
    cbn [fst snd] in *; [|by split..].
  destruct (Hrows data eq_refl) as [rows ->]. clear Hrows.
  destruct (_ || _); [split; [done|]; by intros ? _|].
  unfold TradingEngine.process_data.
  destruct (DataFrame.empty (DataFrame.of_rows rows)); [split; [done|]; by intros ? _|].
  rewrite indicators_loop_no_talib. cbn [mbind res_bind Py.bind].
  set (dfs := map (fun ns => (ns.1, DataFrame.set_pair symbol (DataFrame.of_rows rows)))
                 (TradingEngine.strategies (engine (set_db_manager db b)))).
  assert (forall d, TradingEngine.check_signals cfg
                      (engine (set_display d (set_db_manager db b))) dfs = Ok None) as Hcs.
  { intros d. apply check_signals_no_columns; [done|].
    intros [name st] Hin. by apply (assoc_is_Some _ name st). }
  clearbody dfs. destruct dfs as [|d0 dfs]; [split; [done|]; by intros ? _|].
  rewrite Hcs. cbn [dispatch fst snd]. rewrite app_nil_r. split; [done|]. by intros ? _.
Qed.

End NoTalib.

(** X24. Without TA-Lib nothing is ever traded. When the import of
    [talib] failed, no strategy adds an indicator column, so no row has
    an [ema200] to compare with: every task that got its series
    completes without a signal and logs nothing of its own, and over any
    number of turns of the loop the engine stays exactly as it was, even
    with auto-trading enabled. *)
Theorem without_talib_nothing_is_traded (ext : Extern) (cfg : Config.t) :
  talib ext = None ->
  (forall env exchange symbol b data,
     let fetched := MockExchangeAPI.get_historical_data ext env cfg symbol
                      (Config.CURRENT_TIMEFRAME cfg) 500 false (CryptoBot.db_manager b) in
     let r := CryptoBot.process_pair ext env cfg exchange symbol b in
     fetched.1.1 = Ok data -> r.1.1 = CryptoBot.Completed /\ r.2 = fetched.2)
  /\ (forall env exchange symbol b,
        CryptoBot.engine (CryptoBot.process_pair ext env cfg exchange symbol b).1.2
        = CryptoBot.engine b)
  /\ (forall envs n k b,
        CryptoBot.engine (CryptoBot.run_ticks ext envs cfg n k b).1.2 = CryptoBot.engine b).
Proof.
  intros Hnone. split; [|split].
  - intros env exchange symbol b data fetched r.
    by apply (process_pair_no_talib ext cfg Hnone env exchange symbol b).
  - intros env exchange symbol b.
    by destruct (process_pair_no_talib ext cfg Hnone env exchange symbol b) as [? _].
  - intros envs n k b.
    apply (run_ticks_rel ext cfg (fun b b' => CryptoBot.engine b' = CryptoBot.engine b)).
    + done.
    + intros; congruence.
    + intros env exchange symbol b0.
      by destruct (process_pair_no_talib ext cfg Hnone env exchange symbol b0) as [? _].
Qed.

Lemma without_talib_witness :
  talib Examples.ext_no_talib = None
  /\ CryptoBot.engine
       (CryptoBot.run_ticks Examples.ext_no_talib (fun _ _ => Examples.env_at 1700000000000000)
          Examples.cfg_on 2 0 Examples.bot0).1.2
     = Examples.engine0.
Proof.
  split; [reflexivity|].
  exact (proj2 (proj2 (without_talib_nothing_is_traded Examples.ext_no_talib Examples.cfg_on
                         eq_refl))
           (fun _ _ => Examples.env_at 1700000000000000) 2%nat 0%nat Examples.bot0).
Defined.

(** ** The pairs the bot trades *)

Section PairsOfTheBot.

Import TradingPairs.

Lemma ascii_compare_lt_trans a b c :
  Ascii.compare a b = Lt -> Ascii.compare b c = Lt -> Ascii.compare a c = Lt.
Proof.
  unfold Ascii.compare. rewrite !N.compare_lt_iff. lia.
Qed.

Lemma string_compare_lt_trans s1 : forall s2 s3,
  String.compare s1 s2 = Lt -> String.compare s2 s3 = Lt -> String.compare s1 s3 = Lt.
Proof.
  induction s1 as [|a s1 IH]; intros [|b s2] [|c s3]; cbn; try done.
  destruct (Ascii.compare a b) eqn:Hab; [|clear IH|done].
  - apply Ascii.compare_eq_iff in Hab as ->.
    destruct (Ascii.compare b c); [apply IH|done..].
  - intros _. destruct (Ascii.compare b c) eqn:Hbc; [| |done].
    + apply Ascii.compare_eq_iff in Hbc as ->. by rewrite Hab.
    + intros _. by rewrite (ascii_compare_lt_trans a b c).
Qed.

Lemma string_le_cases s1 s2 : string_le s1 s2 <-> s1 = s2 \/ String.compare s1 s2 = Lt.
Proof.
  unfold string_le, String.leb.
  destruct (String.compare s1 s2) eqn:Hc.
  - apply String.compare_eq_iff in Hc. split; [by left | done].
  - split; [by right | done].
  - split; [done|]. intros [->|?]; [|done].
    pose proof (String.compare_antisym s2 s2) as Ha. rewrite Hc in Ha. done.
Qed.

Lemma string_le_transitive : Transitive string_le.
Proof.
  intros s1 s2 s3. rewrite !string_le_cases.
  intros [->|H12] [->|H23]; auto. right. by eapply string_compare_lt_trans.
Qed.

Lemma string_le_total : Total string_le.
Proof. intros s1 s2. apply String.leb_total. Qed.

Lemma string_le_antisym : AntiSymm eq string_le.
Proof. intros s1 s2 H12 H21. by apply String.leb_antisym. Qed.

Lemma StronglySorted_lookup_lt {A} (R : relation A) l :
  StronglySorted R l ->
  forall i j a b, (i < j)%nat -> l !! i = Some a -> l !! j = Some b -> R a b.
Proof.
  induction 1 as [|x l Hl IH Hx]; intros i j a b Hij Ha Hb; [done|].
  destruct j as [|j]; [lia|]. cbn in Hb. destruct i as [|i].
  - injection Ha as <-. rewrite Forall_forall in Hx. apply Hx.
    by eapply list_elem_of_lookup_2.
  - cbn in Ha. apply (IH i j); [lia|done..].
Qed.

Lemma replace_slash_has_none p : "/"%char ∉ String.list_ascii_of_string (replace_slash p).
Proof.
  induction p as [|c p IH]; cbn; [apply not_elem_of_nil|].
  apply not_elem_of_cons. split; [|done].
  destruct (Ascii.eqb_spec c "/"); [done | congruence].
Qed.

End PairsOfTheBot.

(** X25. The pairs of the bot. [update_trading_pairs] lists exactly the
    default pairs and, for each manual pair, [B-] followed by the pair
    with every slash replaced by an underscore; each symbol once, also
    when it is both a default and a manual one; in strictly ascending
    order of strings. The list does not depend on the order in which
    the set is enumerated: any duplicate-free sorted list of the same
    symbols is that list. No symbol made from a manual pair keeps a
    slash. *)
Theorem trading_pairs_are_sorted_and_distinct (defaults manual : list string) :
  let pairs := TradingPairs.update_trading_pairs defaults manual in
  (forall s, s ∈ pairs
             <-> s ∈ defaults
                 \/ exists p, p ∈ manual /\ s = "B-" +:+ TradingPairs.replace_slash p)
  /\ NoDup pairs
  /\ (forall i j a b, (i < j)%nat -> pairs !! i = Some a -> pairs !! j = Some b ->
                      String.ltb a b = true)
  /\ (forall l, StronglySorted TradingPairs.string_le l -> NoDup l ->
                (forall s, s ∈ l <-> s ∈ pairs) -> l = pairs)
  /\ (forall p, "/"%char ∉ String.list_ascii_of_string (TradingPairs.replace_slash p)).
Proof.
  intros pairs.
  set (symbols := (list_to_set defaults
                   ∪ list_to_set (TradingPairs.manual_symbol <$> manual) : gset string)).
  assert (pairs ≡ₚ elements symbols) as Hperm by apply merge_sort_Permutation.
  assert (StronglySorted TradingPairs.string_le pairs) as Hsorted
    by apply (@StronglySorted_merge_sort _ _ _ string_le_transitive string_le_total).
  assert (NoDup pairs) as Hnodup by (rewrite Hperm; apply NoDup_elements).
  split; [|split; [done|split; [|split]]].
  - intros s. rewrite Hperm, elem_of_elements. unfold symbols.
    rewrite elem_of_union, !elem_of_list_to_set, list_elem_of_fmap.
    unfold TradingPairs.manual_symbol. split.
    + intros [Hd|(p & -> & Hp)]; [by left|]. right. by exists p.
    + intros [Hd|(p & Hp & ->)]; [by left|]. right. by exists p.
  - intros i j a b Hij Ha Hb.
    assert (TradingPairs.string_le a b) as Hle
      by (by apply (StronglySorted_lookup_lt _ pairs Hsorted i j a b)).
    apply string_le_cases in Hle as [->|Hlt]; [|by unfold String.ltb; rewrite Hlt].
    pose proof (NoDup_lookup _ _ _ _ Hnodup Ha Hb). lia.
  - intros l Hl Hnd Hsame.
    apply (@StronglySorted_unique _ _ string_le_antisym); [done..|].
    by apply NoDup_Permutation.
  - apply replace_slash_has_none.
Qed.

(** ** The bot as it is constructed *)

Section Constructed.

Import DatabaseConnectionPool.

(** The manager [DatabaseManager.__init__] builds: it is returned, over
    the file as it was and able to hand out a connection, as soon as one
    of the three connections of the pool could be made; when none could,
    the constructor raises the timeout error. *)
Lemma manager_init_spec connect disk :
  let r := DatabaseManager.init connect disk in
  ((exists i, (i < 3)%nat /\ connect i = true) ->
   r.1.1 = Ok () /\ DatabaseManager.candles r.1.2 = disk
   /\ ready (DatabaseManager.pool r.1.2) = true)
  /\ ((forall i, (i < 3)%nat -> connect i = false) ->
      r.1.1 = Err (Exception "Database connection timeout")).
Proof.
  unfold DatabaseManager.init, init, _initialize_pool.
  change (seq 0 (Z.to_nat (Z.min 3 (max_connections (mk 50 15 [] 0)))))
    with [0%nat; 1%nat; 2%nat].
  cbn [initialize_loop]. unfold initialize_step.
  split.
  - intros (i & Hi & Hc).
    assert (connect 0%nat = true \/ connect 1%nat = true \/ connect 2%nat = true) as Hsome.
    { destruct i as [|[|[|i]]]; [auto..|lia]. }
    destruct (connect 0%nat), (connect 1%nat), (connect 2%nat);
      try (vm_compute; done).
    exfalso. destruct Hsome as [?|[?|?]]; done.
  - intros Hnone. rewrite !Hnone by lia. vm_compute. done.
Qed.

End Constructed.

(** X26. The bot [CryptoBot.__init__] returns is ready to run. When one of
    the three connections of the pool could be made and some exchange
    with credentials is active, the constructor returns a bot whose
    manager can hand out a connection over the file as it was, whose
    clients are the active exchanges with credentials, whose engine is
    the new engine over these clients with no trade open, and whose
    pairs, none of them blacklisted, are those of
    [update_trading_pairs]; if the selected exchange is among the
    clients, every turn of the loop then runs one task for each of these
    pairs. When no connection could be made the constructor raises the
    timeout error of the pool, and with a connection but no active
    exchange with credentials it raises [ValueError]. *)
Theorem constructed_bot_is_ready_to_run
    (env : Env) (cfg : Config.t) (connect : nat -> bool) (disk : list Row.t)
    (credentials active_exchanges defaults manual : list string) :
  let r := Startup.init env cfg connect disk credentials active_exchanges defaults manual in
  let clients := filter (fun name => name ∈ active_exchanges) credentials in
  let pairs := TradingPairs.update_trading_pairs defaults manual in
  ((exists i, (i < 3)%nat /\ connect i = true) -> clients <> [] ->
   exists b,
     r.1 = Ok b
     /\ DatabaseConnectionPool.ready (DatabaseManager.pool (CryptoBot.db_manager b)) = true
     /\ DatabaseManager.candles (CryptoBot.db_manager b) = disk
     /\ CryptoBot.api_clients b = clients
     /\ CryptoBot.engine b = TradingEngine.init cfg clients
     /\ TradingEngine.open_trades (CryptoBot.engine b) = []
     /\ CryptoBot.pairs b = pairs
     /\ CryptoBot.active_pairs b = pairs
     /\ CryptoBot.running b = true
     /\ (Config.SELECTED_EXCHANGE cfg ∈ clients ->
         forall ext envs n k,
           Forall (fun tasks => tasks.*1 = pairs)
             (CryptoBot.run_ticks ext envs cfg n k b).1.1))
  /\ ((forall i, (i < 3)%nat -> connect i = false) ->
      r.1 = Err (Exception "Database connection timeout"))
  /\ ((exists i, (i < 3)%nat /\ connect i = true) -> clients = [] -> r.1 = Err ValueError).
Proof.
  intros r clients pairs. subst r. unfold Startup.init.
  destruct (manager_init_spec connect disk) as [Hsome Hnone].
  destruct (DatabaseManager.init connect disk) as [[res db] ev]. cbn [fst snd] in *.
  fold clients. fold pairs.
  split; [|split].
  - intros Hc Hclients. destruct (Hsome Hc) as (-> & Hdisk & Hready).
    destruct clients as [|c cs] eqn:Hcs; [done|]. rewrite <- Hcs in *.
    eexists. split; [reflexivity|]. cbn [CryptoBot.db_manager CryptoBot.api_clients
      CryptoBot.engine CryptoBot.pairs CryptoBot.running].
    assert (CryptoBot.active_pairs
              (CryptoBot.mk (HealthMonitor.init (time_time env))
                 (DisplayManager.mk ∅ (utcnow env) []) db clients pairs
                 (TradingEngine.init cfg clients) true) = pairs) as Hactive.
    { unfold CryptoBot.active_pairs. cbn [CryptoBot.pairs CryptoBot.health_monitor].
      apply filter_all. intros p. unfold HealthMonitor.is_pair_blacklisted, HealthMonitor.init.
      cbn. rewrite bool_decide_eq_false_2; [done | apply not_elem_of_empty]. }
    do 4 (split; [done|]).
    split.
    { apply list_empty_of_no_elem. intros [[[e s] p] t] Hin.
      apply elem_of_open_trades in Hin. by rewrite trade_at_init in Hin. }
    split; [done|]. split; [exact Hactive|]. split; [done|].
    intros Hex ext envs n k.
    match goal with |- context [CryptoBot.run_ticks ext envs cfg n k ?b] =>
      destruct (run_ticks_all ext cfg envs n k b Hready Hex) as (_ & Hall & _)
    end.
    eapply Forall_impl; [exact Hall|]. intros tasks [-> _]. exact Hactive.
  - intros Hc. by rewrite (Hnone Hc).
  - intros Hc Hclients. destruct (Hsome Hc) as (-> & _ & _). by rewrite Hclients.
Qed.

Lemma constructed_bot_witness :
  exists b,
    (Startup.init (Examples.env_at 1700000000000000) Config.shipped (fun _ => true) []
       ["coindcx"] ["coindcx"] ["B-ETH_USDT"; "B-BTC_USDT"] ["SOL/USDT"]).1 = Ok b
    /\ CryptoBot.pairs b = ["B-BTC_USDT"; "B-ETH_USDT"; "B-SOL_USDT"]
    /\ DatabaseConnectionPool.ready (DatabaseManager.pool (CryptoBot.db_manager b)) = true
    /\ CryptoBot.active_pairs b = CryptoBot.pairs b.
Proof.
  destruct (proj1 (constructed_bot_is_ready_to_run (Examples.env_at 1700000000000000)
                     Config.shipped (fun _ => true) [] ["coindcx"] ["coindcx"]
                     ["B-ETH_USDT"; "B-BTC_USDT"] ["SOL/USDT"]))
    as (b & Hb & Hready & _ & _ & _ & _ & Hpairs & Hactive & _).
  - exists 0%nat. split; [lia | reflexivity].
  - vm_compute. discriminate.
  - exists b. split; [exact Hb|]. split; [|split; [exact Hready | congruence]].
    rewrite Hpairs. vm_compute. reflexivity.
Defined.

(** ** Fetching a series again *)

Section Refetch.

Import DatabaseManager MockExchangeAPI.

(** A series stored as one ascending block of no more than [limit]
    candles, behind rows of other series, is read back as that block. *)
Lemma stored_block_is_read_back pair interval limit old bars :
  filter (fun r => CandleKey.of_series pair interval r) old = [] ->
  StronglySorted Z.lt (Bar.open_time <$> bars) ->
  limit < 0 \/ Z.of_nat (length bars) <= limit ->
  merge_sort older_first
    (select_candles pair (Some interval) limit (old ++ (Row.mk pair interval <$> bars)))
  = Row.mk pair interval <$> bars.
Proof.
  intros Hnone Hsorted Hlen. unfold select_candles. rewrite filter_app.
  change (filter _ old) with (filter (fun r => CandleKey.of_series pair interval r) old).
  rewrite Hnone, app_nil_l.
  rewrite (filter_all_elem_of _ (Row.mk pair interval <$> bars)).
  - assert (sql_limit limit (merge_sort newer_first (Row.mk pair interval <$> bars))
            = merge_sort newer_first (Row.mk pair interval <$> bars)) as ->.
    { unfold sql_limit. destruct (Z.ltb_spec limit 0) as [|Hpos]; [done|]. apply take_ge.
      rewrite (Permutation_length (merge_sort_Permutation _ _)), length_fmap. lia. }
    symmetry. apply ascending_unique.
    + rewrite <- list_fmap_compose.
      rewrite (list_fmap_ext _ Bar.open_time bars) by done.
      by apply StronglySorted_lt_NoDup.
    + by apply older_first_rows.
    + apply (@StronglySorted_merge_sort _ _ _ older_first_transitive older_first_total).
    + by rewrite !merge_sort_Permutation.
  - intros r (b & -> & _)%list_elem_of_fmap. cbn. by rewrite !String.eqb_refl.
Qed.

Lemma filter_none_elem_of {A} (P : A -> Prop) `{forall x, Decision (P x)} (l : list A) :
  (forall x, x ∈ l -> ~ P x) -> filter P l = [].
Proof.
  induction l as [|a l IH]; intros HP; [done|].
  rewrite filter_cons_False by (apply HP; left). apply IH.
  intros x Hx. apply HP. by right.
Qed.

(** Written over a block of the same times, a frame takes its place. *)
Lemma executemany_replaces_block pair interval old bars bars' :
  filter (fun r => CandleKey.of_series pair interval r) old = [] ->
  NoDup (Bar.open_time <$> bars') ->
  Bar.open_time <$> bars = Bar.open_time <$> bars' ->
  executemany pair interval bars' (old ++ (Row.mk pair interval <$> bars))
  = old ++ (Row.mk pair interval <$> bars').
Proof.
  intros Hnone Hnd Htimes. rewrite executemany_split, filter_app.
  rewrite (executemany_appends pair interval bars' []) by done. rewrite app_nil_l.
  rewrite (filter_all_elem_of _ old).
  - rewrite filter_none_elem_of; [by rewrite app_nil_r|].
    intros r (b & -> & Hb)%list_elem_of_fmap Hr.
    assert (Bar.open_time b ∈ Bar.open_time <$> bars') as (b' & Hb' & Hin')%list_elem_of_fmap.
    { rewrite <- Htimes. by apply list_elem_of_fmap_2. }
    apply Is_true_true, negb_true_iff in Hr. unfold in_frame in Hr.
    assert (existsb (fun b0 => Row.has_key pair interval (Bar.open_time b0)
                                 (Row.mk pair interval b)) bars' = true) as Hex.
    { apply existsb_exists. exists b'. split; [by apply list_elem_of_In|].
      rewrite has_key_mk. by apply Z.eqb_eq. }
    congruence.
  - intros r Hin. apply Is_true_true, negb_true_iff.
    destruct (in_frame pair interval bars' r) eqn:Hf; [|done]. exfalso.
    apply existsb_exists in Hf as (b' & _ & Hk).
    apply (filter_nil_not_elem_of _ _ r Hnone); [|done].
    apply of_series_spec. apply Is_true_true_2, has_key_key in Hk.
    unfold CandleKey.key in Hk. by injection Hk.
Qed.

Context (ext : Extern) (env env2 : Env) (cfg : Config.t) (pair interval : string) (limit s : Z)
  (db : DatabaseManager.t).

Hypothesis Hready : DatabaseConnectionPool.ready (pool db) = true.
Hypothesis Hpair : quote_free pair = true.
Hypothesis Hinterval : quote_free interval = true.
Hypothesis Hparse : _interval_to_seconds ext interval = Ok (Some s).
Hypothesis Hs : 0 < s.
Hypothesis Hlimit : 0 < limit.
Hypothesis Hnone : filter (fun r => CandleKey.of_series pair interval r) (candles db) = [].
Hypothesis Hon : Config.DATA_FRESHNESS_CHECK_ENABLED cfg = true.

Let stop : Z := Z.quot (time_time env) 1000 - Z.quot (time_time env) 1000 `mod` (s * 1000).
Let timestamps : list Z :=
  (fun i => stop - (limit - Z.of_nat i) * (s * 1000)) <$> seq 0 (Z.to_nat limit).
Let first := get_historical_data ext env cfg pair interval limit false db.

Lemma timestamps_sorted : StronglySorted Z.lt timestamps.
Proof. apply increasing_times. lia. Qed.

Lemma first_fetch_state :
  first.1.1 = Ok (DataFrame.of_rows (Row.mk pair interval <$> mock_data env timestamps))
  /\ candles first.1.2 = candles db ++ (Row.mk pair interval <$> mock_data env timestamps)
  /\ DatabaseConnectionPool.ready (pool first.1.2) = true.
Proof.
  assert (0 <= limit) as Hlimit' by lia.
  destruct (first_fetch_spec ext env pair interval limit s Hpair Hinterval Hparse Hs Hlimit'
              cfg false db Hready Hnone) as (Hr & Htbl & _).
  destruct (get_historical_data_ends ext cfg env pair interval limit false db Hready)
    as [_ Hready1].
  done.
Qed.

Let second := get_historical_data ext env2 cfg pair interval limit false first.1.2.
Let age : Z := utcnow env2 - (stop - s * 1000) * 1000.

(** The second fetch reads the block the first one wrote and dates it. *)
Lemma second_fetch_reads_the_block :
  let cached := get_candle_data pair limit (Some interval) first.1.2 in
  cached.1 = Ok (DataFrame.of_rows (Row.mk pair interval <$> mock_data env timestamps))
  /\ candles cached.2 = candles db ++ (Row.mk pair interval <$> mock_data env timestamps)
  /\ DatabaseConnectionPool.ready (pool cached.2) = true
  /\ BaseExchangeAPI.is_fresh
       (BaseExchangeAPI.validate_data_freshness cfg (utcnow env2)
          (DataFrame.of_rows (Row.mk pair interval <$> mock_data env timestamps)) pair None)
     = (age <=? Config.MAX_DATA_AGE_SECONDS cfg * 1000000)
  /\ DataFrame.empty (DataFrame.of_rows (Row.mk pair interval <$> mock_data env timestamps))
     = false.
Proof.
  destruct first_fetch_state as (_ & Htbl & Hready1).
  destruct (get_candle_data_ready pair limit (Some interval) first.1.2 Hready1)
    as (Hget & Hsame & Hready2).
  cbv zeta. rewrite Hget, Hsame, Htbl.
  rewrite stored_block_is_read_back;
    [|done|rewrite mock_data_open_times; apply timestamps_sorted|
     right; unfold timestamps; rewrite mock_data_length, length_fmap, length_seq; lia].
  destruct (generated_last env pair interval limit s Hlimit) as (row & Hlast & Htime).
  fold stop in Hlast, Htime. fold timestamps in Hlast.
  split; [done|]. split; [done|]. split; [done|]. split.
  - rewrite (validate_enabled cfg (utcnow env2) (DataFrame.of_rows _) row pair None Hon Hlast).
    cbn. by rewrite Htime.
  - unfold DataFrame.empty. cbn. by destruct (Row.mk pair interval <$> _).
Qed.

Lemma second_fetch_fresh :
  age <= Config.MAX_DATA_AGE_SECONDS cfg * 1000000 ->
  second.1.1 = first.1.1 /\ candles second.1.2 = candles first.1.2 /\ second.2 = [].
Proof.
  intros Hage. destruct first_fetch_state as (Hfirst & Htbl & _).
  destruct second_fetch_reads_the_block as (Hget & Hsame & _ & Hfresh & Hne).
  destruct (get_candle_data pair limit (Some interval) first.1.2) as [rc db2] eqn:Hc.
  cbn [fst snd] in Hget, Hsame. subst rc.
  unfold second, get_historical_data. rewrite Hc, Hne, Hfresh.
  apply Z.leb_le in Hage. rewrite Hage. cbn [negb andb fst snd].
  by rewrite Hfirst, Hsame, Htbl.
Qed.

Lemma second_fetch_stale :
  Config.MAX_DATA_AGE_SECONDS cfg * 1000000 < age ->
  stop <= Z.quot (time_time env2) 1000 < stop + s * 1000 ->
  second.1.1 = Ok (DataFrame.of_rows (Row.mk pair interval <$> mock_data env2 timestamps))
  /\ candles second.1.2 = candles db ++ (Row.mk pair interval <$> mock_data env2 timestamps)
  /\ second.2 = [].
Proof.
  intros Hage Hsame_interval.
  destruct second_fetch_reads_the_block as (Hget & Hsame & Hready2 & Hfresh & Hne).
  destruct (get_candle_data pair limit (Some interval) first.1.2) as [rc db2] eqn:Hc.
  cbn [fst snd] in Hget, Hsame, Hready2. subst rc.
  unfold second, get_historical_data. rewrite Hc, Hne, Hfresh.
  apply Z.leb_gt in Hage. rewrite Hage. cbn [negb andb].
  assert (Z.quot (time_time env2) 1000 - Z.quot (time_time env2) 1000 `mod` (s * 1000) = stop)
    as Hstop.
  { assert (stop `mod` (s * 1000) = 0) as Hal.
    { unfold stop. pose proof (Z.div_mod (Z.quot (time_time env) 1000) (s * 1000)).
      replace (Z.quot (time_time env) 1000 - Z.quot (time_time env) 1000 `mod` (s * 1000))
        with (Z.quot (time_time env) 1000 `div` (s * 1000) * (s * 1000)) by lia.
      apply Z.mod_mul. lia. }
    apply Z.mod_divide in Hal as [q Hq]; [|lia].
    rewrite <- (Z.mod_unique (Z.quot (time_time env2) 1000) (s * 1000) q
                  (Z.quot (time_time env2) 1000 - stop)); lia. }
  unfold generate. rewrite Hparse.
  destruct (Z.eqb_spec (s * 1000) 0) as [?|_]; [lia|].
  replace (limit * s * 1000) with (limit * (s * 1000)) by lia.
  rewrite Hstop. rewrite arange_back by lia. fold timestamps.
  destruct (save_candle_data_ready ext (mock_data env2 timestamps) pair interval db2
              Hready2 Hpair Hinterval) as (Hok & Htbl & Hready3).
  pose proof (save_candle_data_events ext (mock_data env2 timestamps) pair interval db2
                Hpair Hinterval) as Hev.
  destruct (save_candle_data ext (mock_data env2 timestamps) pair interval db2)
    as [[rs db3] ev]. cbn [fst snd] in Hok, Htbl, Hready3, Hev. subst rs ev.
  rewrite Hsame in Htbl.
  rewrite executemany_replaces_block in Htbl;
    [|done|rewrite mock_data_open_times; apply StronglySorted_lt_NoDup, timestamps_sorted|
     by rewrite !mock_data_open_times].
  destruct (get_candle_data_ready pair limit (Some interval) db3 Hready3) as (Hget3 & Hsame3 & _).
  destruct (get_candle_data pair limit (Some interval) db3) as [rg db4].
  cbn [fst snd] in *. subst rg. rewrite Hsame3, Htbl. split; [|done].
  rewrite stored_block_is_read_back;
    [done|done|rewrite mock_data_open_times; apply timestamps_sorted|
     right; unfold timestamps; rewrite mock_data_length, length_fmap, length_seq; lia].
Qed.

End Refetch.

(** X27. A fetch repeated while the series is fresh is served from the
    store. After the first fetch of a series (a manager that can hand out
    a connection, no stored row of the pair and interval, names without a
    quote, an interval of [s > 0] seconds, a positive limit), with the
    freshness check enabled: a second fetch at a clock at which the last
    candle, which opened one interval before [stop], is not older than
    [MAX_DATA_AGE_SECONDS] returns the series the first fetch returned,
    generates and writes nothing, and logs nothing. *)
Theorem repeated_fetch_is_served_from_the_store
    (ext : Extern) (env env2 : Env) (cfg : Config.t) (pair interval : string) (limit s : Z)
    (db : DatabaseManager.t) :
  DatabaseConnectionPool.ready (DatabaseManager.pool db) = true ->
  DatabaseManager.quote_free pair = true ->
  DatabaseManager.quote_free interval = true ->
  MockExchangeAPI._interval_to_seconds ext interval = Ok (Some s) ->
  0 < s -> 0 < limit ->
  filter (fun r => CandleKey.of_series pair interval r) (DatabaseManager.candles db) = [] ->
  Config.DATA_FRESHNESS_CHECK_ENABLED cfg = true ->
  let now_ms := Z.quot (time_time env) 1000 in
  let stop := now_ms - now_ms `mod` (s * 1000) in
  let first := MockExchangeAPI.get_historical_data ext env cfg pair interval limit false db in
  let second :=
    MockExchangeAPI.get_historical_data ext env2 cfg pair interval limit false first.1.2 in
  utcnow env2 - (stop - s * 1000) * 1000 <= Config.MAX_DATA_AGE_SECONDS cfg * 1000000 ->
  second.1.1 = first.1.1
  /\ DatabaseManager.candles second.1.2 = DatabaseManager.candles first.1.2
  /\ second.2 = []
  /\ exists rows, first.1.1 = Ok (DataFrame.of_rows rows) /\ length rows = Z.to_nat limit.
Proof.
  intros Hready Hp Hi Hparse Hs Hlimit Hnone Hon now_ms stop first second Hage.
  destruct (second_fetch_fresh ext env env2 cfg pair interval limit s db
              Hready Hp Hi Hparse Hs Hlimit Hnone Hon Hage) as (Hr & Htbl & Hev).
  split; [exact Hr|]. split; [exact Htbl|]. split; [exact Hev|].
  destruct (first_fetch_state ext env cfg pair interval limit s db
              Hready Hp Hi Hparse Hs Hlimit Hnone) as (Hfirst & _).
  eexists. split; [exact Hfirst|].
  by rewrite length_fmap, mock_data_length, length_fmap, length_seq.
Qed.

Lemma repeated_fetch_witness :
  let first := MockExchangeAPI.get_historical_data Examples.ext_no_talib
                 (Examples.env_at 1700000100000000) Config.shipped "X" "5m" 3 false
                 Examples.db0 in
  let second := MockExchangeAPI.get_historical_data Examples.ext_no_talib
                  (Examples.env_at 1700000100000000) Config.shipped "X" "5m" 3 false
                  first.1.2 in
  second.1.1 = first.1.1
  /\ length (DatabaseManager.candles second.1.2) = 3%nat.
Proof.
  destruct (repeated_fetch_is_served_from_the_store Examples.ext_no_talib
              (Examples.env_at 1700000100000000) (Examples.env_at 1700000100000000)
              Config.shipped "X" "5m" 3 300 Examples.db0
              eq_refl eq_refl eq_refl eq_refl eq_refl eq_refl eq_refl eq_refl)
    as (Hr & Htbl & _).
  - by vm_compute.
  - split; [exact Hr|]. rewrite Htbl. by vm_compute.
Defined.

(** X28. A stale series is rewritten in place. Under the same conditions,
    a second fetch within the interval of the first, at a clock at which
    the last candle is older than [MAX_DATA_AGE_SECONDS], generates the
    series again at the same times: it returns the new candles, which
    take the place of the old ones behind the other rows of the table,
    so that the table keeps its length and the series its times; nothing
    is logged. *)
Theorem stale_series_is_rewritten_in_place
    (ext : Extern) (env env2 : Env) (cfg : Config.t) (pair interval : string) (limit s : Z)
    (db : DatabaseManager.t) :
  DatabaseConnectionPool.ready (DatabaseManager.pool db) = true ->
  DatabaseManager.quote_free pair = true ->
  DatabaseManager.quote_free interval = true ->
  MockExchangeAPI._interval_to_seconds ext interval = Ok (Some s) ->
  0 < s -> 0 < limit ->
  filter (fun r => CandleKey.of_series pair interval r) (DatabaseManager.candles db) = [] ->
  Config.DATA_FRESHNESS_CHECK_ENABLED cfg = true ->
  let now_ms := Z.quot (time_time env) 1000 in
  let stop := now_ms - now_ms `mod` (s * 1000) in
  let first := MockExchangeAPI.get_historical_data ext env cfg pair interval limit false db in
  let second :=
    MockExchangeAPI.get_historical_data ext env2 cfg pair interval limit false first.1.2 in
  Config.MAX_DATA_AGE_SECONDS cfg * 1000000 < utcnow env2 - (stop - s * 1000) * 1000 ->
  stop <= Z.quot (time_time env2) 1000 < stop + s * 1000 ->
  exists rows1 rows2,
    first.1.1 = Ok (DataFrame.of_rows rows1)
    /\ second.1.1 = Ok (DataFrame.of_rows rows2)
    /\ DatabaseManager.candles first.1.2 = DatabaseManager.candles db ++ rows1
    /\ DatabaseManager.candles second.1.2 = DatabaseManager.candles db ++ rows2
    /\ Row.open_time <$> rows2 = Row.open_time <$> rows1
    /\ length (DatabaseManager.candles second.1.2) = length (DatabaseManager.candles first.1.2)
    /\ second.2 = [].
Proof.
  intros Hready Hp Hi Hparse Hs Hlimit Hnone Hon now_ms stop first second Hage Hsame.
  destruct (second_fetch_stale ext env env2 cfg pair interval limit s db
              Hready Hp Hi Hparse Hs Hlimit Hnone Hon Hage Hsame) as (Hr & Htbl & Hev).
  destruct (first_fetch_state ext env cfg pair interval limit s db
              Hready Hp Hi Hparse Hs Hlimit Hnone) as (Hfirst & Htbl1 & _).
  eexists _, _. split; [exact Hfirst|]. split; [exact Hr|].
  split; [exact Htbl1|]. split; [exact Htbl|].
  assert (forall e : Env, forall ts : list Z,
            Row.open_time <$> (Row.mk pair interval <$> MockExchangeAPI.mock_data e ts) = ts)
    as Htimes.
  { intros e ts. rewrite <- list_fmap_compose.
    rewrite <- (mock_data_open_times e ts) at 2. by apply list_fmap_ext. }
  split; [by rewrite !Htimes|]. split; [|exact Hev].
  fold first in Htbl1. fold first second in Htbl. rewrite Htbl, Htbl1, !length_app.
  f_equal. by rewrite !length_fmap, !mock_data_length.
Qed.

Lemma stale_series_witness :
  let first := MockExchangeAPI.get_historical_data Examples.ext_no_talib
                 (Examples.env_at 1700000123456789) Config.shipped "X" "5m" 3 false
                 Examples.db0 in
  let second := MockExchangeAPI.get_historical_data Examples.ext_no_talib
                  (Examples.env_at 1700000200000000) Config.shipped "X" "5m" 3 false
                  first.1.2 in
  length (DatabaseManager.candles first.1.2) = 3%nat
  /\ length (DatabaseManager.candles second.1.2) = 3%nat.
Proof.
  destruct (stale_series_is_rewritten_in_place Examples.ext_no_talib
              (Examples.env_at 1700000123456789) (Examples.env_at 1700000200000000)
              Config.shipped "X" "5m" 3 300 Examples.db0
              eq_refl eq_refl eq_refl eq_refl eq_refl eq_refl eq_refl eq_refl)
    as (rows1 & rows2 & _ & _ & _ & _ & _ & Hlen & _).
  - by vm_compute.
  - by vm_compute.
  - split; [by vm_compute|]. rewrite Hlen. by vm_compute.
Defined.
